(** * ShoppingCart: a relational model of the storefront back end

    The development embeds the Django models of [shopping_cart/models.py],
    the signal receiver of [shopping_cart/signals/handlers.py] and the
    view sets of [shopping_cart/views.py] as functions over an explicit
    database state, and proves the properties the specification states
    about carts, orders, customers and referential protection.

    Conventions.
    - A table is the list of its rows, in insertion order; every row
      carries its primary key.
    - Primary keys, foreign keys, quantities and time stamps are [Z].
    - A [DecimalField(max_digits=6, decimal_places=2)] is the integer
      number of hundredths, so [unit_price = 1099] stands for 10.99.
    - A database operation is a function [Store -> Store * (exn + A)]:
      an exception leaves the writes done before it in place, as the
      database does in autocommit mode; [atomic] undoes them. *)

From Stdlib Require Import ZArith List Bool String Lia.
Import ListNotations.

Local Open Scope string_scope.
Local Open Scope list_scope.
Local Open Scope Z_scope.

(* ===================================================================== *)
(** ** Models ([shopping_cart/models.py]) *)
(* ===================================================================== *)

(** Modelled from the spec: the identity model ([settings.AUTH_USER_MODEL])
    belongs to another application of the project; the views read its
    [id] and [is_staff], and [Customer] reads its [first_name] and
    [last_name]. *)
Module User.
Record t := mk {
  id : Z;
  username : string;
  first_name : string;
  last_name : string;
  is_staff : bool
}.
End User.

Module Promotion.
Record t := mk {
  id : Z;
  description : string;
  discount : Z
}.
End Promotion.

Module Collection.
Record t := mk {
  id : Z;
  title : string;
  featured_product : option Z          (* on_delete=SET_NULL, null=True *)
}.
End Collection.

Module Product.
Record t := mk {
  id : Z;
  title : string;
  slug : string;
  description : option string;
  unit_price : Z;                      (* hundredths *)
  inventory : Z;
  last_update : Z;
  collection : Z                       (* on_delete=PROTECT *)
}.
End Product.

Module ProductImage.
Record t := mk {
  id : Z;
  product : Z;                         (* on_delete=CASCADE *)
  image : string
}.
End ProductImage.

Inductive Membership := MEMBERSHIP_BRONZE | MEMBERSHIP_SILVER | MEMBERSHIP_GOLD.

(** The stored one-letter code and the label of [MEMBERSHIP_CHOICES]. *)
Definition membership_code (m : Membership) : string :=
  match m with
  | MEMBERSHIP_BRONZE => "B"
  | MEMBERSHIP_SILVER => "S"
  | MEMBERSHIP_GOLD => "G"
  end.

Definition membership_label (m : Membership) : string :=
  match m with
  | MEMBERSHIP_BRONZE => "Bronze"
  | MEMBERSHIP_SILVER => "Silver"
  | MEMBERSHIP_GOLD => "Gold"
  end.

Module Customer.
Record t := mk {
  id : Z;
  phone : string;
  birth_date : option Z;
  membership : Membership;             (* default=MEMBERSHIP_BRONZE *)
  user : Z                             (* OneToOneField, on_delete=CASCADE *)
}.
End Customer.

Inductive PaymentStatus :=
  PAYMENT_STATUS_PENDING | PAYMENT_STATUS_COMPLETE | PAYMENT_STATUS_FAILED.

Module Order.
Record t := mk {
  id : Z;
  placed_at : Z;                       (* auto_now_add *)
  payment_status : PaymentStatus;      (* default=PAYMENT_STATUS_PENDING *)
  customer : Z                         (* on_delete=PROTECT *)
}.
End Order.

Module OrderItem.
Record t := mk {
  id : Z;
  order : Z;                           (* on_delete=PROTECT *)
  product : Z;                         (* on_delete=PROTECT *)
  quantity : Z;
  unit_price : Z                       (* hundredths; a column of its own *)
}.
End OrderItem.

Module Address.
Record t := mk {
  id : Z;
  street : string;
  city : string;
  customer : Z                         (* on_delete=CASCADE *)
}.
End Address.

Module Cart.
Record t := mk {
  id : Z;                              (* UUIDField, the 128-bit value *)
  created_at : Z
}.
End Cart.

Module CartItem.
Record t := mk {
  id : Z;
  cart : Z;                            (* on_delete=CASCADE *)
  product : Z;                         (* on_delete=CASCADE *)
  quantity : Z
}.
End CartItem.

Module Review.
Record t := mk {
  id : Z;
  product : Z;                         (* on_delete=CASCADE *)
  name : string;
  description : string;
  date : Z
}.
End Review.

(* ===================================================================== *)
(** ** The database *)
(* ===================================================================== *)

(** One list per table, the many-to-many table of [Product.promotions]
    as pairs (product, promotion), and the auto-increment counter of
    each table the views insert into. *)
Record Store := mkStore {
  users : list User.t;
  customers : list Customer.t;
  addresses : list Address.t;
  promotions : list Promotion.t;
  collections : list Collection.t;
  products : list Product.t;
  product_promotions : list (Z * Z);
  productimages : list ProductImage.t;
  reviews : list Review.t;
  carts : list Cart.t;
  cartitems : list CartItem.t;
  orders : list Order.t;
  orderitems : list OrderItem.t;
  seq_user : Z;
  seq_customer : Z;
  seq_collection : Z;
  seq_product : Z;
  seq_cartitem : Z;
  seq_order : Z;
  seq_orderitem : Z
}.

Definition empty_store : Store :=
  mkStore [] [] [] [] [] [] [] [] [] [] [] [] [] 1 1 1 1 1 1 1.

(** Field updates. *)
Definition set_users (v : list User.t) (s : Store) : Store :=
  mkStore v (customers s) (addresses s) (promotions s) (collections s)
    (products s) (product_promotions s) (productimages s) (reviews s)
    (carts s) (cartitems s) (orders s) (orderitems s) (seq_user s)
    (seq_customer s) (seq_collection s) (seq_product s) (seq_cartitem s)
    (seq_order s) (seq_orderitem s).

Definition set_customers (v : list Customer.t) (s : Store) : Store :=
  mkStore (users s) v (addresses s) (promotions s) (collections s)
    (products s) (product_promotions s) (productimages s) (reviews s)
    (carts s) (cartitems s) (orders s) (orderitems s) (seq_user s)
    (seq_customer s) (seq_collection s) (seq_product s) (seq_cartitem s)
    (seq_order s) (seq_orderitem s).

Definition set_collections (v : list Collection.t) (s : Store) : Store :=
  mkStore (users s) (customers s) (addresses s) (promotions s) v
    (products s) (product_promotions s) (productimages s) (reviews s)
    (carts s) (cartitems s) (orders s) (orderitems s) (seq_user s)
    (seq_customer s) (seq_collection s) (seq_product s) (seq_cartitem s)
    (seq_order s) (seq_orderitem s).

Definition set_products (v : list Product.t) (s : Store) : Store :=
  mkStore (users s) (customers s) (addresses s) (promotions s)
    (collections s) v (product_promotions s) (productimages s) (reviews s)
    (carts s) (cartitems s) (orders s) (orderitems s) (seq_user s)
    (seq_customer s) (seq_collection s) (seq_product s) (seq_cartitem s)
    (seq_order s) (seq_orderitem s).

Definition set_product_promotions (v : list (Z * Z)) (s : Store) : Store :=
  mkStore (users s) (customers s) (addresses s) (promotions s)
    (collections s) (products s) v (productimages s) (reviews s) (carts s)
    (cartitems s) (orders s) (orderitems s) (seq_user s) (seq_customer s)
    (seq_collection s) (seq_product s) (seq_cartitem s) (seq_order s)
    (seq_orderitem s).

Definition set_productimages (v : list ProductImage.t) (s : Store) : Store :=
  mkStore (users s) (customers s) (addresses s) (promotions s)
    (collections s) (products s) (product_promotions s) v (reviews s)
    (carts s) (cartitems s) (orders s) (orderitems s) (seq_user s)
    (seq_customer s) (seq_collection s) (seq_product s) (seq_cartitem s)
    (seq_order s) (seq_orderitem s).

Definition set_reviews (v : list Review.t) (s : Store) : Store :=
  mkStore (users s) (customers s) (addresses s) (promotions s)
    (collections s) (products s) (product_promotions s) (productimages s) v
    (carts s) (cartitems s) (orders s) (orderitems s) (seq_user s)
    (seq_customer s) (seq_collection s) (seq_product s) (seq_cartitem s)
    (seq_order s) (seq_orderitem s).

Definition set_carts (v : list Cart.t) (s : Store) : Store :=
  mkStore (users s) (customers s) (addresses s) (promotions s)
    (collections s) (products s) (product_promotions s) (productimages s)
    (reviews s) v (cartitems s) (orders s) (orderitems s) (seq_user s)
    (seq_customer s) (seq_collection s) (seq_product s) (seq_cartitem s)
    (seq_order s) (seq_orderitem s).

Definition set_cartitems (v : list CartItem.t) (s : Store) : Store :=
  mkStore (users s) (customers s) (addresses s) (promotions s)
    (collections s) (products s) (product_promotions s) (productimages s)
    (reviews s) (carts s) v (orders s) (orderitems s) (seq_user s)
    (seq_customer s) (seq_collection s) (seq_product s) (seq_cartitem s)
    (seq_order s) (seq_orderitem s).

Definition set_orders (v : list Order.t) (s : Store) : Store :=
  mkStore (users s) (customers s) (addresses s) (promotions s)
    (collections s) (products s) (product_promotions s) (productimages s)
    (reviews s) (carts s) (cartitems s) v (orderitems s) (seq_user s)
    (seq_customer s) (seq_collection s) (seq_product s) (seq_cartitem s)
    (seq_order s) (seq_orderitem s).

Definition set_orderitems (v : list OrderItem.t) (s : Store) : Store :=
  mkStore (users s) (customers s) (addresses s) (promotions s)
    (collections s) (products s) (product_promotions s) (productimages s)
    (reviews s) (carts s) (cartitems s) (orders s) v (seq_user s)
    (seq_customer s) (seq_collection s) (seq_product s) (seq_cartitem s)
    (seq_order s) (seq_orderitem s).

Definition set_seq_user (v : Z) (s : Store) : Store :=
  mkStore (users s) (customers s) (addresses s) (promotions s)
    (collections s) (products s) (product_promotions s) (productimages s)
    (reviews s) (carts s) (cartitems s) (orders s) (orderitems s) v
    (seq_customer s) (seq_collection s) (seq_product s) (seq_cartitem s)
    (seq_order s) (seq_orderitem s).

Definition set_seq_customer (v : Z) (s : Store) : Store :=
  mkStore (users s) (customers s) (addresses s) (promotions s)
    (collections s) (products s) (product_promotions s) (productimages s)
    (reviews s) (carts s) (cartitems s) (orders s) (orderitems s)
    (seq_user s) v (seq_collection s) (seq_product s) (seq_cartitem s)
    (seq_order s) (seq_orderitem s).

Definition set_seq_collection (v : Z) (s : Store) : Store :=
  mkStore (users s) (customers s) (addresses s) (promotions s)
    (collections s) (products s) (product_promotions s) (productimages s)
    (reviews s) (carts s) (cartitems s) (orders s) (orderitems s)
    (seq_user s) (seq_customer s) v (seq_product s) (seq_cartitem s)
    (seq_order s) (seq_orderitem s).

Definition set_seq_product (v : Z) (s : Store) : Store :=
  mkStore (users s) (customers s) (addresses s) (promotions s)
    (collections s) (products s) (product_promotions s) (productimages s)
    (reviews s) (carts s) (cartitems s) (orders s) (orderitems s)
    (seq_user s) (seq_customer s) (seq_collection s) v (seq_cartitem s)
    (seq_order s) (seq_orderitem s).

Definition set_seq_cartitem (v : Z) (s : Store) : Store :=
  mkStore (users s) (customers s) (addresses s) (promotions s)
    (collections s) (products s) (product_promotions s) (productimages s)
    (reviews s) (carts s) (cartitems s) (orders s) (orderitems s)
    (seq_user s) (seq_customer s) (seq_collection s) (seq_product s) v
    (seq_order s) (seq_orderitem s).

Definition set_seq_order (v : Z) (s : Store) : Store :=
  mkStore (users s) (customers s) (addresses s) (promotions s)
    (collections s) (products s) (product_promotions s) (productimages s)
    (reviews s) (carts s) (cartitems s) (orders s) (orderitems s)
    (seq_user s) (seq_customer s) (seq_collection s) (seq_product s)
    (seq_cartitem s) v (seq_orderitem s).

Definition set_seq_orderitem (v : Z) (s : Store) : Store :=
  mkStore (users s) (customers s) (addresses s) (promotions s)
    (collections s) (products s) (product_promotions s) (productimages s)
    (reviews s) (carts s) (cartitems s) (orders s) (orderitems s)
    (seq_user s) (seq_customer s) (seq_collection s) (seq_product s)
    (seq_cartitem s) (seq_order s) v.

Inductive exn :=
| ValidationError            (* rest_framework.exceptions.ValidationError *)
| NotFound                   (* Http404 / rest_framework NotFound *)
| NotAuthenticated
| PermissionDenied
| DoesNotExist               (* Model.DoesNotExist *)
| MultipleObjectsReturned
| ProtectedError             (* django.db.models.ProtectedError *)
| IntegrityError             (* django.db.IntegrityError *)
| DataError                  (* django.db.DataError *)
| DatabaseError.             (* any other failure of a statement *)

(** The monad of database code. *)
Definition M (A : Type) : Type := Store -> Store * (exn + A).

Definition ret {A} (a : A) : M A := fun s => (s, inr a).

Definition raise {A} (e : exn) : M A := fun s => (s, inl e).

Definition bind {A B} (m : M A) (k : A -> M B) : M B :=
  fun s =>
    match m s with
    | (s1, inr a) => k a s1
    | (s1, inl e) => (s1, inl e)
    end.

Notation "x <- m ;; k" := (bind m (fun x => k))
  (at level 61, m at next level, right associativity).
Notation "m ;;; k" := (bind m (fun _ => k))
  (at level 61, right associativity).

Definition get_store : M Store := fun s => (s, inr s).

Definition modify (f : Store -> Store) : M unit := fun s => (f s, inr tt).

(** [transaction.atomic()]: the block's writes are kept when it returns
    and undone when it raises; the exception is raised again. *)
Definition atomic {A} (m : M A) : M A :=
  fun s =>
    match m s with
    | (s1, inr a) => (s1, inr a)
    | (_, inl e) => (s, inl e)
    end.

(* ===================================================================== *)
(** ** The object-relational layer

    What Django does for the declarations of [models.py]: [get] on a
    query set, validators, [create] with the defaults, the unique and
    foreign-key constraints the database enforces, and [delete] with the
    [on_delete] rule of every relation that points at the deleted row. *)
(* ===================================================================== *)

(** [QuerySet.get()] on the rows a filter selected. *)
Definition objects_get {A} (rows : list A) : exn + A :=
  match rows with
  | [] => inl DoesNotExist
  | [r] => inr r
  | _ :: _ :: _ => inl MultipleObjectsReturned
  end.

(** [QuerySet.count()]. *)
Definition count {A} (rows : list A) : Z := Z.of_nat (List.length rows).

(** The truth value of a query set, and [QuerySet.exists()]. *)
Definition exists_rows {A} (rows : list A) : bool :=
  match rows with
  | [] => false
  | _ :: _ => true
  end.

(** [MinValueValidator(limit)] and [MaxValueValidator(limit)] accept a
    value when they return [true]. *)
Definition MinValueValidator (limit value : Z) : bool := limit <=? value.

Definition MaxValueValidator (limit value : Z) : bool := value <=? limit.

Definition run_validators (vs : list (Z -> bool)) (value : Z) : bool :=
  forallb (fun v => v value) vs.

(** A [PositiveSmallIntegerField] column refuses negative values: the
    CHECK constraint Django creates for a positive field. How large a
    value the column takes is a matter of the database backend, which
    these sources do not fix, so no upper limit is modelled. *)
Definition PositiveSmallIntegerField_check (v : Z) : bool := 0 <=? v.

(** [CartItem.quantity]: [validators=[MinValueValidator(1)]]. *)
Definition CartItem_quantity_validators : list (Z -> bool) :=
  [MinValueValidator 1].

(** [Product.unit_price]: [validators=[MinValueValidator(1)]] on a
    [DecimalField(max_digits=6, decimal_places=2)], in hundredths. *)
Definition Product_unit_price_validators : list (Z -> bool) :=
  [MinValueValidator 100; MaxValueValidator 999999].

(** [Product.inventory]: [validators=[MinValueValidator(0)]]. *)
Definition Product_inventory_validators : list (Z -> bool) :=
  [MinValueValidator 0].

(** *** Row predicates *)

Definition user_exists (pk : Z) (s : Store) : bool :=
  existsb (fun u => User.id u =? pk) (users s).

Definition collection_exists (pk : Z) (s : Store) : bool :=
  existsb (fun c => Collection.id c =? pk) (collections s).

Definition product_exists (pk : Z) (s : Store) : bool :=
  existsb (fun p => Product.id p =? pk) (products s).

Definition cart_exists (pk : Z) (s : Store) : bool :=
  existsb (fun c => Cart.id c =? pk) (carts s).

Definition customer_exists (pk : Z) (s : Store) : bool :=
  existsb (fun c => Customer.id c =? pk) (customers s).

Definition order_exists (pk : Z) (s : Store) : bool :=
  existsb (fun o => Order.id o =? pk) (orders s).

(** [CartItem.objects.filter(cart_id=...)]. *)
Definition items_of_cart (cart_id : Z) (s : Store) : list CartItem.t :=
  filter (fun i => CartItem.cart i =? cart_id) (cartitems s).

(** [CartItem.objects.filter(cart_id=..., product_id=...)]. *)
Definition lines_of (cart_id product_id : Z) (s : Store) : list CartItem.t :=
  filter (fun i => (CartItem.cart i =? cart_id)
                   && (CartItem.product i =? product_id)) (cartitems s).

(** [OrderItem.objects.filter(order_id=...)], the reverse relation
    [order.items]. *)
Definition items_of_order (order_id : Z) (s : Store) : list OrderItem.t :=
  filter (fun i => OrderItem.order i =? order_id) (orderitems s).

(** *** Inserts *)

(** [Customer.objects.create(user=instance)]: the other fields take
    their defaults; the one-to-one column is unique and a foreign key. *)
Definition Customer_objects_create (user_id : Z) : M Customer.t :=
  fun s =>
    if existsb (fun c => Customer.user c =? user_id) (customers s)
    then (s, inl IntegrityError)
    else if negb (user_exists user_id s) then (s, inl IntegrityError)
    else
      let c := Customer.mk (seq_customer s) "" None MEMBERSHIP_BRONZE
                 user_id in
      (set_seq_customer (seq_customer s + 1)
         (set_customers (customers s ++ [c]) s), inr c).

(** [Order.objects.create(customer=...)]: [placed_at] is the time of the
    insert and [payment_status] takes its default. *)
Definition Order_objects_create (customer_id now : Z) : M Order.t :=
  fun s =>
    if negb (customer_exists customer_id s) then (s, inl IntegrityError)
    else
      let o := Order.mk (seq_order s) now PAYMENT_STATUS_PENDING
                 customer_id in
      (set_seq_order (seq_order s + 1) (set_orders (orders s ++ [o]) s),
       inr o).

Definition OrderItem_objects_create (order_id product_id quantity
                                       unit_price : Z) : M OrderItem.t :=
  fun s =>
    if negb (order_exists order_id s) then (s, inl IntegrityError)
    else if negb (product_exists product_id s) then (s, inl IntegrityError)
    else if negb (PositiveSmallIntegerField_check quantity)
    then (s, inl IntegrityError)
    else
      let i := OrderItem.mk (seq_orderitem s) order_id product_id quantity
                 unit_price in
      (set_seq_orderitem (seq_orderitem s + 1)
         (set_orderitems (orderitems s ++ [i]) s), inr i).

(** [Cart.objects.create()]: the key is the value [uuid4] drew. *)
Definition Cart_objects_create (uuid now : Z) : M Cart.t :=
  fun s =>
    if cart_exists uuid s then (s, inl IntegrityError)
    else
      let c := Cart.mk uuid now in
      (set_carts (carts s ++ [c]) s, inr c).

(** [CartItem.objects.create(cart_id=..., product_id=..., quantity=...)]:
    two foreign keys, [unique_together = [['cart', 'product']]] and the
    CHECK constraint of the column. *)
Definition CartItem_objects_create (cart_id product_id quantity : Z)
  : M CartItem.t :=
  fun s =>
    if negb (cart_exists cart_id s) then (s, inl IntegrityError)
    else if negb (product_exists product_id s) then (s, inl IntegrityError)
    else if exists_rows (lines_of cart_id product_id s)
    then (s, inl IntegrityError)
    else if negb (PositiveSmallIntegerField_check quantity)
    then (s, inl IntegrityError)
    else
      let i := CartItem.mk (seq_cartitem s) cart_id product_id quantity in
      (set_seq_cartitem (seq_cartitem s + 1)
         (set_cartitems (cartitems s ++ [i]) s), inr i).

(** A row after [quantity] was assigned and the row saved, when its key
    is [pk]; any other row as it was. *)
Definition with_quantity (pk quantity : Z) (i : CartItem.t) : CartItem.t :=
  if CartItem.id i =? pk
  then CartItem.mk (CartItem.id i) (CartItem.cart i) (CartItem.product i)
         quantity
  else i.

(** [cart_item.save()] after an assignment to [quantity]: the row with
    the item's key gets the new quantity. *)
Definition CartItem_save_quantity (pk quantity : Z) : M unit :=
  fun s =>
    if negb (PositiveSmallIntegerField_check quantity)
    then (s, inl IntegrityError)
    else
      (set_cartitems (map (with_quantity pk quantity) (cartitems s)) s,
       inr tt).

(** *** Deletes *)

(** [product.delete()]. [OrderItem.product] is PROTECT; [CartItem],
    [ProductImage], [Review] and the rows of [Product.promotions] are
    CASCADE; [Collection.featured_product] is SET_NULL. *)
Definition Product_delete (pk : Z) : M unit :=
  fun s =>
    if existsb (fun i => OrderItem.product i =? pk) (orderitems s)
    then (s, inl ProtectedError)
    else
      (set_products (filter (fun p => negb (Product.id p =? pk)) (products s))
      (set_cartitems
         (filter (fun i => negb (CartItem.product i =? pk)) (cartitems s))
      (set_productimages
         (filter (fun i => negb (ProductImage.product i =? pk))
            (productimages s))
      (set_reviews
         (filter (fun r => negb (Review.product r =? pk)) (reviews s))
      (set_product_promotions
         (filter (fun r => negb (fst r =? pk)) (product_promotions s))
      (set_collections
         (map (fun c =>
                 match Collection.featured_product c with
                 | Some f =>
                     if f =? pk
                     then Collection.mk (Collection.id c)
                            (Collection.title c) None
                     else c
                 | None => c
                 end) (collections s)) s))))), inr tt).

(** [collection.delete()]: [Product.collection] is PROTECT. *)
Definition Collection_delete (pk : Z) : M unit :=
  fun s =>
    if existsb (fun p => Product.collection p =? pk) (products s)
    then (s, inl ProtectedError)
    else
      (set_collections
         (filter (fun c => negb (Collection.id c =? pk)) (collections s)) s,
       inr tt).

(** [cart.delete()] and [Cart.objects.filter(pk=...).delete()]:
    [CartItem.cart] is CASCADE. *)
Definition Cart_delete (pk : Z) : M unit :=
  fun s =>
    (set_carts (filter (fun c => negb (Cart.id c =? pk)) (carts s))
    (set_cartitems
       (filter (fun i => negb (CartItem.cart i =? pk)) (cartitems s)) s),
     inr tt).

Definition CartItem_delete (pk : Z) : M unit :=
  fun s =>
    (set_cartitems
       (filter (fun i => negb (CartItem.id i =? pk)) (cartitems s)) s,
     inr tt).

(** [order.delete()]: [OrderItem.order] is PROTECT. *)
Definition Order_delete (pk : Z) : M unit :=
  fun s =>
    if existsb (fun i => OrderItem.order i =? pk) (orderitems s)
    then (s, inl ProtectedError)
    else
      (set_orders (filter (fun o => negb (Order.id o =? pk)) (orders s)) s,
       inr tt).

(* ===================================================================== *)
(** ** Customer provisioning ([shopping_cart/signals/handlers.py]) *)
(* ===================================================================== *)

(** The receiver of [post_save] for the identity model:
    [if kwargs['created']: Customer.objects.create(user=kwargs['instance'])]. *)
Definition create_customer_for_new_user (instance : User.t) (created : bool)
  : M unit :=
  if created
  then _ <- Customer_objects_create (User.id instance) ;; ret tt
  else ret tt.

(** [post_save.send(sender=User, instance=..., created=...)]:
    [StoreConfig.ready] imports the module above, which registers its one
    receiver; [send] lets a receiver's exception through. *)
Definition post_save_send (instance : User.t) (created : bool) : M unit :=
  create_customer_for_new_user instance created.

(** [Model.save()] of the identity model. Without a key the row is
    inserted under the next key; with a key the row of that key is
    updated, and inserted when there is none. [created] tells the
    receivers which of the two happened. *)
Definition User_save (pk : option Z) (username first_name last_name : string)
                     (is_staff : bool) : M User.t :=
  match pk with
  | None =>
      s <- get_store ;;
      let u := User.mk (seq_user s) username first_name last_name is_staff in
      modify (fun s => set_seq_user (seq_user s + 1)
                         (set_users (users s ++ [u]) s)) ;;;
      post_save_send u true ;;;
      ret u
  | Some k =>
      s <- get_store ;;
      let u := User.mk k username first_name last_name is_staff in
      if user_exists k s
      then
        modify (fun s => set_users
                           (map (fun r => if User.id r =? k then u else r)
                              (users s)) s) ;;;
        post_save_send u false ;;;
        ret u
      else
        modify (fun s => set_users (users s ++ [u]) s) ;;;
        post_save_send u true ;;;
        ret u
  end.

(* ===================================================================== *)
(** ** Responses and permissions (Django REST framework) *)
(* ===================================================================== *)

Inductive Body :=
| NoBody
| ErrorBody (error : string)
| UserBody (u : User.t)
| CollectionBody (c : Collection.t)
| ProductBody (p : Product.t)
| CartBody (c : Cart.t)
| CartItemBody (i : CartItem.t)
| OrderBody (o : Order.t) (items : list OrderItem.t)
| OrderListBody (os : list Order.t).

Record Response := mkResponse {
  status_code : Z;
  data : Body
}.

Definition HTTP_200_OK : Z := 200.
Definition HTTP_201_CREATED : Z := 201.
Definition HTTP_204_NO_CONTENT : Z := 204.
Definition HTTP_400_BAD_REQUEST : Z := 400.
Definition HTTP_401_UNAUTHORIZED : Z := 401.
Definition HTTP_403_FORBIDDEN : Z := 403.
Definition HTTP_404_NOT_FOUND : Z := 404.
Definition HTTP_405_METHOD_NOT_ALLOWED : Z := 405.
Definition HTTP_500_INTERNAL_SERVER_ERROR : Z := 500.

(** The framework's exception handler: API exceptions become their
    status; anything else is a server error. *)
Definition exception_response (e : exn) : Response :=
  match e with
  | ValidationError => mkResponse HTTP_400_BAD_REQUEST (ErrorBody "invalid")
  | NotFound => mkResponse HTTP_404_NOT_FOUND (ErrorBody "not_found")
  | NotAuthenticated =>
      mkResponse HTTP_401_UNAUTHORIZED (ErrorBody "not_authenticated")
  | PermissionDenied =>
      mkResponse HTTP_403_FORBIDDEN (ErrorBody "permission_denied")
  | _ => mkResponse HTTP_500_INTERNAL_SERVER_ERROR (ErrorBody "error")
  end.

(** A view: what the request leaves in the database and what it answers.
    No transaction is open around a view, so the writes made before an
    exception stay. *)
Definition respond (m : M Response) (s : Store) : Store * Response :=
  match m s with
  | (s1, inr r) => (s1, r)
  | (s1, inl e) => (s1, exception_response e)
  end.

(** [request.user]. *)
Inductive Caller :=
| AnonymousUser
| Authenticated (u : User.t).

Definition caller_id (c : Caller) : option Z :=
  match c with
  | AnonymousUser => None
  | Authenticated u => Some (User.id u)
  end.

Definition caller_is_authenticated (c : Caller) : bool :=
  match c with
  | AnonymousUser => false
  | Authenticated _ => true
  end.

Definition caller_is_staff (c : Caller) : bool :=
  match c with
  | AnonymousUser => false
  | Authenticated u => User.is_staff u
  end.

Inductive Permission := IsAdminUser | IsAuthenticated.

Definition has_permission (p : Permission) (user : Caller) : bool :=
  match p with
  | IsAdminUser => caller_is_staff user
  | IsAuthenticated => caller_is_authenticated user
  end.

(** [APIView.check_permissions]: the first permission that refuses ends
    the request, with 401 for an anonymous caller and 403 otherwise. *)
Definition check_permissions (ps : list Permission) (user : Caller) : M unit :=
  if forallb (fun p => has_permission p user) ps then ret tt
  else if caller_is_authenticated user then raise PermissionDenied
  else raise NotAuthenticated.

(* ===================================================================== *)
(** ** Views ([shopping_cart/views.py]) *)
(* ===================================================================== *)

(** [DestroyModelMixin.destroy] for each model with a default queryset:
    [get_object] answers 404 for an unknown key, then the instance is
    deleted and the answer is 204. *)
Definition ModelViewSet_destroy (exists_ : Z -> Store -> bool)
                                (delete : Z -> M unit) (pk : Z) : M Response :=
  s <- get_store ;;
  if negb (exists_ pk s) then raise NotFound
  else delete pk ;;; ret (mkResponse HTTP_204_NO_CONTENT NoBody).

(** [ProductViewSet.destroy]. [pk] is the key of the URL read as an
    integer; what the guard query does with a key that is no integer of
    the column's range is left out of the model. *)
Definition ProductViewSet_destroy (pk : Z) : M Response :=
  s <- get_store ;;
  if count (filter (fun i => OrderItem.product i =? pk) (orderitems s)) >? 0
  then
    ret (mkResponse HTTP_405_METHOD_NOT_ALLOWED
           (ErrorBody "Product cannot be deleted because it is associated with an order item."))
  else ModelViewSet_destroy product_exists Product_delete pk.

(** [CollectionViewSet.destroy], with the same reading of [pk]. *)
Definition CollectionViewSet_destroy (pk : Z) : M Response :=
  s <- get_store ;;
  if exists_rows (filter (fun p => Product.collection p =? pk) (products s))
  then
    ret (mkResponse HTTP_405_METHOD_NOT_ALLOWED
           (ErrorBody "Collection cannot be deleted because it includes one or more products."))
  else ModelViewSet_destroy collection_exists Collection_delete pk.

(** [OrderViewSet.get_permissions]. *)
Definition OrderViewSet_get_permissions (method : string) : list Permission :=
  if existsb (String.eqb method) ["PATCH"; "DELETE"]
  then [IsAdminUser]
  else [IsAuthenticated].

(** [Customer.objects.only('id').get(user_id=user.id)]; an anonymous
    caller has no id and matches no row. *)
Definition Customer_objects_get (user_id : option Z) : M Customer.t :=
  fun s =>
    (s, match user_id with
        | None => inl DoesNotExist
        | Some k =>
            objects_get (filter (fun c => Customer.user c =? k) (customers s))
        end).

(** [OrderViewSet.get_queryset]. *)
Definition OrderViewSet_get_queryset (user : Caller) : M (list Order.t) :=
  s <- get_store ;;
  if caller_is_staff user then ret (orders s)
  else
    customer_id <- Customer_objects_get (caller_id user) ;;
    ret (filter (fun o => Order.customer o =? Customer.id customer_id)
           (orders s)).

(** [ListModelMixin.list] of [OrderViewSet]. *)
Definition OrderViewSet_list (user : Caller) : M Response :=
  os <- OrderViewSet_get_queryset user ;;
  ret (mkResponse HTTP_200_OK (OrderListBody os)).

(** [CartItemViewSet.get_queryset] followed by [get_object]. *)
Definition CartItemViewSet_get_object (cart_pk pk : Z) : M CartItem.t :=
  s <- get_store ;;
  match filter (fun i => CartItem.id i =? pk) (items_of_cart cart_pk s) with
  | [] => raise NotFound
  | i :: _ => ret i
  end.

(* ===================================================================== *)
(** ** Serializers

    The views import their serializers from [shopping_cart/serializers.py],
    whose text this development does not have; the definitions of this
    section follow the specification instead. *)
(* ===================================================================== *)

(** An induced failure: [fault = Some k] makes the [k]-th write statement
    of the request raise instead of running. *)
Definition stmt {A} (fault : option nat) (k : nat) (m : M A) : M A :=
  match fault with
  | Some j => if Nat.eqb j k then raise DatabaseError else m
  | None => m
  end.

(** Modelled from the spec: the validation of [CreateOrderSerializer]
    (4.1, input validation): the cart identifier must reference an
    existing cart (NotFound otherwise) that is not empty
    (ValidationError otherwise). *)
Definition CreateOrderSerializer_is_valid (cart_id : Z) : M unit :=
  s <- get_store ;;
  if negb (cart_exists cart_id s) then raise NotFound
  else if negb (exists_rows (items_of_cart cart_id s)) then raise ValidationError
  else ret tt.

(** The product a cart line refers to, read through its key. *)
Definition Product_objects_get (pk : Z) : M Product.t :=
  fun s =>
    (s, match find (fun p => Product.id p =? pk) (products s) with
        | Some p => inr p
        | None => inl DoesNotExist
        end).

(** Modelled from the spec: the copy loop of order placement (4.1,
    coordination): one OrderItem per CartItem, with the line's quantity
    and the product's current unit price. Write statements are numbered
    from [k]. *)
Fixpoint create_order_items (fault : option nat) (k : nat) (order_id : Z)
                            (items : list CartItem.t) : M unit :=
  match items with
  | [] => ret tt
  | i :: rest =>
      p <- Product_objects_get (CartItem.product i) ;;
      stmt fault k
        (OrderItem_objects_create order_id (CartItem.product i)
           (CartItem.quantity i) (Product.unit_price p)) ;;;
      create_order_items fault (S k) order_id rest
  end.

(** Modelled from the spec: [CreateOrderSerializer.save] (4.1 and 5): the
    caller's Customer is resolved, the Order header is written, then one
    OrderItem per cart line, then the cart is deleted, all inside one
    transactional boundary. *)
Definition CreateOrderSerializer_save (fault : option nat)
    (user_id : option Z) (cart_id now : Z) : M Order.t :=
  atomic (
    customer <- Customer_objects_get user_id ;;
    order <- stmt fault 0 (Order_objects_create (Customer.id customer) now) ;;
    s <- get_store ;;
    let items := items_of_cart cart_id s in
    create_order_items fault 1 (Order.id order) items ;;;
    stmt fault (S (List.length items)) (Cart_delete cart_id) ;;;
    ret order).

(** The same statements without the transactional boundary, to compare. *)
Definition save_without_atomic (fault : option nat)
    (user_id : option Z) (cart_id now : Z) : M Order.t :=
  customer <- Customer_objects_get user_id ;;
  order <- stmt fault 0 (Order_objects_create (Customer.id customer) now) ;;
  s <- get_store ;;
  let items := items_of_cart cart_id s in
  create_order_items fault 1 (Order.id order) items ;;;
  stmt fault (S (List.length items)) (Cart_delete cart_id) ;;;
  ret order.

(** Modelled from the spec: the validation shared by
    [AddCartItemSerializer] and [UpdateCartItemSerializer] (4.2 and 7):
    the quantity goes through the validators of [CartItem.quantity]. *)
Definition CartItemSerializer_is_valid (quantity : Z) : M unit :=
  if run_validators CartItem_quantity_validators quantity then ret tt
  else raise ValidationError.

(** Modelled from the spec: [AddCartItemSerializer.save] (4.2): a product
    already in the cart has its line's quantity increased, a new product
    gets a new line. *)
Definition AddCartItemSerializer_save (cart_id product_id quantity : Z)
  : M CartItem.t :=
  s <- get_store ;;
  match objects_get (lines_of cart_id product_id s) with
  | inr cart_item =>
      let q := CartItem.quantity cart_item + quantity in
      CartItem_save_quantity (CartItem.id cart_item) q ;;;
      ret (CartItem.mk (CartItem.id cart_item) (CartItem.cart cart_item)
             (CartItem.product cart_item) q)
  | inl DoesNotExist => CartItem_objects_create cart_id product_id quantity
  | inl e => raise e
  end.

(** Modelled from the spec: [UpdateCartItemSerializer.save]: the line
    takes the validated quantity. *)
Definition UpdateCartItemSerializer_save (instance : CartItem.t)
                                         (quantity : Z) : M CartItem.t :=
  CartItem_save_quantity (CartItem.id instance) quantity ;;;
  ret (CartItem.mk (CartItem.id instance) (CartItem.cart instance)
         (CartItem.product instance) quantity).

Module ProductData.
Record t := mk {
  title : string;
  slug : string;
  description : option string;
  unit_price : Z;
  inventory : Z;
  collection : Z
}.
End ProductData.

Definition Product_of_data (pk now : Z) (d : ProductData.t) : Product.t :=
  Product.mk pk (ProductData.title d) (ProductData.slug d)
    (ProductData.description d) (ProductData.unit_price d)
    (ProductData.inventory d) now (ProductData.collection d).

(** Modelled from the spec: the validation of [ProductSerializer] (3 and
    7): the validators of [unit_price] and [inventory], and a collection
    that exists. *)
Definition ProductSerializer_is_valid (d : ProductData.t) : M unit :=
  s <- get_store ;;
  if run_validators Product_unit_price_validators (ProductData.unit_price d)
     && run_validators Product_inventory_validators (ProductData.inventory d)
     && collection_exists (ProductData.collection d) s
  then ret tt
  else raise ValidationError.

(* ===================================================================== *)
(** ** Views that go through a serializer *)
(* ===================================================================== *)

(** [OrderViewSet.create]: validate, save, answer with the serialized
    order and its items. *)
Definition OrderViewSet_create (fault : option nat) (user : Caller)
                               (cart_id now : Z) : M Response :=
  CreateOrderSerializer_is_valid cart_id ;;;
  order <- CreateOrderSerializer_save fault (caller_id user) cart_id now ;;
  s <- get_store ;;
  ret (mkResponse HTTP_200_OK
         (OrderBody order (items_of_order (Order.id order) s))).

(** [get_object] of [OrderViewSet]: the key is looked up in
    [get_queryset]. *)
Definition OrderViewSet_get_object (user : Caller) (pk : Z) : M Order.t :=
  qs <- OrderViewSet_get_queryset user ;;
  match filter (fun o => Order.id o =? pk) qs with
  | [] => raise NotFound
  | o :: _ => ret o
  end.

(** PATCH on an order. Modelled from the spec: [UpdateOrderSerializer]
    (6, update payment status) replaces the payment status and nothing
    else. *)
Definition OrderViewSet_partial_update (user : Caller) (pk : Z)
                                       (st : PaymentStatus) : M Response :=
  o <- OrderViewSet_get_object user pk ;;
  let o1 := Order.mk (Order.id o) (Order.placed_at o) st (Order.customer o) in
  modify (fun s => set_orders
                     (map (fun r => if Order.id r =? pk then o1 else r)
                        (orders s)) s) ;;;
  s <- get_store ;;
  ret (mkResponse HTTP_200_OK (OrderBody o1 (items_of_order pk s))).

(** DELETE on an order. *)
Definition OrderViewSet_destroy (user : Caller) (pk : Z) : M Response :=
  o <- OrderViewSet_get_object user pk ;;
  Order_delete (Order.id o) ;;;
  ret (mkResponse HTTP_204_NO_CONTENT NoBody).

(** [APIView.initial] of [OrderViewSet]: the permissions of the method
    are checked before the handler runs. *)
Definition OrderViewSet_dispatch (method : string) (user : Caller)
                                 (handler : M Response) : M Response :=
  check_permissions (OrderViewSet_get_permissions method) user ;;;
  handler.

(** POST on [/carts/{cart_pk}/items/]. *)
Definition CartItemViewSet_create (cart_pk product_id quantity : Z)
  : M Response :=
  CartItemSerializer_is_valid quantity ;;;
  i <- AddCartItemSerializer_save cart_pk product_id quantity ;;
  ret (mkResponse HTTP_201_CREATED (CartItemBody i)).

(** PATCH on [/carts/{cart_pk}/items/{pk}/]. *)
Definition CartItemViewSet_partial_update (cart_pk pk quantity : Z)
  : M Response :=
  instance <- CartItemViewSet_get_object cart_pk pk ;;
  CartItemSerializer_is_valid quantity ;;;
  i <- UpdateCartItemSerializer_save instance quantity ;;
  ret (mkResponse HTTP_200_OK (CartItemBody i)).

(** DELETE on [/carts/{cart_pk}/items/{pk}/]. *)
Definition CartItemViewSet_destroy (cart_pk pk : Z) : M Response :=
  instance <- CartItemViewSet_get_object cart_pk pk ;;
  CartItem_delete (CartItem.id instance) ;;;
  ret (mkResponse HTTP_204_NO_CONTENT NoBody).

(** [CartViewSet]: [CreateModelMixin] and [DestroyModelMixin]. *)
Definition CartViewSet_create (uuid now : Z) : M Response :=
  c <- Cart_objects_create uuid now ;;
  ret (mkResponse HTTP_201_CREATED (CartBody c)).

Definition CartViewSet_destroy (pk : Z) : M Response :=
  ModelViewSet_destroy cart_exists Cart_delete pk.

(** [ProductViewSet]: create and update of [ModelViewSet], through the
    validation above; [last_update] is [auto_now]. *)
Definition ProductViewSet_create (d : ProductData.t) (now : Z) : M Response :=
  ProductSerializer_is_valid d ;;;
  s <- get_store ;;
  let p := Product_of_data (seq_product s) now d in
  modify (fun s => set_seq_product (seq_product s + 1)
                     (set_products (products s ++ [p]) s)) ;;;
  ret (mkResponse HTTP_201_CREATED (ProductBody p)).

Definition ProductViewSet_update (pk : Z) (d : ProductData.t) (now : Z)
  : M Response :=
  s <- get_store ;;
  if negb (product_exists pk s) then raise NotFound
  else
    ProductSerializer_is_valid d ;;;
    let p := Product_of_data pk now d in
    modify (fun s => set_products
                       (map (fun r => if Product.id r =? pk then p else r)
                          (products s)) s) ;;;
    ret (mkResponse HTTP_200_OK (ProductBody p)).

(** [CollectionViewSet]: create of [ModelViewSet]. Modelled from the
    spec: [CollectionSerializer] takes the title (3). *)
Definition CollectionViewSet_create (title : string) : M Response :=
  s <- get_store ;;
  let c := Collection.mk (seq_collection s) title None in
  modify (fun s => set_seq_collection (seq_collection s + 1)
                     (set_collections (collections s ++ [c]) s)) ;;;
  ret (mkResponse HTTP_201_CREATED (CollectionBody c)).

(** Creation and update of an identity record, by whichever component
    manages identities: both end in [User.save()]. *)
Definition identity_create (username first_name last_name : string)
                           (is_staff : bool) : M Response :=
  u <- User_save None username first_name last_name is_staff ;;
  ret (mkResponse HTTP_201_CREATED (UserBody u)).

Definition identity_update (pk : Z) (username first_name last_name : string)
                           (is_staff : bool) : M Response :=
  s <- get_store ;;
  if negb (user_exists pk s) then raise NotFound
  else
    u <- User_save (Some pk) username first_name last_name is_staff ;;
    ret (mkResponse HTTP_200_OK (UserBody u)).

(* ===================================================================== *)
(** ** Deletes of customers, reviews and images ([shopping_cart/views.py]) *)
(* ===================================================================== *)

Definition set_addresses (v : list Address.t) (s : Store) : Store :=
  mkStore (users s) (customers s) v (promotions s) (collections s)
    (products s) (product_promotions s) (productimages s) (reviews s)
    (carts s) (cartitems s) (orders s) (orderitems s) (seq_user s)
    (seq_customer s) (seq_collection s) (seq_product s) (seq_cartitem s)
    (seq_order s) (seq_orderitem s).

(** [ReviewViewSet.get_queryset]:
    [Review.objects.filter(product_id=self.kwargs['product_pk'])]. *)
Definition ReviewViewSet_get_queryset (product_pk : Z) (s : Store)
  : list Review.t :=
  filter (fun r => Review.product r =? product_pk) (reviews s).

(** [get_object] of [ReviewViewSet]: the key is looked up in
    [get_queryset]. *)
Definition ReviewViewSet_get_object (product_pk pk : Z) : M Review.t :=
  s <- get_store ;;
  match filter (fun r => Review.id r =? pk)
          (ReviewViewSet_get_queryset product_pk s) with
  | [] => raise NotFound
  | r :: _ => ret r
  end.

(** [review.delete()]: nothing refers to a review. *)
Definition Review_delete (pk : Z) : M unit :=
  fun s =>
    (set_reviews (filter (fun r => negb (Review.id r =? pk)) (reviews s)) s,
     inr tt).

(** DELETE on [/products/{product_pk}/reviews/{pk}/]. *)
Definition ReviewViewSet_destroy (product_pk pk : Z) : M Response :=
  instance <- ReviewViewSet_get_object product_pk pk ;;
  Review_delete (Review.id instance) ;;;
  ret (mkResponse HTTP_204_NO_CONTENT NoBody).

(** [ProductImageViewSet.get_queryset]:
    [ProductImage.objects.filter(product_id=self.kwargs['product_pk'])]. *)
Definition ProductImageViewSet_get_queryset (product_pk : Z) (s : Store)
  : list ProductImage.t :=
  filter (fun i => ProductImage.product i =? product_pk) (productimages s).

Definition ProductImageViewSet_get_object (product_pk pk : Z)
  : M ProductImage.t :=
  s <- get_store ;;
  match filter (fun i => ProductImage.id i =? pk)
          (ProductImageViewSet_get_queryset product_pk s) with
  | [] => raise NotFound
  | i :: _ => ret i
  end.

Definition ProductImage_delete (pk : Z) : M unit :=
  fun s =>
    (set_productimages
       (filter (fun i => negb (ProductImage.id i =? pk)) (productimages s)) s,
     inr tt).

(** DELETE on [/products/{product_pk}/images/{pk}/]. *)
Definition ProductImageViewSet_destroy (product_pk pk : Z) : M Response :=
  instance <- ProductImageViewSet_get_object product_pk pk ;;
  ProductImage_delete (ProductImage.id instance) ;;;
  ret (mkResponse HTTP_204_NO_CONTENT NoBody).

(** [CustomerViewSet]: [permission_classes = [IsAdminUser]]. *)
Definition CustomerViewSet_permission_classes : list Permission :=
  [IsAdminUser].

(** [customer.delete()]: [Order.customer] is PROTECT, [Address.customer]
    is CASCADE. *)
Definition Customer_delete (pk : Z) : M unit :=
  fun s =>
    if existsb (fun o => Order.customer o =? pk) (orders s)
    then (s, inl ProtectedError)
    else
      (set_customers
         (filter (fun c => negb (Customer.id c =? pk)) (customers s))
      (set_addresses
         (filter (fun a => negb (Address.customer a =? pk)) (addresses s))
         s), inr tt).

(** DELETE on [/customers/{pk}/]: [CustomerViewSet] is a [ModelViewSet]
    and does not override [destroy]. *)
Definition CustomerViewSet_destroy (user : Caller) (pk : Z) : M Response :=
  check_permissions CustomerViewSet_permission_classes user ;;;
  ModelViewSet_destroy customer_exists Customer_delete pk.

(* ===================================================================== *)
(** ** Requests and runs *)
(* ===================================================================== *)

(** The requests of the model: the writes to identities, catalog, carts
    and orders, and the deletions of customers, reviews and images.
    Requests on the catalog, on carts, on reviews and on images are
    taken after their permission check; a refused request changes
    nothing. Creation and update of customers, addresses, reviews and
    images go through serializers that are not among the sources and
    are not part of the model. *)
Inductive Request :=
| IdentityCreate (username first_name last_name : string) (is_staff : bool)
| IdentityUpdate (pk : Z) (username first_name last_name : string)
                 (is_staff : bool)
| CollectionCreate (title : string)
| CollectionDestroy (pk : Z)
| ProductCreate (d : ProductData.t) (now : Z)
| ProductUpdate (pk : Z) (d : ProductData.t) (now : Z)
| ProductDestroy (pk : Z)
| CartCreate (uuid now : Z)
| CartDestroy (pk : Z)
| CartItemCreate (cart_pk product_id quantity : Z)
| CartItemUpdate (cart_pk pk quantity : Z)
| CartItemDestroy (cart_pk pk : Z)
| OrderCreate (fault : option nat) (user : Caller) (cart_id now : Z)
| OrderList (user : Caller)
| OrderUpdate (user : Caller) (pk : Z) (st : PaymentStatus)
| OrderDestroy (user : Caller) (pk : Z)
| CustomerDestroy (user : Caller) (pk : Z)
| ReviewDestroy (product_pk pk : Z)
| ProductImageDestroy (product_pk pk : Z).

Definition view (r : Request) : M Response :=
  match r with
  | IdentityCreate n f l st => identity_create n f l st
  | IdentityUpdate pk n f l st => identity_update pk n f l st
  | CollectionCreate t => CollectionViewSet_create t
  | CollectionDestroy pk => CollectionViewSet_destroy pk
  | ProductCreate d now => ProductViewSet_create d now
  | ProductUpdate pk d now => ProductViewSet_update pk d now
  | ProductDestroy pk => ProductViewSet_destroy pk
  | CartCreate uuid now => CartViewSet_create uuid now
  | CartDestroy pk => CartViewSet_destroy pk
  | CartItemCreate c p q => CartItemViewSet_create c p q
  | CartItemUpdate c pk q => CartItemViewSet_partial_update c pk q
  | CartItemDestroy c pk => CartItemViewSet_destroy c pk
  | OrderCreate fault user cart_id now =>
      OrderViewSet_dispatch "POST" user
        (OrderViewSet_create fault user cart_id now)
  | OrderList user =>
      OrderViewSet_dispatch "GET" user (OrderViewSet_list user)
  | OrderUpdate user pk st =>
      OrderViewSet_dispatch "PATCH" user
        (OrderViewSet_partial_update user pk st)
  | OrderDestroy user pk =>
      OrderViewSet_dispatch "DELETE" user (OrderViewSet_destroy user pk)
  | CustomerDestroy user pk => CustomerViewSet_destroy user pk
  | ReviewDestroy product_pk pk => ReviewViewSet_destroy product_pk pk
  | ProductImageDestroy product_pk pk =>
      ProductImageViewSet_destroy product_pk pk
  end.

Definition handle (r : Request) (s : Store) : Store * Response :=
  respond (view r) s.

(** The database after a sequence of requests. *)
Definition run (rs : list Request) (s : Store) : Store :=
  fold_left (fun s r => fst (handle r s)) rs s.

(** The states these requests lead to from the empty database. *)
Definition reachable (s : Store) : Prop :=
  exists rs, s = run rs empty_store.

(* ===================================================================== *)
(** ** Invariants of the reachable states *)
(* ===================================================================== *)

(** The key [unique_together] speaks of. *)
Definition line_key (i : CartItem.t) : Z * Z :=
  (CartItem.cart i, CartItem.product i).

(** Every cart line refers to a product that exists. *)
Definition lines_ok (ps : list Product.t) (cis : list CartItem.t) : Prop :=
  Forall (fun i => existsb (fun p => Product.id p =? CartItem.product i) ps
                   = true) cis.

Record Inv (s : Store) : Prop := mkInv {
  (** every cart line refers to a product that exists *)
  inv_line_product : lines_ok (products s) (cartitems s);
  (** no two cart lines share (cart, product) *)
  inv_unique_together : NoDup (map line_key (cartitems s));
  (** the quantity of a cart line is at least 1 *)
  inv_quantity : Forall (fun i => 1 <= CartItem.quantity i) (cartitems s);
  (** order items refer to order keys already handed out *)
  inv_item_order :
    Forall (fun i => OrderItem.order i < seq_order s) (orderitems s);
  (** customers refer to identity keys already handed out *)
  inv_customer_user :
    Forall (fun c => Customer.user c < seq_user s) (customers s)
}.

(** What makes a new order item a copy of a cart line: the order it
    belongs to, the line's product and quantity, and the unit price the
    product has in [ps]. *)
Definition copied (ps : list Product.t) (order_id : Z)
                  (line : CartItem.t) (item : OrderItem.t) : Prop :=
  OrderItem.order item = order_id
  /\ OrderItem.product item = CartItem.product line
  /\ OrderItem.quantity item = CartItem.quantity line
  /\ exists p, find (fun p => Product.id p =? CartItem.product line) ps
               = Some p
               /\ OrderItem.unit_price item = Product.unit_price p.

(** The store after the order items [new] were inserted. *)
Definition add_orderitems (new : list OrderItem.t) (s : Store) : Store :=
  set_seq_orderitem (seq_orderitem s + Z.of_nat (List.length new))
    (set_orderitems (orderitems s ++ new) s).

(** The store after the order header [o] was inserted. *)
Definition add_order (o : Order.t) (s : Store) : Store :=
  set_seq_order (seq_order s + 1) (set_orders (orders s ++ [o]) s).

(** The store after the cart [pk] and its lines were deleted. *)
Definition remove_cart (pk : Z) (s : Store) : Store :=
  set_carts (filter (fun c => negb (Cart.id c =? pk)) (carts s))
    (set_cartitems
       (filter (fun i => negb (CartItem.cart i =? pk)) (cartitems s)) s).

(** The store after a placement went through: header, items, cart. *)
Definition placed (o : Order.t) (new : list OrderItem.t) (cart_id : Z)
                  (s : Store) : Store :=
  remove_cart cart_id (add_orderitems new (add_order o s)).

(** From [s] to [s'] order items were only added, all under the order
    key that was next in [s], and the order counter did not go back. *)
Definition items_grow (s s' : Store) : Prop :=
  exists new,
    orderitems s' = orderitems s ++ new
    /\ Forall (fun i => OrderItem.order i = seq_order s) new
    /\ seq_order s <= seq_order s'.

(** Whether the induced failure is the write statement number [k], and
    whether it is one of the [n] write statements numbered from [k]. *)
Definition fault_at (fault : option nat) (k : nat) : bool :=
  match fault with
  | Some j => Nat.eqb j k
  | None => false
  end.

Fixpoint hits (fault : option nat) (k n : nat) : bool :=
  match n with
  | O => false
  | S n' => fault_at fault k || hits fault (S k) n'
  end.

(* ===================================================================== *)
(** ** A worked scenario *)
(* ===================================================================== *)

(** One customer, one collection with two products, one cart with two
    lines; then the same after the customer checked the cart out. *)
Definition alice : User.t := User.mk 1 "alice" "Alice" "Liddell" false.

Definition admin : User.t := User.mk 2 "root" "Ada" "Admin" true.

Definition tea : ProductData.t :=
  ProductData.mk "Tea" "tea" None 1099 10 1.

Definition mug : ProductData.t :=
  ProductData.mk "Mug" "mug" None 500 4 1.

Definition demo_requests : list Request :=
  [ IdentityCreate "alice" "Alice" "Liddell" false;
    IdentityCreate "root" "Ada" "Admin" true;
    CollectionCreate "Kitchen";
    ProductCreate tea 10;
    ProductCreate mug 11;
    CartCreate 77 20;
    CartItemCreate 77 1 2;
    CartItemCreate 77 2 1 ].

Definition demo_store : Store := run demo_requests empty_store.

Definition demo_second_cart : Store := run [CartCreate 78 21] demo_store.

Definition demo_ordered : Store :=
  run [OrderCreate None (Authenticated alice) 77 30] demo_store.


(* ===================================================================== *)
(** ** The rest of the views ([shopping_cart/views.py]) *)
(* ===================================================================== *)

(** [CustomerViewSet.me] on GET, as the row it serializes: the action
    replaces the permissions of the view set by [IsAuthenticated] and
    fetches [Customer.objects.get(user_id=request.user.id)]. *)
Definition CustomerViewSet_me_get (user : Caller) : M Customer.t :=
  check_permissions [IsAuthenticated] user ;;;
  Customer_objects_get (caller_id user).

(** [Customer.first_name], [Customer.last_name] and [Customer.__str__]
    read the linked identity. *)
Definition Customer_user (c : Customer.t) (s : Store) : option User.t :=
  find (fun u => User.id u =? Customer.user c) (users s).

Definition Customer_str (c : Customer.t) (s : Store) : option string :=
  match Customer_user c s with
  | Some u => Some (User.first_name u ++ " " ++ User.last_name u)%string
  | None => None
  end.

(** *** Methods a view set answers *)

(** [str.lower()] on the letters of a method name. *)
Definition ascii_lower (c : Ascii.ascii) : Ascii.ascii :=
  let n := Ascii.nat_of_ascii c in
  if (Nat.leb 65 n && Nat.leb n 90)%bool
  then Ascii.ascii_of_nat (n + 32)
  else c.

Fixpoint lower (m : string) : string :=
  match m with
  | EmptyString => EmptyString
  | String c rest => String (ascii_lower c) (lower rest)
  end.

(** [CartItemViewSet.http_method_names] and
    [OrderViewSet.http_method_names]. *)
Definition CartItemViewSet_http_method_names : list string :=
  ["get"; "post"; "patch"; "delete"].

Definition OrderViewSet_http_method_names : list string :=
  ["get"; "post"; "patch"; "delete"; "head"; "options"].

(** [request.method.lower() in self.http_method_names]. *)
Definition method_handled (names : list string) (method : string) : bool :=
  existsb (String.eqb (lower method)) names.

(** The answer of [http_method_not_allowed]. *)
Definition method_not_allowed : Response :=
  mkResponse HTTP_405_METHOD_NOT_ALLOWED (ErrorBody "method_not_allowed").

(** [APIView.dispatch] of [OrderViewSet]: [initial] checks the
    permissions of the method, then the handler is looked up among
    [http_method_names]. *)
Definition OrderViewSet_route (method : string) (user : Caller)
                              (handler : M Response) : M Response :=
  OrderViewSet_dispatch method user
    (if method_handled OrderViewSet_http_method_names method
     then handler
     else ret method_not_allowed).

(** The handler lookup of [CartItemViewSet], which declares no
    permissions of its own. *)
Definition CartItemViewSet_route (method : string) (handler : M Response)
  : M Response :=
  if method_handled CartItemViewSet_http_method_names method
  then handler
  else ret method_not_allowed.

Inductive SerializerClass :=
| AddCartItemSerializer
| UpdateCartItemSerializer
| CartItemSerializer
| CreateOrderSerializer
| UpdateOrderSerializer
| OrderSerializer.

(** [CartItemViewSet.get_serializer_class]. *)
Definition CartItemViewSet_get_serializer_class (method : string)
  : SerializerClass :=
  if String.eqb method "POST" then AddCartItemSerializer
  else if String.eqb method "PATCH" then UpdateCartItemSerializer
  else CartItemSerializer.

(** [OrderViewSet.get_serializer_class]. *)
Definition OrderViewSet_get_serializer_class (method : string)
  : SerializerClass :=
  if String.eqb method "POST" then CreateOrderSerializer
  else if String.eqb method "PATCH" then UpdateOrderSerializer
  else OrderSerializer.

(* ===================================================================== *)
(** ** Referential integrity *)
(* ===================================================================== *)

(** Every row of [rows] refers, through [key], to a row of [targets]
    with that primary key. *)
Definition refs {R T : Type} (key : R -> Z) (pk : T -> Z)
                (rows : list R) (targets : list T) : Prop :=
  Forall (fun r => existsb (fun t => pk t =? key r) targets = true) rows.

(** The foreign keys of [models.py], one field per relation, and the
    uniqueness of the one-to-one column of [Customer]. *)
Record Integrity (s : Store) : Prop := mkIntegrity {
  int_line_cart : refs CartItem.cart Cart.id (cartitems s) (carts s);
  int_line_product :
    refs CartItem.product Product.id (cartitems s) (products s);
  int_item_order : refs OrderItem.order Order.id (orderitems s) (orders s);
  int_item_product :
    refs OrderItem.product Product.id (orderitems s) (products s);
  int_order_customer :
    refs Order.customer Customer.id (orders s) (customers s);
  int_customer_user : refs Customer.user User.id (customers s) (users s);
  int_product_collection :
    refs Product.collection Collection.id (products s) (collections s);
  int_image_product :
    refs ProductImage.product Product.id (productimages s) (products s);
  int_review_product :
    refs Review.product Product.id (reviews s) (products s);
  int_featured :
    Forall (fun c => match Collection.featured_product c with
                     | Some f => product_exists f s = true
                     | None => True
                     end) (collections s);
  int_one_customer : NoDup (map Customer.user (customers s));
  int_address_customer :
    refs Address.customer Customer.id (addresses s) (customers s);
  int_promotion_product :
    refs (@fst Z Z) Product.id (product_promotions s) (products s);
  int_promotion_promotion :
    refs (@snd Z Z) Promotion.id (product_promotions s) (promotions s)
}.

(** Whether a request is the deletion of a customer. *)
Definition deletes_customer (r : Request) : bool :=
  match r with
  | CustomerDestroy _ _ => true
  | _ => false
  end.

(** Every identity of the directory has a customer. *)
Definition Provisioned (s : Store) : Prop :=
  refs User.id Customer.user (users s) (customers s).

(** A catalog with a review, two images and a featured product on top
    of the worked scenario, and a third, non-staff identity. *)
Definition demo_catalog : Store :=
  set_reviews [Review.mk 1 1 "Ann" "Fine tea" 12; Review.mk 2 2 "Bo" "Ok" 13]
    (set_productimages
       [ProductImage.mk 1 1 "tea.png"; ProductImage.mk 2 2 "mug.png"]
       (set_product_promotions [(1, 7); (2, 7)]
          (set_collections [Collection.mk 1 "Kitchen" (Some 1)]
             demo_store))).

Definition bob : User.t := User.mk 3 "bob" "Bob" "Builder" false.

Definition demo_three : Store :=
  run [IdentityCreate "bob" "Bob" "Builder" false] demo_ordered.

Definition demo_three_requests : list Request :=
  demo_requests
  ++ [OrderCreate None (Authenticated alice) 77 30;
      IdentityCreate "bob" "Bob" "Builder" false].

(* ===================================================================== *)
(** ** Two placements on one cart *)
(* ===================================================================== *)

(** [OrderViewSet.create] makes two calls, [is_valid] and then [save],
    and nothing in the views holds the cart between them, so the steps
    of two requests can alternate. A request is followed through its
    two steps; [save] is one step, as its transactional boundary makes
    it. *)
Inductive Phase :=
| Received
| Validated
| Answered (r : Response).

(** The second half of [OrderViewSet.create]: save, then the answer. *)
Definition OrderViewSet_create_save (fault : option nat) (user : Caller)
                                    (cart_id now : Z) : M Response :=
  order <- CreateOrderSerializer_save fault (caller_id user) cart_id now ;;
  s <- get_store ;;
  ret (mkResponse HTTP_200_OK
         (OrderBody order (items_of_order (Order.id order) s))).

(** The next step of a placement request of an authenticated caller. *)
Definition placement_step (user : Caller) (cart_id now : Z) (ph : Phase)
                          (s : Store) : Store * Phase :=
  match ph with
  | Received =>
      match CreateOrderSerializer_is_valid cart_id s with
      | (s1, inr _) => (s1, Validated)
      | (s1, inl e) => (s1, Answered (exception_response e))
      end
  | Validated =>
      match respond (OrderViewSet_create_save None user cart_id now) s with
      | (s1, r) => (s1, Answered r)
      end
  | Answered r => (s, Answered r)
  end.









(* --------------------------------------------------------------------- *)
(** *** Lists *)

Section ListFacts.
Context {A : Type}.

Lemma Forall_filter_keep (P : A -> Prop) (f : A -> bool) (l : list A) :
  Forall P l -> Forall P (filter f l).
Proof.
  intros H. apply Forall_forall. intros x Hx.
  apply filter_In in Hx. destruct Hx as [Hx _].
  rewrite Forall_forall in H. auto.
Qed.

Lemma NoDup_map_filter {K : Type} (key : A -> K) (f : A -> bool)
      (l : list A) :
  NoDup (map key l) -> NoDup (map key (filter f l)).
Proof.
  induction l as [|a l IH]; simpl; intros H; [constructor|].
  inversion H as [|? ? Hnot Hrest]; subst.
  destruct (f a); simpl; auto.
  constructor; auto.
  intros Hin. apply Hnot.
  apply in_map_iff in Hin. destruct Hin as [x [Hk Hx]].
  apply filter_In in Hx. destruct Hx as [Hx _].
  apply in_map_iff. exists x. auto.
Qed.

Lemma map_key_update {K : Type} (key : A -> K) (g : A -> A) (l : list A) :
  (forall a, key (g a) = key a) -> map key (map g l) = map key l.
Proof.
  intros Hg. rewrite map_map. apply map_ext. auto.
Qed.

Lemma existsb_update (test : A -> bool) (g : A -> A) (l : list A) :
  (forall a, test (g a) = test a) ->
  existsb test (map g l) = existsb test l.
Proof.
  intros Hg. induction l as [|a l IH]; simpl; [reflexivity|].
  now rewrite Hg, IH.
Qed.

Lemma filter_none (f : A -> bool) (l : list A) :
  existsb f l = false -> filter f l = [].
Proof.
  induction l as [|a l IH]; simpl; [reflexivity|].
  destruct (f a); simpl; [discriminate|auto].
Qed.

Lemma filter_nil_existsb (f : A -> bool) (l : list A) :
  filter f l = [] -> existsb f l = false.
Proof.
  induction l as [|a l IH]; simpl; [reflexivity|].
  destruct (f a); simpl; [discriminate|auto].
Qed.

Lemma filter_filter_neg (f : A -> bool) (l : list A) :
  filter f (filter (fun a => negb (f a)) l) = [].
Proof.
  induction l as [|a l IH]; simpl; [reflexivity|].
  destruct (f a) eqn:E; simpl; [auto|]. now rewrite E.
Qed.

Lemma existsb_filter_neg (f : A -> bool) (l : list A) :
  existsb f (filter (fun a => negb (f a)) l) = false.
Proof.
  apply filter_nil_existsb, filter_filter_neg.
Qed.

Lemma exists_rows_existsb (f : A -> bool) (l : list A) :
  exists_rows (filter f l) = existsb f l.
Proof.
  induction l as [|a l IH]; simpl; [reflexivity|].
  destruct (f a); simpl; auto.
Qed.

Lemma count_pos_existsb (f : A -> bool) (l : list A) :
  (count (filter f l) >? 0) = existsb f l.
Proof.
  rewrite <- exists_rows_existsb. unfold count.
  destruct (filter f l); simpl; [reflexivity|].
  apply Z.gtb_lt. lia.
Qed.
End ListFacts.

(* --------------------------------------------------------------------- *)
(** *** Cart lines and the products they refer to *)

Lemma lines_ok_new_product ps p cis :
  lines_ok ps cis -> lines_ok (ps ++ [p]) cis.
Proof.
  unfold lines_ok. intros H. eapply Forall_impl; [|exact H].
  intros i Hi. simpl in Hi. now rewrite existsb_app, Hi.
Qed.

Lemma lines_ok_product_update ps pk p cis :
  Product.id p = pk ->
  lines_ok ps cis ->
  lines_ok (map (fun r => if Product.id r =? pk then p else r) ps) cis.
Proof.
  unfold lines_ok. intros Hp H. eapply Forall_impl; [|exact H].
  intros i Hi. simpl in *. rewrite <- Hi. apply existsb_update.
  intros r. destruct (Product.id r =? pk) eqn:E; [|reflexivity].
  apply Z.eqb_eq in E. congruence.
Qed.

Lemma lines_ok_product_delete ps pk cis :
  lines_ok ps cis ->
  lines_ok (filter (fun p => negb (Product.id p =? pk)) ps)
           (filter (fun i => negb (CartItem.product i =? pk)) cis).
Proof.
  unfold lines_ok. intros H. apply Forall_forall. intros i Hi.
  apply filter_In in Hi. destruct Hi as [Hi Hne].
  rewrite Forall_forall in H. specialize (H i Hi).
  apply existsb_exists in H. destruct H as [p [Hp Hid]].
  apply existsb_exists. exists p. split; [|exact Hid].
  apply filter_In. split; [exact Hp|].
  apply Z.eqb_eq in Hid. now rewrite Hid.
Qed.

Lemma lines_ok_filter ps f cis :
  lines_ok ps cis -> lines_ok ps (filter f cis).
Proof. apply Forall_filter_keep. Qed.

Lemma lines_ok_new_line ps cis i :
  existsb (fun p => Product.id p =? CartItem.product i) ps = true ->
  lines_ok ps cis -> lines_ok ps (cis ++ [i]).
Proof.
  unfold lines_ok. intros Hi H. apply Forall_app. split; auto.
Qed.

Lemma lines_ok_line_update ps cis (g : CartItem.t -> CartItem.t) :
  (forall i, CartItem.product (g i) = CartItem.product i) ->
  lines_ok ps cis -> lines_ok ps (map g cis).
Proof.
  unfold lines_ok. intros Hg H. apply Forall_map.
  eapply Forall_impl; [|exact H]. intros i Hi. simpl. now rewrite Hg.
Qed.

Lemma with_quantity_product pk q i :
  CartItem.product (with_quantity pk q i) = CartItem.product i.
Proof. unfold with_quantity. now destruct (CartItem.id i =? pk). Qed.

Lemma with_quantity_key pk q i :
  line_key (with_quantity pk q i) = line_key i.
Proof. unfold with_quantity. now destruct (CartItem.id i =? pk). Qed.

Lemma with_quantity_bounds pk q cis :
  1 <= q ->
  Forall (fun i => 1 <= CartItem.quantity i) cis ->
  Forall (fun i => 1 <= CartItem.quantity i)
    (map (with_quantity pk q) cis).
Proof.
  intros Hq H. apply Forall_map. eapply Forall_impl; [|exact H].
  intros i Hi. unfold with_quantity. simpl in *.
  destruct (CartItem.id i =? pk); simpl; lia.
Qed.

Lemma field_check_nonneg q :
  PositiveSmallIntegerField_check q = true <-> 0 <= q.
Proof. unfold PositiveSmallIntegerField_check. apply Z.leb_le. Qed.

Lemma quantity_valid q :
  run_validators CartItem_quantity_validators q = true <-> 1 <= q.
Proof.
  unfold run_validators, CartItem_quantity_validators, MinValueValidator.
  simpl. rewrite andb_true_r. apply Z.leb_le.
Qed.

(** No line for a key means the key is new among the keys. *)
Lemma lines_of_nil_not_in c p s :
  lines_of c p s = [] -> ~ In (c, p) (map line_key (cartitems s)).
Proof.
  unfold lines_of. intros H Hin.
  apply in_map_iff in Hin. destruct Hin as [i [Hk Hi]].
  assert (Hf : In i (filter (fun i => (CartItem.cart i =? c)
                                      && (CartItem.product i =? p))
                       (cartitems s))).
  { apply filter_In. split; [exact Hi|].
    unfold line_key in Hk. inversion Hk. now rewrite !Z.eqb_refl. }
  rewrite H in Hf. exact Hf.
Qed.

(* --------------------------------------------------------------------- *)
(** *** Every request keeps the invariants *)

Ltac unfold_m :=
  unfold respond, bind, ret, raise, get_store, modify in *.

Ltac split_if :=
  match goal with
  | |- context [if ?c then _ else _] => destruct c eqn:?; simpl
  end.

Lemma Forall_lt_weaken {A} (f : A -> Z) (n : Z) (l : list A) :
  Forall (fun a => f a < n) l -> Forall (fun a => f a < n + 1) l.
Proof.
  intros H. eapply Forall_impl; [|exact H]. intros a Ha. simpl in Ha. lia.
Qed.

Lemma Inv_identity_create n f l st s :
  Inv s -> Inv (fst (respond (identity_create n f l st) s)).
Proof.
  intros [H1 H2 H3 H4 H5].
  unfold identity_create, User_save, post_save_send,
    create_customer_for_new_user, Customer_objects_create, user_exists.
  unfold_m. simpl.
  repeat split_if; constructor; simpl; auto using Forall_lt_weaken.
  apply Forall_app. split; [auto using Forall_lt_weaken|].
  constructor; [simpl; lia|constructor].
Qed.

Lemma Inv_identity_update pk n f l st s :
  Inv s -> Inv (fst (respond (identity_update pk n f l st) s)).
Proof.
  intros [H1 H2 H3 H4 H5].
  unfold identity_update, User_save, post_save_send,
    create_customer_for_new_user.
  unfold_m. simpl.
  destruct (user_exists pk s) eqn:E; simpl; rewrite ?E; simpl;
    constructor; auto.
Qed.

Lemma Inv_CollectionViewSet_create t s :
  Inv s -> Inv (fst (respond (CollectionViewSet_create t) s)).
Proof.
  intros [H1 H2 H3 H4 H5]. constructor; simpl; auto.
Qed.

Lemma Inv_CollectionViewSet_destroy pk s :
  Inv s -> Inv (fst (respond (CollectionViewSet_destroy pk) s)).
Proof.
  intros [H1 H2 H3 H4 H5].
  unfold CollectionViewSet_destroy, ModelViewSet_destroy, Collection_delete.
  unfold_m. simpl.
  repeat split_if; constructor; simpl; auto.
Qed.

Lemma Inv_ProductViewSet_create d now s :
  Inv s -> Inv (fst (respond (ProductViewSet_create d now) s)).
Proof.
  intros [H1 H2 H3 H4 H5].
  unfold ProductViewSet_create, ProductSerializer_is_valid.
  unfold_m. simpl.
  repeat split_if; constructor; simpl; auto using lines_ok_new_product.
Qed.

Lemma Inv_ProductViewSet_update pk d now s :
  Inv s -> Inv (fst (respond (ProductViewSet_update pk d now) s)).
Proof.
  intros [H1 H2 H3 H4 H5].
  unfold ProductViewSet_update, ProductSerializer_is_valid.
  unfold_m. simpl.
  repeat split_if; constructor; simpl; auto.
  now apply lines_ok_product_update.
Qed.

Lemma Inv_ProductViewSet_destroy pk s :
  Inv s -> Inv (fst (respond (ProductViewSet_destroy pk) s)).
Proof.
  intros [H1 H2 H3 H4 H5].
  unfold ProductViewSet_destroy, ModelViewSet_destroy, Product_delete.
  unfold_m. simpl.
  repeat split_if; constructor; simpl;
    auto using lines_ok_product_delete, NoDup_map_filter, Forall_filter_keep.
Qed.

Lemma Inv_CartViewSet_create uuid now s :
  Inv s -> Inv (fst (respond (CartViewSet_create uuid now) s)).
Proof.
  intros [H1 H2 H3 H4 H5].
  unfold CartViewSet_create, Cart_objects_create.
  unfold_m. simpl.
  repeat split_if; constructor; simpl; auto.
Qed.

Lemma Inv_CartViewSet_destroy pk s :
  Inv s -> Inv (fst (respond (CartViewSet_destroy pk) s)).
Proof.
  intros [H1 H2 H3 H4 H5].
  unfold CartViewSet_destroy, ModelViewSet_destroy, Cart_delete.
  unfold_m. simpl.
  repeat split_if; constructor; simpl;
    auto using lines_ok_filter, NoDup_map_filter, Forall_filter_keep.
Qed.

Lemma NoDup_snoc {A} (l : list A) (a : A) :
  NoDup l -> ~ In a l -> NoDup (l ++ [a]).
Proof.
  intros Hl Ha. apply NoDup_app; [exact Hl|repeat constructor; auto|].
  intros x Hx [Hxa|[]]. subst. auto.
Qed.

Lemma Inv_save_quantity pk q s :
  Inv s -> 1 <= q ->
  Inv (set_cartitems (map (with_quantity pk q) (cartitems s)) s).
Proof.
  intros [H1 H2 H3 H4 H5] Hq. constructor; simpl; auto.
  - apply lines_ok_line_update; auto using with_quantity_product.
  - rewrite map_key_update; auto using with_quantity_key.
  - now apply with_quantity_bounds.
Qed.

Lemma Inv_CartItemViewSet_create c p q s :
  Inv s -> Inv (fst (respond (CartItemViewSet_create c p q) s)).
Proof.
  intros HI.
  unfold CartItemViewSet_create, CartItemSerializer_is_valid,
    AddCartItemSerializer_save, CartItem_save_quantity,
    CartItem_objects_create.
  unfold_m.
  destruct (run_validators _ q) eqn:Hv; simpl; [|exact HI].
  apply quantity_valid in Hv.
  destruct (lines_of c p s) as [|i [|j rest]] eqn:Hl; simpl.
  - rewrite Hl. simpl.
    repeat split_if; try exact HI.
    destruct HI as [H1 H2 H3 H4 H5]. constructor; simpl; auto.
    + apply lines_ok_new_line; [|exact H1]. simpl.
      unfold product_exists in *.
      now destruct (existsb _ (products s)).
    + rewrite map_app. simpl. apply NoDup_snoc; [exact H2|].
      now apply lines_of_nil_not_in.
    + apply Forall_app. split; [exact H3|]. repeat constructor; simpl; lia.
  - destruct (PositiveSmallIntegerField_check _) eqn:Hr; simpl; [|exact HI].
    apply field_check_nonneg in Hr.
    apply Inv_save_quantity; [exact HI|].
    assert (Hi : In i (cartitems s)).
    { assert (Hin : In i (lines_of c p s)) by (rewrite Hl; now left).
      apply filter_In in Hin. tauto. }
    pose proof (inv_quantity s HI) as H3.
    rewrite Forall_forall in H3. specialize (H3 i Hi). simpl in H3. lia.
  - exact HI.
Qed.

Lemma Inv_CartItemViewSet_partial_update c pk q s :
  Inv s -> Inv (fst (respond (CartItemViewSet_partial_update c pk q) s)).
Proof.
  intros HI.
  unfold CartItemViewSet_partial_update, CartItemViewSet_get_object,
    CartItemSerializer_is_valid, UpdateCartItemSerializer_save,
    CartItem_save_quantity.
  unfold_m.
  destruct (run_validators _ q) eqn:Hv;
    destruct (filter _ (items_of_cart c s)) as [|i rest]; simpl;
    try exact HI.
  apply quantity_valid in Hv.
  destruct (PositiveSmallIntegerField_check _) eqn:Hr; simpl; [|exact HI].
  now apply Inv_save_quantity.
Qed.

Lemma Inv_CartItemViewSet_destroy c pk s :
  Inv s -> Inv (fst (respond (CartItemViewSet_destroy c pk) s)).
Proof.
  intros HI.
  unfold CartItemViewSet_destroy, CartItemViewSet_get_object,
    CartItem_delete.
  unfold_m. simpl.
  destruct (filter _ (items_of_cart c s)) as [|i rest]; simpl; [exact HI|].
  destruct HI as [H1 H2 H3 H4 H5].
  constructor; simpl;
    auto using lines_ok_filter, NoDup_map_filter, Forall_filter_keep.
Qed.

(* --------------------------------------------------------------------- *)
(** *** Order placement *)

Lemma add_orderitems_nil s : add_orderitems [] s = s.
Proof.
  destruct s. unfold add_orderitems, set_seq_orderitem, set_orderitems.
  simpl. now rewrite app_nil_r, Z.add_0_r.
Qed.

Lemma add_orderitems_cons i new s :
  add_orderitems new
    (set_seq_orderitem (seq_orderitem s + 1)
       (set_orderitems (orderitems s ++ [i]) s))
  = add_orderitems (i :: new) s.
Proof.
  unfold add_orderitems, set_seq_orderitem, set_orderitems. simpl.
  rewrite <- app_assoc. simpl. f_equal. lia.
Qed.

Lemma create_order_items_ok fault order_id items :
  forall k s s',
    create_order_items fault k order_id items s = (s', inr tt) ->
    exists new,
      s' = add_orderitems new s
      /\ Forall2 (copied (products s) order_id) items new.
Proof.
  induction items as [|i items IH]; intros k s s' H; simpl in H.
  - unfold ret in H. inversion H; subst.
    exists []. split; [now rewrite add_orderitems_nil|constructor].
  - unfold bind, Product_objects_get in H.
    destruct (find _ (products s)) as [p|] eqn:Hp; [|discriminate].
    assert (Hc : exists s1 it,
               stmt fault k
                 (OrderItem_objects_create order_id (CartItem.product i)
                    (CartItem.quantity i) (Product.unit_price p)) s
               = (s1, inr it)
               /\ create_order_items fault (S k) order_id items s1
                  = (s', inr tt)).
    { destruct (stmt fault k _ s) as [s1 [e|it]]; [discriminate|eauto]. }
    destruct Hc as [s1 [it [Hs Hrest]]].
    assert (Hit : s1 = set_seq_orderitem (seq_orderitem s + 1)
                         (set_orderitems (orderitems s ++ [it]) s)
                  /\ copied (products s) order_id i it).
    { unfold stmt, OrderItem_objects_create, raise in Hs.
      destruct fault as [j|]; [destruct (Nat.eqb j k); [discriminate|]|];
        repeat (destruct (negb _); [discriminate|]);
        inversion Hs; subst; (split; [reflexivity|]);
        unfold copied; simpl; eauto 6. }
    destruct Hit as [-> Hcopy].
    apply IH in Hrest. destruct Hrest as [new [-> Hnew]].
    exists (it :: new). split; [apply add_orderitems_cons|].
    constructor; [exact Hcopy|exact Hnew].
Qed.

Lemma save_err fault uid cart now s s' e :
  CreateOrderSerializer_save fault uid cart now s = (s', inl e) -> s' = s.
Proof.
  unfold CreateOrderSerializer_save, atomic.
  destruct (bind _ _ s) as [s1 [e1|o]]; intros H; inversion H; reflexivity.
Qed.

Lemma objects_get_inr {A} (rows : list A) (r : A) :
  objects_get rows = inr r -> rows = [r].
Proof.
  destruct rows as [|a [|b rest]]; simpl; intros H; inversion H; reflexivity.
Qed.

Lemma save_ok fault uid cart now s s' o :
  CreateOrderSerializer_save fault uid cart now s = (s', inr o) ->
  exists c new,
    Customer_objects_get uid s = (s, inr c)
    /\ o = Order.mk (seq_order s) now PAYMENT_STATUS_PENDING (Customer.id c)
    /\ Forall2 (copied (products s) (seq_order s)) (items_of_cart cart s) new
    /\ s' = placed o new cart s.
Proof.
  unfold CreateOrderSerializer_save, atomic, bind at 1.
  destruct (Customer_objects_get uid s) as [s0 [e|c]] eqn:Hc.
  { discriminate. }
  assert (s0 = s) by (unfold Customer_objects_get in Hc; now inversion Hc).
  subst s0. unfold bind at 1.
  destruct (stmt fault 0 _ s) as [s1 [e|o1]] eqn:Ho; [discriminate|].
  assert (Ho1 : o1 = Order.mk (seq_order s) now PAYMENT_STATUS_PENDING
                       (Customer.id c)
                /\ s1 = add_order o1 s).
  { unfold stmt, Order_objects_create, raise in Ho.
    destruct fault as [j|]; [destruct (Nat.eqb j 0); [discriminate|]|];
      (destruct (negb _); [discriminate|]);
      inversion Ho; subst; split; reflexivity. }
  destruct Ho1 as [Ho1 ->].
  unfold bind at 1, get_store.
  change (items_of_cart cart (add_order o1 s)) with (items_of_cart cart s).
  unfold bind at 1.
  destruct (create_order_items fault 1 (Order.id o1) (items_of_cart cart s)
              (add_order o1 s)) as [s2 [e|[]]] eqn:Hit; [discriminate|].
  apply create_order_items_ok in Hit. destruct Hit as [new [-> Hnew]].
  unfold bind, stmt, Cart_delete, raise, ret.
  intros H. exists c, new.
  assert (Hid : Order.id o1 = seq_order s) by (rewrite Ho1; reflexivity).
  rewrite Hid in Hnew.
  destruct fault as [j|]; [destruct (Nat.eqb j _); [discriminate|]|];
    inversion H; subst; repeat split; auto.
Qed.

Lemma Inv_placed o new cart s :
  Inv s ->
  Forall (fun i => OrderItem.order i = seq_order s) new ->
  Inv (placed o new cart s).
Proof.
  intros [H1 H2 H3 H4 H5] Hnew. constructor; simpl;
    auto using lines_ok_filter, NoDup_map_filter, Forall_filter_keep.
  apply Forall_app. split.
  - now apply Forall_lt_weaken.
  - eapply Forall_impl; [|exact Hnew]. intros i Hi. simpl in Hi. lia.
Qed.

Lemma copied_order ps order_id items new :
  Forall2 (copied ps order_id) items new ->
  Forall (fun i => OrderItem.order i = order_id) new.
Proof.
  induction 1 as [|l i ls is_ Hc _ IH]; constructor; [|exact IH].
  now destruct Hc.
Qed.

Lemma OrderViewSet_create_eq fault user cart now s :
  OrderViewSet_create fault user cart now s =
  if negb (cart_exists cart s) then (s, inl NotFound)
  else if negb (exists_rows (items_of_cart cart s))
  then (s, inl ValidationError)
  else
    match CreateOrderSerializer_save fault (caller_id user) cart now s with
    | (s1, inr o) =>
        (s1, inr (mkResponse HTTP_200_OK
                    (OrderBody o (items_of_order (Order.id o) s1))))
    | (s1, inl e) => (s1, inl e)
    end.
Proof.
  unfold OrderViewSet_create, CreateOrderSerializer_is_valid.
  unfold bind, get_store, raise, ret.
  destruct (negb (cart_exists cart s)); [reflexivity|].
  destruct (negb (exists_rows (items_of_cart cart s))); [reflexivity|].
  destruct (CreateOrderSerializer_save _ _ _ _ s) as [s1 [e|o]];
    reflexivity.
Qed.

Lemma OrderViewSet_create_state fault user cart now s :
  fst (respond (OrderViewSet_create fault user cart now) s) = s
  \/ exists o new,
       fst (respond (OrderViewSet_create fault user cart now) s)
       = placed o new cart s
       /\ Forall2 (copied (products s) (seq_order s))
            (items_of_cart cart s) new.
Proof.
  unfold respond. rewrite OrderViewSet_create_eq.
  destruct (negb (cart_exists cart s)); [now left|].
  destruct (negb (exists_rows (items_of_cart cart s))); [now left|].
  destruct (CreateOrderSerializer_save fault (caller_id user) cart now s)
    as [s1 [e|o]] eqn:Hs.
  - apply save_err in Hs. subst. now left.
  - apply save_ok in Hs. destruct Hs as [c [new [_ [_ [Hnew ->]]]]].
    right. exists o, new. split; [reflexivity|exact Hnew].
Qed.

Lemma dispatch_state method user handler s :
  fst (respond (OrderViewSet_dispatch method user handler) s) = s
  \/ fst (respond (OrderViewSet_dispatch method user handler) s)
     = fst (respond handler s).
Proof.
  unfold OrderViewSet_dispatch, check_permissions.
  unfold respond, bind at 1, ret, raise.
  destruct (forallb _ _); [now right|].
  destruct (caller_is_authenticated user); now left.
Qed.

Lemma Inv_OrderViewSet_create fault user cart now s :
  Inv s -> Inv (fst (respond (OrderViewSet_create fault user cart now) s)).
Proof.
  intros HI.
  destruct (OrderViewSet_create_state fault user cart now s)
    as [->|[o [new [-> Hnew]]]]; [exact HI|].
  apply Inv_placed; [exact HI|]. eapply copied_order; eauto.
Qed.

Lemma Inv_OrderViewSet_list user s :
  Inv s -> Inv (fst (respond (OrderViewSet_list user) s)).
Proof.
  intros HI.
  unfold OrderViewSet_list, OrderViewSet_get_queryset, Customer_objects_get.
  unfold_m. simpl.
  destruct (caller_is_staff user); simpl; [exact HI|].
  destruct (caller_id user); simpl; [|exact HI].
  destruct (objects_get _); exact HI.
Qed.

Lemma OrderViewSet_get_object_state user pk s :
  fst (OrderViewSet_get_object user pk s) = s.
Proof.
  unfold OrderViewSet_get_object, OrderViewSet_get_queryset,
    Customer_objects_get.
  unfold_m. simpl.
  destruct (caller_is_staff user); simpl.
  - destruct (filter _ (orders s)); reflexivity.
  - destruct (caller_id user); simpl; [|reflexivity].
    destruct (objects_get _); simpl; [reflexivity|].
    destruct (filter _ _); reflexivity.
Qed.

Lemma Inv_OrderViewSet_partial_update user pk st s :
  Inv s -> Inv (fst (respond (OrderViewSet_partial_update user pk st) s)).
Proof.
  intros HI. pose proof (OrderViewSet_get_object_state user pk s) as Hg.
  unfold OrderViewSet_partial_update. unfold_m.
  destruct (OrderViewSet_get_object user pk s) as [s1 [e|o]];
    simpl in *; subst s1; [exact HI|].
  destruct HI as [H1 H2 H3 H4 H5]. constructor; simpl; auto.
Qed.

Lemma Inv_OrderViewSet_destroy user pk s :
  Inv s -> Inv (fst (respond (OrderViewSet_destroy user pk) s)).
Proof.
  intros HI. pose proof (OrderViewSet_get_object_state user pk s) as Hg.
  unfold OrderViewSet_destroy, Order_delete. unfold_m.
  destruct (OrderViewSet_get_object user pk s) as [s1 [e|o]];
    simpl in *; subst s1; [exact HI|].
  destruct (existsb _ (orderitems s)); simpl; [exact HI|].
  destruct HI as [H1 H2 H3 H4 H5]. constructor; simpl; auto.
Qed.

Lemma Inv_dispatch method user handler s :
  Inv s ->
  Inv (fst (respond handler s)) ->
  Inv (fst (respond (OrderViewSet_dispatch method user handler) s)).
Proof.
  intros HI Hh.
  destruct (dispatch_state method user handler s) as [->| ->]; assumption.
Qed.

Lemma Inv_CustomerViewSet_destroy user pk s :
  Inv s -> Inv (fst (respond (CustomerViewSet_destroy user pk) s)).
Proof.
  intros [H1 H2 H3 H4 H5].
  unfold CustomerViewSet_destroy, check_permissions, ModelViewSet_destroy,
    Customer_delete.
  unfold_m. simpl.
  repeat split_if; constructor; simpl; auto using Forall_filter_keep.
Qed.

Lemma Inv_ReviewViewSet_destroy product_pk pk s :
  Inv s -> Inv (fst (respond (ReviewViewSet_destroy product_pk pk) s)).
Proof.
  intros HI.
  unfold ReviewViewSet_destroy, ReviewViewSet_get_object, Review_delete.
  unfold_m. simpl.
  destruct (filter _ (ReviewViewSet_get_queryset product_pk s));
    simpl; [exact HI|].
  destruct HI as [H1 H2 H3 H4 H5]. constructor; simpl; auto.
Qed.

Lemma Inv_ProductImageViewSet_destroy product_pk pk s :
  Inv s -> Inv (fst (respond (ProductImageViewSet_destroy product_pk pk) s)).
Proof.
  intros HI.
  unfold ProductImageViewSet_destroy, ProductImageViewSet_get_object,
    ProductImage_delete.
  unfold_m. simpl.
  destruct (filter _ (ProductImageViewSet_get_queryset product_pk s));
    simpl; [exact HI|].
  destruct HI as [H1 H2 H3 H4 H5]. constructor; simpl; auto.
Qed.

Lemma Inv_handle r s : Inv s -> Inv (fst (handle r s)).
Proof.
  intros HI. unfold handle.
  destruct r; unfold view; try (apply Inv_dispatch; [exact HI|]);
    auto using Inv_identity_create, Inv_identity_update,
      Inv_CollectionViewSet_create, Inv_CollectionViewSet_destroy,
      Inv_ProductViewSet_create, Inv_ProductViewSet_update,
      Inv_ProductViewSet_destroy, Inv_CartViewSet_create,
      Inv_CartViewSet_destroy, Inv_CartItemViewSet_create,
      Inv_CartItemViewSet_partial_update, Inv_CartItemViewSet_destroy,
      Inv_OrderViewSet_create, Inv_OrderViewSet_list,
      Inv_OrderViewSet_partial_update, Inv_OrderViewSet_destroy,
      Inv_CustomerViewSet_destroy, Inv_ReviewViewSet_destroy,
      Inv_ProductImageViewSet_destroy.
Qed.

Lemma Inv_empty : Inv empty_store.
Proof. repeat constructor. Qed.

Lemma Inv_run rs : forall s, Inv s -> Inv (run rs s).
Proof.
  induction rs as [|r rs IH]; intros s HI; simpl; [exact HI|].
  apply IH, Inv_handle, HI.
Qed.

Lemma Inv_reachable s : reachable s -> Inv s.
Proof.
  intros [rs ->]. apply Inv_run, Inv_empty.
Qed.

Lemma run_app rs1 rs2 s : run (rs1 ++ rs2) s = run rs2 (run rs1 s).
Proof. unfold run. apply fold_left_app. Qed.

Lemma reachable_run rs s : reachable s -> reachable (run rs s).
Proof.
  intros [rs0 ->]. exists (rs0 ++ rs). now rewrite run_app.
Qed.

Lemma reachable_handle r s : reachable s -> reachable (fst (handle r s)).
Proof. apply (reachable_run [r]). Qed.

(* --------------------------------------------------------------------- *)
(** *** Order items are only ever added *)

Ltac split_match :=
  match goal with
  | |- context [match ?c with _ => _ end] =>
      lazymatch type of c with
      | bool => destruct c eqn:?; simpl
      | list _ => destruct c eqn:?; simpl
      | option _ => destruct c eqn:?; simpl
      | sum _ _ => destruct c eqn:?; simpl
      | exn => destruct c eqn:?; simpl
      end
  end.

Lemma items_grow_refl s : items_grow s s.
Proof.
  exists []. rewrite app_nil_r. repeat split; [constructor|lia].
Qed.

Lemma items_grow_same s s' :
  orderitems s' = orderitems s -> seq_order s' = seq_order s ->
  items_grow s s'.
Proof.
  intros H1 H2. exists []. rewrite app_nil_r, H1, H2.
  repeat split; [constructor|lia].
Qed.

Lemma items_grow_placed o new cart s :
  Forall (fun i => OrderItem.order i = seq_order s) new ->
  items_grow s (placed o new cart s).
Proof.
  intros H. exists new. simpl. repeat split; [exact H|lia].
Qed.

Lemma items_grow_create fault user cart now s :
  items_grow s (fst (respond (OrderViewSet_create fault user cart now) s)).
Proof.
  destruct (OrderViewSet_create_state fault user cart now s)
    as [->|[o [new [-> Hnew]]]]; [apply items_grow_refl|].
  apply items_grow_placed. eapply copied_order; eauto.
Qed.

Lemma items_grow_handle r s : items_grow s (fst (handle r s)).
Proof.
  unfold handle. destruct r; unfold view.
  all: try (match goal with
            | |- items_grow _ (fst (respond (OrderViewSet_dispatch ?m ?u ?h) _)) =>
                destruct (dispatch_state m u h s) as [->| ->];
                [apply items_grow_refl|]
            end).
  all: try apply items_grow_create.
  all: unfold identity_create, identity_update,
         CollectionViewSet_create, CollectionViewSet_destroy,
         ProductViewSet_create, ProductViewSet_update,
         ProductViewSet_destroy, CartViewSet_create, CartViewSet_destroy,
         CartItemViewSet_create, CartItemViewSet_partial_update,
         CartItemViewSet_destroy, OrderViewSet_list,
         OrderViewSet_partial_update, OrderViewSet_destroy,
         CustomerViewSet_destroy, ReviewViewSet_destroy,
         ProductImageViewSet_destroy;
    unfold ModelViewSet_destroy, CartItemViewSet_get_object,
      ReviewViewSet_get_object, ProductImageViewSet_get_object,
      check_permissions,
      OrderViewSet_get_object, OrderViewSet_get_queryset, User_save,
      ProductSerializer_is_valid, CartItemSerializer_is_valid,
      AddCartItemSerializer_save, UpdateCartItemSerializer_save;
    unfold post_save_send, create_customer_for_new_user,
      Customer_objects_create, Customer_objects_get, Collection_delete,
      Product_delete, Cart_objects_create, Cart_delete,
      CartItem_save_quantity, CartItem_objects_create, CartItem_delete,
      Order_delete, Customer_delete, Review_delete, ProductImage_delete;
    unfold_m; simpl;
    repeat split_match;
    try apply items_grow_refl;
    apply items_grow_same; reflexivity.
Qed.

(* ===================================================================== *)
(** ** Referential protection (views.py, [destroy]) *)
(* ===================================================================== *)

(** C6. Deleting a Product that an OrderItem refers to, and deleting a
    Collection that a Product refers to, are both answered with status
    405 (not a server error), and the database is left as it was. *)
Theorem protected_delete_not_allowed (s : Store) (pk : Z) :
  ((exists i, In i (orderitems s) /\ OrderItem.product i = pk) ->
   fst (handle (ProductDestroy pk) s) = s
   /\ status_code (snd (handle (ProductDestroy pk) s))
      = HTTP_405_METHOD_NOT_ALLOWED)
  /\
  ((exists p, In p (products s) /\ Product.collection p = pk) ->
   fst (handle (CollectionDestroy pk) s) = s
   /\ status_code (snd (handle (CollectionDestroy pk) s))
      = HTTP_405_METHOD_NOT_ALLOWED).
Proof.
  split.
  - intros [i [Hi Hp]].
    assert (He : existsb (fun i => OrderItem.product i =? pk) (orderitems s)
                 = true).
    { apply existsb_exists. exists i. split; [exact Hi|].
      now apply Z.eqb_eq. }
    unfold handle, view, respond, ProductViewSet_destroy, bind, get_store.
    rewrite count_pos_existsb, He. simpl. split; reflexivity.
  - intros [p [Hp Hc]].
    assert (He : existsb (fun p => Product.collection p =? pk) (products s)
                 = true).
    { apply existsb_exists. exists p. split; [exact Hp|].
      now apply Z.eqb_eq. }
    unfold handle, view, respond, CollectionViewSet_destroy, bind, get_store.
    rewrite exists_rows_existsb, He. simpl. split; reflexivity.
Qed.

Lemma protected_delete_not_allowed_witness :
  (fst (handle (ProductDestroy 1) demo_ordered) = demo_ordered
   /\ status_code (snd (handle (ProductDestroy 1) demo_ordered)) = 405)
  /\ (fst (handle (CollectionDestroy 1) demo_ordered) = demo_ordered
      /\ status_code (snd (handle (CollectionDestroy 1) demo_ordered)) = 405).
Proof.
  split.
  - apply (proj1 (protected_delete_not_allowed demo_ordered 1)).
    exists (OrderItem.mk 1 1 1 2 1099). split; [|reflexivity].
    vm_compute. now left.
  - apply (proj2 (protected_delete_not_allowed demo_ordered 1)).
    exists (Product_of_data 1 10 tea). split; [|reflexivity].
    vm_compute. now left.
Defined.

(* ===================================================================== *)
(** ** Access to orders ([OrderViewSet]) *)
(* ===================================================================== *)

Lemma dispatch_allowed method user handler s :
  forallb (fun p => has_permission p user)
    (OrderViewSet_get_permissions method) = true ->
  respond (OrderViewSet_dispatch method user handler) s = respond handler s.
Proof.
  intros H. unfold OrderViewSet_dispatch, check_permissions, respond, bind.
  rewrite H. reflexivity.
Qed.

Lemma dispatch_refused method user handler s :
  forallb (fun p => has_permission p user)
    (OrderViewSet_get_permissions method) = false ->
  respond (OrderViewSet_dispatch method user handler) s
  = (s, exception_response
          (if caller_is_authenticated user then PermissionDenied
           else NotAuthenticated)).
Proof.
  intros H. unfold OrderViewSet_dispatch, check_permissions, respond, bind.
  rewrite H. now destruct (caller_is_authenticated user).
Qed.

Lemma permissions_imply_authenticated method user :
  forallb (fun p => has_permission p user)
    (OrderViewSet_get_permissions method) = true ->
  caller_is_authenticated user = true.
Proof.
  unfold OrderViewSet_get_permissions.
  destruct (existsb _ _); simpl; rewrite andb_true_r; [|auto].
  destruct user; simpl; [discriminate|reflexivity].
Qed.

(** C8. Listing orders as a non-staff authenticated caller answers with
    exactly the orders of the caller's own Customer; a staff caller gets
    all orders; PATCH and DELETE pass the permission check exactly for
    staff callers and are otherwise refused without touching the
    database; and whatever the method, an anonymous caller is refused
    and a caller who passes the check is authenticated. *)
Theorem order_access_policy (s : Store) :
  (forall u c,
      User.is_staff u = false ->
      Customer_objects_get (Some (User.id u)) s = (s, inr c) ->
      In c (customers s) /\ Customer.user c = User.id u
      /\ handle (OrderList (Authenticated u)) s
         = (s, mkResponse HTTP_200_OK
                 (OrderListBody
                    (filter (fun o => Order.customer o =? Customer.id c)
                       (orders s)))))
  /\ (forall u,
         User.is_staff u = true ->
         handle (OrderList (Authenticated u)) s
         = (s, mkResponse HTTP_200_OK (OrderListBody (orders s))))
  /\ (forall method user,
         In method ["PATCH"; "DELETE"] ->
         forallb (fun p => has_permission p user)
           (OrderViewSet_get_permissions method)
         = caller_is_staff user)
  /\ (forall user pk st,
         caller_is_staff user = false ->
         fst (handle (OrderUpdate user pk st) s) = s
         /\ fst (handle (OrderDestroy user pk) s) = s
         /\ In (status_code (snd (handle (OrderUpdate user pk st) s)))
              [HTTP_401_UNAUTHORIZED; HTTP_403_FORBIDDEN]
         /\ In (status_code (snd (handle (OrderDestroy user pk) s)))
              [HTTP_401_UNAUTHORIZED; HTTP_403_FORBIDDEN])
  /\ (forall method handler,
         respond (OrderViewSet_dispatch method AnonymousUser handler) s
         = (s, exception_response NotAuthenticated))
  /\ (forall method user,
         forallb (fun p => has_permission p user)
           (OrderViewSet_get_permissions method) = true ->
         caller_is_authenticated user = true).
Proof.
  repeat split; try apply permissions_imply_authenticated.
  - unfold Customer_objects_get in H0. inversion H0 as [Hg].
    apply objects_get_inr in Hg.
    assert (Hin : In c (filter (fun c0 => Customer.user c0 =? User.id u)
                          (customers s))) by (rewrite Hg; now left).
    apply filter_In in Hin. tauto.
  - unfold Customer_objects_get in H0. inversion H0 as [Hg].
    apply objects_get_inr in Hg.
    assert (Hin : In c (filter (fun c0 => Customer.user c0 =? User.id u)
                          (customers s))) by (rewrite Hg; now left).
    apply filter_In in Hin. destruct Hin as [_ Hin].
    now apply Z.eqb_eq in Hin.
  - unfold handle, view. rewrite dispatch_allowed by reflexivity.
    unfold respond, OrderViewSet_list, OrderViewSet_get_queryset, bind,
      get_store, ret, caller_is_staff, caller_id.
    rewrite H. rewrite H0. reflexivity.
  - intros u Hu. unfold handle, view.
    rewrite dispatch_allowed by reflexivity.
    unfold respond, OrderViewSet_list, OrderViewSet_get_queryset, bind,
      get_store, ret. simpl. rewrite Hu. reflexivity.
  - intros method user [<-|[<-|[]]]; simpl; now rewrite andb_true_r.
  - unfold handle, view. rewrite dispatch_refused; [reflexivity|].
    simpl. now rewrite H.
  - unfold handle, view. rewrite dispatch_refused; [reflexivity|].
    simpl. now rewrite H.
  - unfold handle, view. rewrite dispatch_refused by (simpl; now rewrite H).
    destruct (caller_is_authenticated user); simpl; auto.
  - unfold handle, view. rewrite dispatch_refused by (simpl; now rewrite H).
    destruct (caller_is_authenticated user); simpl; auto.
  - intros method handler. rewrite dispatch_refused; [reflexivity|].
    unfold OrderViewSet_get_permissions. now destruct (existsb _ _).
Qed.

Lemma order_access_policy_witness :
  handle (OrderList (Authenticated alice)) demo_ordered
  = (demo_ordered,
     mkResponse 200
       (OrderListBody [Order.mk 1 30 PAYMENT_STATUS_PENDING 1]))
  /\ fst (handle (OrderDestroy (Authenticated alice) 1) demo_ordered)
     = demo_ordered.
Proof.
  destruct (order_access_policy demo_ordered) as [Hlist [_ [_ [Hstaff _]]]].
  split.
  - apply (Hlist alice (Customer.mk 1 "" None MEMBERSHIP_BRONZE 1));
      reflexivity.
  - apply (Hstaff (Authenticated alice) 1 PAYMENT_STATUS_FAILED).
    reflexivity.
Defined.

(* ===================================================================== *)
(** ** Order placement ([OrderViewSet.create]) *)
(* ===================================================================== *)

(** C4. Order placement with a cart identifier that refers to no cart is
    refused with NotFound, and with one that refers to an empty cart
    with ValidationError; either way the database is left as it was. *)
Theorem invalid_cart_rejected (s : Store) (fault : option nat) (user : Caller)
                              (cart_id now : Z) :
  (cart_exists cart_id s = false ->
   OrderViewSet_create fault user cart_id now s = (s, inl NotFound))
  /\ (cart_exists cart_id s = true ->
      items_of_cart cart_id s = [] ->
      OrderViewSet_create fault user cart_id now s
      = (s, inl ValidationError))
  /\ (cart_exists cart_id s = false \/ items_of_cart cart_id s = [] ->
      fst (handle (OrderCreate fault user cart_id now) s) = s
      /\ (caller_is_authenticated user = true ->
          In (status_code
                (snd (handle (OrderCreate fault user cart_id now) s)))
             [HTTP_404_NOT_FOUND; HTTP_400_BAD_REQUEST])).
Proof.
  assert (Hcases :
            cart_exists cart_id s = false \/ items_of_cart cart_id s = [] ->
            OrderViewSet_create fault user cart_id now s = (s, inl NotFound)
            \/ OrderViewSet_create fault user cart_id now s
               = (s, inl ValidationError)).
  { rewrite OrderViewSet_create_eq. intros [H|H].
    - rewrite H. now left.
    - rewrite H. simpl. destruct (cart_exists cart_id s); simpl; auto. }
  split; [|split].
  - intros H. rewrite OrderViewSet_create_eq, H. reflexivity.
  - intros H1 H2. rewrite OrderViewSet_create_eq, H1, H2. reflexivity.
  - intros H. specialize (Hcases H). split.
    + unfold handle, view.
      destruct (dispatch_state "POST" user
                  (OrderViewSet_create fault user cart_id now) s)
        as [->| ->]; [reflexivity|].
      unfold respond. destruct Hcases as [-> | ->]; reflexivity.
    + intros Ha. unfold handle, view.
      rewrite dispatch_allowed by (simpl; now rewrite Ha).
      unfold respond. destruct Hcases as [-> | ->]; simpl; auto.
Qed.

Lemma invalid_cart_rejected_witness :
  OrderViewSet_create None (Authenticated alice) 78 30 demo_store
  = (demo_store, inl NotFound)
  /\ OrderViewSet_create None (Authenticated alice) 77 31 demo_ordered
     = (demo_ordered, inl NotFound)
  /\ OrderViewSet_create None (Authenticated alice) 5 30
       (run [CartCreate 5 0] empty_store)
     = (run [CartCreate 5 0] empty_store, inl ValidationError).
Proof.
  split; [|split].
  - apply (proj1 (invalid_cart_rejected demo_store None
                    (Authenticated alice) 78 30)).
    reflexivity.
  - apply (proj1 (invalid_cart_rejected demo_ordered None
                    (Authenticated alice) 77 31)).
    reflexivity.
  - apply (proj1 (proj2 (invalid_cart_rejected
                           (run [CartCreate 5 0] empty_store) None
                           (Authenticated alice) 5 30)));
      reflexivity.
Defined.

(* --------------------------------------------------------------------- *)
(** *** When placement goes through and when the induced failure strikes *)

Lemma stmt_eq {A} fault k (m : M A) s :
  stmt fault k m s
  = if fault_at fault k then (s, inl DatabaseError) else m s.
Proof.
  unfold stmt, fault_at, raise. destruct fault as [j|]; [|reflexivity].
  now destruct (Nat.eqb j k).
Qed.

Lemma hits_iff j k n :
  hits (Some j) k n = true <-> (k <= j < k + n)%nat.
Proof.
  revert k. induction n as [|n IH]; intros k; simpl.
  - split; [discriminate|lia].
  - rewrite orb_true_iff, IH, Nat.eqb_eq. lia.
Qed.

Lemma hits_S fault k n :
  hits fault k (S n) = fault_at fault k || hits fault (S k) n.
Proof. reflexivity. Qed.

Lemma hits_none k n : hits None k n = false.
Proof. revert k. induction n as [|n IH]; intros k; simpl; auto. Qed.

Lemma find_of_existsb {A} (f : A -> bool) (l : list A) :
  existsb f l = true -> exists a, find f l = Some a.
Proof.
  induction l as [|a l IH]; simpl; [discriminate|].
  destruct (f a); eauto.
Qed.

Lemma create_order_items_run fault order_id items :
  forall k s,
    order_exists order_id s = true ->
    lines_ok (products s) items ->
    Forall (fun i => 1 <= CartItem.quantity i) items ->
    exists s1,
      create_order_items fault k order_id items s
      = (s1, if hits fault k (List.length items) then inl DatabaseError
             else inr tt).
Proof.
  induction items as [|i items IH]; intros k s Ho Hl Hq; simpl.
  - exists s. reflexivity.
  - inversion Hl as [|? ? Hi Hl']; subst.
    inversion Hq as [|? ? Hqi Hq']; subst.
    destruct (find_of_existsb _ _ Hi) as [p Hp].
    unfold bind at 1. unfold Product_objects_get. rewrite Hp.
    unfold bind at 1. rewrite stmt_eq.
    destruct (fault_at fault k); simpl; [eexists; reflexivity|].
    unfold OrderItem_objects_create, product_exists.
    rewrite Ho, Hi.
    assert (Hr : PositiveSmallIntegerField_check
                   (CartItem.quantity i) = true)
      by (apply field_check_nonneg; lia).
    rewrite Hr. simpl.
    apply IH; assumption.
Qed.

Lemma save_body_run fault uid cart now s c :
  Inv s ->
  Customer_objects_get (Some uid) s = (s, inr c) ->
  exists s1,
    save_without_atomic fault (Some uid) cart now s
    = (s1, if hits fault 0 (S (S (List.length (items_of_cart cart s))))
           then inl DatabaseError
           else inr (Order.mk (seq_order s) now PAYMENT_STATUS_PENDING
                       (Customer.id c))).
Proof.
  intros HI Hc. unfold save_without_atomic.
  unfold bind at 1. rewrite Hc.
  unfold bind at 1. rewrite stmt_eq. rewrite (hits_S fault 0).
  destruct (fault_at fault 0); cbn [orb]; [eexists; reflexivity|].
  assert (Hin : In c (customers s)).
  { unfold Customer_objects_get in Hc. inversion Hc as [Hg].
    apply objects_get_inr in Hg.
    assert (Hf : In c (filter (fun c0 => Customer.user c0 =? uid)
                         (customers s))) by (rewrite Hg; now left).
    apply filter_In in Hf. tauto. }
  assert (Hex : customer_exists (Customer.id c) s = true).
  { apply existsb_exists. exists c. split; [exact Hin|apply Z.eqb_refl]. }
  unfold Order_objects_create. rewrite Hex. cbn [negb].
  unfold bind at 1, get_store. unfold bind at 1.
  set (o := Order.mk (seq_order s) now PAYMENT_STATUS_PENDING
              (Customer.id c)).
  change (set_seq_order (seq_order s + 1) (set_orders (orders s ++ [o]) s))
    with (add_order o s).
  change (items_of_cart cart (add_order o s)) with (items_of_cart cart s).
  destruct (create_order_items_run fault (Order.id o)
              (items_of_cart cart s) 1 (add_order o s)) as [s2 Hs2].
  { unfold order_exists. simpl. rewrite existsb_app. simpl.
    rewrite Z.eqb_refl. now rewrite orb_true_r. }
  { apply lines_ok_filter, HI. }
  { apply Forall_filter_keep, HI. }
  rewrite Hs2.
  destruct (hits fault 1 (List.length (items_of_cart cart s))) eqn:Hh.
  - exists s2. clear Hs2. revert Hh.
    generalize (List.length (items_of_cart cart s)). intros n Hh.
    assert (Hw : hits fault 1 (S n) = true).
    { destruct fault as [j|]; [|now rewrite hits_none in Hh].
      apply hits_iff. apply hits_iff in Hh. lia. }
    now rewrite Hw.
  - unfold bind at 1. rewrite stmt_eq.
    assert (Hw : hits fault 1 (S (List.length (items_of_cart cart s)))
                 = fault_at fault (S (List.length (items_of_cart cart s)))).
    { revert Hh. generalize (List.length (items_of_cart cart s)).
      intros n Hh. destruct fault as [j|]; [|now rewrite hits_none].
      simpl fault_at.
      destruct (Nat.eqb j (S n)) eqn:E.
      - apply hits_iff. apply Nat.eqb_eq in E. lia.
      - apply not_true_is_false. intros Ht. apply hits_iff in Ht.
        apply Nat.eqb_neq in E.
        assert (Hn : hits (Some j) 1 n <> true) by (rewrite Hh; discriminate).
        apply Hn. apply hits_iff. lia. }
    rewrite Hw.
    destruct (fault_at fault _); [eexists; reflexivity|].
    unfold Cart_delete, ret. eexists; reflexivity.
Qed.

Lemma save_is_atomic_body fault uid cart now :
  CreateOrderSerializer_save fault uid cart now
  = atomic (save_without_atomic fault uid cart now).
Proof. reflexivity. Qed.

Lemma exception_response_not_ok e :
  status_code (exception_response e) <> HTTP_200_OK.
Proof. destruct e; discriminate. Qed.

(** What a placement request can do: answer with an error and leave the
    database alone, or answer 200 and leave it in the [placed] state. *)
Lemma OrderCreate_cases fault user cart now s :
  (exists e,
      handle (OrderCreate fault user cart now) s
      = (s, exception_response e))
  \/ (exists o new,
         handle (OrderCreate fault user cart now) s
         = (placed o new cart s,
            mkResponse HTTP_200_OK
              (OrderBody o
                 (items_of_order (Order.id o) (placed o new cart s))))
         /\ Order.id o = seq_order s
         /\ Forall2 (copied (products s) (seq_order s))
              (items_of_cart cart s) new).
Proof.
  unfold handle, view.
  destruct (forallb (fun p => has_permission p user)
              (OrderViewSet_get_permissions "POST")) eqn:Hp.
  2:{ rewrite dispatch_refused by exact Hp. left. eauto. }
  rewrite dispatch_allowed by exact Hp.
  unfold respond. rewrite OrderViewSet_create_eq.
  destruct (negb (cart_exists cart s)); [left; eauto|].
  destruct (negb (exists_rows (items_of_cart cart s))); [left; eauto|].
  destruct (CreateOrderSerializer_save fault (caller_id user) cart now s)
    as [s1 [e|o]] eqn:Hs.
  - apply save_err in Hs. subst. left. eauto.
  - apply save_ok in Hs. destruct Hs as [c [new [_ [Ho [Hnew ->]]]]].
    right. exists o, new. repeat split; [|exact Hnew].
    rewrite Ho. reflexivity.
Qed.

Lemma items_of_order_placed o new cart s :
  Inv s ->
  Forall (fun i => OrderItem.order i = seq_order s) new ->
  items_of_order (seq_order s) (placed o new cart s) = new.
Proof.
  intros HI Hnew. unfold items_of_order. simpl. rewrite filter_app.
  rewrite filter_none.
  - simpl. apply forallb_filter_id. apply forallb_forall. intros i Hi.
    rewrite Forall_forall in Hnew. apply Z.eqb_eq. auto.
  - apply not_true_is_false. intros He. apply existsb_exists in He.
    destruct He as [i [Hi He]]. apply Z.eqb_eq in He.
    pose proof (inv_item_order s HI) as H4.
    rewrite Forall_forall in H4. specialize (H4 i Hi). simpl in H4. lia.
Qed.

Lemma items_of_order_handle r s order_id :
  order_id < seq_order s ->
  items_of_order order_id (fst (handle r s)) = items_of_order order_id s
  /\ order_id < seq_order (fst (handle r s)).
Proof.
  intros Hlt. destruct (items_grow_handle r s) as [new [He [Hnew Hseq]]].
  split; [|lia].
  unfold items_of_order. rewrite He, filter_app, (filter_none _ new).
  - apply app_nil_r.
  - apply not_true_is_false. intros Hex. apply existsb_exists in Hex.
    destruct Hex as [i [Hi Hex]]. apply Z.eqb_eq in Hex.
    rewrite Forall_forall in Hnew. specialize (Hnew i Hi). simpl in Hnew.
    lia.
Qed.

Lemma items_of_order_run rs :
  forall s order_id,
    order_id < seq_order s ->
    items_of_order order_id (run rs s) = items_of_order order_id s.
Proof.
  induction rs as [|r rs IH]; intros s order_id Hlt; simpl; [reflexivity|].
  destruct (items_of_order_handle r s order_id Hlt) as [He Hlt'].
  rewrite IH by exact Hlt'. exact He.
Qed.

(** C1. For a cart with N lines, a placement that nothing interrupts
    answers with a new Order that has exactly N OrderItems; each copies
    the quantity of its cart line and the unit price its product has at
    that moment; and whatever requests follow, price updates included,
    the order's items stay as they were stored. *)
Theorem order_snapshot (s : Store) (u : User.t) (c : Customer.t)
                       (cart_id now : Z) :
  reachable s ->
  Customer_objects_get (Some (User.id u)) s = (s, inr c) ->
  cart_exists cart_id s = true ->
  items_of_cart cart_id s <> [] ->
  exists s' o items,
    handle (OrderCreate None (Authenticated u) cart_id now) s
    = (s', mkResponse HTTP_200_OK (OrderBody o items))
    /\ In o (orders s')
    /\ Order.customer o = Customer.id c
    /\ items = items_of_order (Order.id o) s'
    /\ List.length items = List.length (items_of_cart cart_id s)
    /\ Forall2 (copied (products s) (Order.id o))
         (items_of_cart cart_id s) items
    /\ forall rs, items_of_order (Order.id o) (run rs s') = items.
Proof.
  intros Hr Hc Hcart Hitems. pose proof (Inv_reachable s Hr) as HI.
  destruct (save_body_run None (User.id u) cart_id now s c HI Hc)
    as [s1 Hbody].
  rewrite hits_none in Hbody.
  assert (Hsave : CreateOrderSerializer_save None (Some (User.id u))
                    cart_id now s
                  = (s1, inr (Order.mk (seq_order s) now
                                PAYMENT_STATUS_PENDING (Customer.id c)))).
  { rewrite save_is_atomic_body. unfold atomic. now rewrite Hbody. }
  destruct (save_ok _ _ _ _ _ _ _ Hsave) as [c' [new [_ [_ [Hnew ->]]]]].
  set (o := Order.mk (seq_order s) now PAYMENT_STATUS_PENDING
              (Customer.id c)) in *.
  assert (Hord : Forall (fun i => OrderItem.order i = seq_order s) new)
    by (eapply copied_order; eauto).
  exists (placed o new cart_id s), o, new.
  repeat split.
  - unfold handle, view. rewrite dispatch_allowed by reflexivity.
    assert (Hne : exists_rows (items_of_cart cart_id s) = true)
      by (destruct (items_of_cart cart_id s); [congruence|reflexivity]).
    unfold respond. rewrite OrderViewSet_create_eq, Hcart, Hne.
    cbn [negb]. change (caller_id (Authenticated u)) with (Some (User.id u)).
    rewrite Hsave.
    change (Order.id o) with (seq_order s).
    now rewrite items_of_order_placed.
  - simpl. apply in_or_app. right. now left.
  - change (Order.id o) with (seq_order s).
    now rewrite items_of_order_placed.
  - symmetry. eapply Forall2_length; eauto.
  - exact Hnew.
  - intros rs. rewrite items_of_order_run.
    + change (Order.id o) with (seq_order s).
      now apply items_of_order_placed.
    + simpl. lia.
Qed.

Lemma order_snapshot_witness :
  exists s' o items,
    handle (OrderCreate None (Authenticated alice) 77 30) demo_store
    = (s', mkResponse 200 (OrderBody o items))
    /\ List.length items = 2%nat
    /\ items_of_order (Order.id o)
         (run [ProductUpdate 1 (ProductData.mk "Tea" "tea" None 2500 10 1) 40]
            s')
       = items.
Proof.
  destruct (order_snapshot demo_store alice
              (Customer.mk 1 "" None MEMBERSHIP_BRONZE 1) 77 30)
    as [s' [o [items [Hh [_ [_ [_ [Hlen [_ Hlater]]]]]]]]].
  - exists demo_requests. reflexivity.
  - reflexivity.
  - reflexivity.
  - vm_compute. discriminate.
  - exists s', o, items. split; [exact Hh|]. split; [exact Hlen|].
    apply Hlater.
Defined.

(** C2. Order placement is all or nothing. When it answers 200 the cart
    and every one of its lines are gone and the order is there; with any
    other answer the database is exactly as before, so the cart and its
    lines are unchanged and no Order or OrderItem row of the attempt
    exists. In particular an induced failure at any write statement of a
    placement that would otherwise go through (the order header, any of
    the N items, the cart deletion) ends in a server error with the
    database as before. *)
Theorem placement_atomic (s : Store) (fault : option nat) (user : Caller)
                         (cart_id now : Z) :
  (status_code (snd (handle (OrderCreate fault user cart_id now) s))
   = HTTP_200_OK ->
   cart_exists cart_id (fst (handle (OrderCreate fault user cart_id now) s))
   = false
   /\ items_of_cart cart_id
        (fst (handle (OrderCreate fault user cart_id now) s)) = []
   /\ exists o new,
        fst (handle (OrderCreate fault user cart_id now) s)
        = placed o new cart_id s)
  /\ (status_code (snd (handle (OrderCreate fault user cart_id now) s))
      <> HTTP_200_OK ->
      fst (handle (OrderCreate fault user cart_id now) s) = s)
  /\ (forall u c j,
         user = Authenticated u ->
         fault = Some j ->
         reachable s ->
         Customer_objects_get (Some (User.id u)) s = (s, inr c) ->
         cart_exists cart_id s = true ->
         items_of_cart cart_id s <> [] ->
         (j <= S (List.length (items_of_cart cart_id s)))%nat ->
         handle (OrderCreate fault user cart_id now) s
         = (s, exception_response DatabaseError)).
Proof.
  split; [|split].
  - intros Hst.
    destruct (OrderCreate_cases fault user cart_id now s)
      as [[e He]|[o [new [He _]]]]; rewrite He in *; simpl in *.
    + now apply exception_response_not_ok in Hst.
    + split; [apply existsb_filter_neg|].
      split; [apply filter_filter_neg|]. eauto.
  - intros Hst.
    destruct (OrderCreate_cases fault user cart_id now s)
      as [[e He]|[o [new [He _]]]]; rewrite He in *; simpl in *.
    + reflexivity.
    + now elim Hst.
  - intros u c j -> -> Hr Hc Hcart Hitems Hj.
    pose proof (Inv_reachable s Hr) as HI.
    destruct (save_body_run (Some j) (User.id u) cart_id now s c HI Hc)
      as [s1 Hbody].
    assert (Hh : hits (Some j) 0
                   (S (S (List.length (items_of_cart cart_id s)))) = true)
      by (apply hits_iff; lia).
    rewrite Hh in Hbody.
    assert (Hne : exists_rows (items_of_cart cart_id s) = true)
      by (destruct (items_of_cart cart_id s); [congruence|reflexivity]).
    unfold handle, view. rewrite dispatch_allowed by reflexivity.
    unfold respond. rewrite OrderViewSet_create_eq, Hcart, Hne.
    cbn [negb]. change (caller_id (Authenticated u)) with (Some (User.id u)).
    rewrite save_is_atomic_body. unfold atomic. rewrite Hbody. reflexivity.
Qed.

Lemma placement_atomic_witness :
  (cart_exists 77 demo_ordered = false
   /\ items_of_cart 77 demo_ordered = [])
  /\ handle (OrderCreate (Some 2%nat) (Authenticated alice) 77 30) demo_store
     = (demo_store, exception_response DatabaseError).
Proof.
  split.
  - destruct (proj1 (placement_atomic demo_store None (Authenticated alice)
                       77 30)) as [H1 [H2 _]]; [reflexivity|].
    split; [exact H1|exact H2].
  - apply (proj2 (proj2 (placement_atomic demo_store (Some 2%nat)
                           (Authenticated alice) 77 30))
             alice (Customer.mk 1 "" None MEMBERSHIP_BRONZE 1) 2%nat);
      try reflexivity.
    + exists demo_requests. reflexivity.
    + vm_compute. discriminate.
    + vm_compute. lia.
Defined.

(** Without the transactional boundary the same induced failure leaves
    the order header and the first item behind, next to the intact cart. *)
Example save_without_atomic_is_partial :
  let s1 := fst (save_without_atomic (Some 2%nat) (Some 1) 77 30 demo_store) in
  orders s1 = [Order.mk 1 30 PAYMENT_STATUS_PENDING 1]
  /\ orderitems s1 = [OrderItem.mk 1 1 1 2 1099]
  /\ cartitems s1 = cartitems demo_store
  /\ snd (save_without_atomic (Some 2%nat) (Some 1) 77 30 demo_store)
     = inl DatabaseError.
Proof. vm_compute. repeat split; reflexivity. Qed.

(* ===================================================================== *)
(** ** Customer provisioning *)
(* ===================================================================== *)

Lemma no_customer_for_next_user s :
  Inv s ->
  existsb (fun c => Customer.user c =? seq_user s) (customers s) = false.
Proof.
  intros HI. apply not_true_is_false. intros He.
  apply existsb_exists in He. destruct He as [c [Hc He]].
  apply Z.eqb_eq in He. pose proof (inv_customer_user s HI) as H5.
  rewrite Forall_forall in H5. specialize (H5 c Hc). simpl in H5. lia.
Qed.

(** C5. Creating an identity record creates exactly one Customer linked
    to it, with membership Bronze, and leaves every earlier Customer as
    it was; the receiver does nothing when the record was not created,
    so an identity update leaves the customers as they were. *)
Theorem customer_provisioned (s : Store) (username first_name last_name : string)
                             (is_staff : bool) :
  reachable s ->
  let u := User.mk (seq_user s) username first_name last_name is_staff in
  let c := Customer.mk (seq_customer s) "" None MEMBERSHIP_BRONZE
             (seq_user s) in
  let s' := fst (handle (IdentityCreate username first_name last_name
                           is_staff) s) in
  snd (handle (IdentityCreate username first_name last_name is_staff) s)
  = mkResponse HTTP_201_CREATED (UserBody u)
  /\ users s' = users s ++ [u]
  /\ customers s' = customers s ++ [c]
  /\ filter (fun c0 => Customer.user c0 =? User.id u) (customers s') = [c]
  /\ membership_label (Customer.membership c) = "Bronze"
  /\ (forall v t, create_customer_for_new_user v false t = (t, inr tt))
  /\ (forall pk n f l st,
         customers (fst (handle (IdentityUpdate pk n f l st) s))
         = customers s).
Proof.
  intros Hr u c s'. pose proof (Inv_reachable s Hr) as HI.
  pose proof (no_customer_for_next_user s HI) as Hno.
  assert (Hu : user_exists (seq_user s)
                 (set_seq_user (seq_user s + 1)
                    (set_users (users s ++ [u]) s)) = true).
  { unfold user_exists. simpl. rewrite existsb_app. simpl.
    rewrite Z.eqb_refl. now rewrite orb_true_r. }
  assert (Hh : handle (IdentityCreate username first_name last_name
                         is_staff) s
               = (set_seq_customer (seq_customer s + 1)
                    (set_customers (customers s ++ [c])
                       (set_seq_user (seq_user s + 1)
                          (set_users (users s ++ [u]) s))),
                  mkResponse HTTP_201_CREATED (UserBody u))).
  { unfold handle, view, respond, identity_create, User_save,
      post_save_send, create_customer_for_new_user,
      Customer_objects_create.
    unfold bind, get_store, modify, ret. cbn [User.id].
    cbn [customers set_seq_user set_users]. rewrite Hno.
    fold u. rewrite Hu. reflexivity. }
  subst s'. rewrite Hh. cbn [fst snd].
  repeat split.
  - cbn [customers set_seq_customer set_customers]. rewrite filter_app.
    rewrite filter_none by exact Hno. simpl. now rewrite Z.eqb_refl.
  - intros pk n f l st.
    unfold handle, view, respond, identity_update, User_save,
      post_save_send, create_customer_for_new_user.
    unfold bind, get_store, modify, ret, raise.
    destruct (user_exists pk s) eqn:E; cbn [negb]; [|reflexivity].
    rewrite E. reflexivity.
Qed.

Lemma customer_provisioned_witness :
  reachable demo_store
  /\ customers
       (fst (handle (IdentityCreate "bob" "Bob" "B" false) demo_store))
     = customers demo_store
       ++ [Customer.mk (seq_customer demo_store) "" None MEMBERSHIP_BRONZE
             (seq_user demo_store)].
Proof.
  assert (Hr : reachable demo_store) by (exists demo_requests; reflexivity).
  split; [exact Hr|].
  exact (proj1 (proj2 (proj2 (customer_provisioned demo_store "bob" "Bob"
                                "B" false Hr)))).
Defined.

(* ===================================================================== *)
(** ** Cart lines *)
(* ===================================================================== *)

(** C7. Updating the quantity of an existing cart line to 0 or to a
    negative value is refused with a ValidationError (status 400) and
    changes nothing, the line included; and in every reachable state the
    quantity of every cart line is at least 1. *)
Theorem quantity_update_validated :
  (forall s cart_pk pk quantity instance,
      CartItemViewSet_get_object cart_pk pk s = (s, inr instance) ->
      quantity <= 0 ->
      handle (CartItemUpdate cart_pk pk quantity) s
      = (s, exception_response ValidationError)
      /\ status_code (exception_response ValidationError)
         = HTTP_400_BAD_REQUEST)
  /\ (forall s,
         reachable s ->
         Forall (fun i => 1 <= CartItem.quantity i) (cartitems s)).
Proof.
  split.
  - intros s cart_pk pk quantity instance Hg Hq. split; [|reflexivity].
    assert (Hv : run_validators CartItem_quantity_validators quantity
                 = false).
    { apply not_true_is_false. intros Hv. apply quantity_valid in Hv. lia. }
    unfold handle, view, respond, CartItemViewSet_partial_update.
    unfold bind at 1. rewrite Hg.
    unfold CartItemSerializer_is_valid, bind at 1. rewrite Hv.
    reflexivity.
  - intros s Hr. pose proof (inv_quantity s (Inv_reachable s Hr)) as H3.
    eapply Forall_impl; [|exact H3]. intros i Hi. simpl in Hi. lia.
Qed.

Lemma quantity_update_validated_witness :
  handle (CartItemUpdate 77 1 0) demo_store
  = (demo_store, exception_response ValidationError)
  /\ handle (CartItemUpdate 77 1 (-3)) demo_store
     = (demo_store, exception_response ValidationError)
  /\ Forall (fun i => 1 <= CartItem.quantity i) (cartitems demo_store).
Proof.
  split; [|split].
  - apply (proj1 quantity_update_validated demo_store 77 1 0
             (CartItem.mk 1 77 1 2)); [reflexivity|lia].
  - apply (proj1 quantity_update_validated demo_store 77 1 (-3)
             (CartItem.mk 1 77 1 2)); [reflexivity|lia].
  - apply (proj2 quantity_update_validated demo_store).
    exists demo_requests. reflexivity.
Defined.

(** C10. A product that no order item refers to is deleted whatever
    carts contain it: the answer is 204, every cart line of the product
    is deleted with it and the other lines stay; and in every reachable
    state, hence after every request, each cart line refers to a product
    that exists. *)
Theorem product_delete_cascades_to_carts :
  (forall s pk,
      product_exists pk s = true ->
      existsb (fun i => OrderItem.product i =? pk) (orderitems s) = false ->
      snd (handle (ProductDestroy pk) s)
      = mkResponse HTTP_204_NO_CONTENT NoBody
      /\ cartitems (fst (handle (ProductDestroy pk) s))
         = filter (fun i => negb (CartItem.product i =? pk)) (cartitems s)
      /\ product_exists pk (fst (handle (ProductDestroy pk) s)) = false
      /\ (forall i, In i (cartitems (fst (handle (ProductDestroy pk) s))) ->
                    CartItem.product i <> pk))
  /\ (forall s,
         reachable s ->
         Forall (fun i => product_exists (CartItem.product i) s = true)
           (cartitems s))
  /\ (forall s r,
         reachable s ->
         Forall (fun i => product_exists (CartItem.product i)
                            (fst (handle r s)) = true)
           (cartitems (fst (handle r s)))).
Proof.
  split; [|split].
  - intros s pk Hp Ho.
    assert (Hh : handle (ProductDestroy pk) s
                 = (fst (handle (ProductDestroy pk) s),
                    mkResponse HTTP_204_NO_CONTENT NoBody)
                 /\ cartitems (fst (handle (ProductDestroy pk) s))
                    = filter (fun i => negb (CartItem.product i =? pk))
                        (cartitems s)
                 /\ products (fst (handle (ProductDestroy pk) s))
                    = filter (fun p => negb (Product.id p =? pk))
                        (products s)).
    { unfold handle, view, respond, ProductViewSet_destroy,
        ModelViewSet_destroy, Product_delete.
      unfold bind, get_store, ret, raise.
      rewrite count_pos_existsb, Ho, Hp. cbn [negb]. rewrite Ho.
      repeat split. }
    destruct Hh as [Hh [Hci Hps]].
    split; [now rewrite Hh|]. split; [exact Hci|]. split.
    + unfold product_exists. rewrite Hps.
      apply (existsb_filter_neg (fun p => Product.id p =? pk)).
    + intros i Hi. rewrite Hci in Hi. apply filter_In in Hi.
      destruct Hi as [_ Hi]. intros He. apply Z.eqb_eq in He.
      now rewrite He in Hi.
  - intros s Hr. exact (inv_line_product s (Inv_reachable s Hr)).
  - intros s r Hr.
    exact (inv_line_product _ (Inv_reachable _ (reachable_handle r s Hr))).
Qed.

Lemma product_delete_cascades_to_carts_witness :
  snd (handle (ProductDestroy 1) demo_store) = mkResponse 204 NoBody
  /\ cartitems (fst (handle (ProductDestroy 1) demo_store))
     = [CartItem.mk 2 77 2 1]
  /\ Forall (fun i => product_exists (CartItem.product i) demo_store = true)
       (cartitems demo_store).
Proof.
  destruct (proj1 product_delete_cascades_to_carts demo_store 1)
    as [Hr [Hc _]]; [reflexivity|reflexivity|].
  split; [exact Hr|]. split; [exact Hc|].
  apply (proj1 (proj2 product_delete_cascades_to_carts) demo_store).
  exists demo_requests. reflexivity.
Defined.








(** Two placements on the same cart, one after the other: once the first
    went through, the second finds no cart and changes nothing. *)
Lemma second_placement_refused (s : Store) (fault fault' : option nat)
      (user user' : Caller) (cart_id now now' : Z) :
  status_code (snd (handle (OrderCreate fault user cart_id now) s))
  = HTTP_200_OK ->
  let s' := fst (handle (OrderCreate fault user cart_id now) s) in
  OrderViewSet_create fault' user' cart_id now' s' = (s', inl NotFound).
Proof.
  intros Hst s'. subst s'.
  destruct (OrderCreate_cases fault user cart_id now s)
    as [[e He]|[o [new [He _]]]]; rewrite He in *; cbn [fst snd] in *.
  - now apply exception_response_not_ok in Hst.
  - rewrite OrderViewSet_create_eq.
    assert (Hc : cart_exists cart_id (placed o new cart_id s) = false)
      by apply existsb_filter_neg.
    now rewrite Hc.
Qed.

(* ===================================================================== *)
(** ** Two placements on one cart *)
(* ===================================================================== *)

(** The two steps of a request, taken back to back, are the view. *)
Lemma placement_steps_compose user cart_id now s :
  placement_step user cart_id now
    (snd (placement_step user cart_id now Received s))
    (fst (placement_step user cart_id now Received s))
  = (fst (respond (OrderViewSet_create None user cart_id now) s),
     Answered (snd (respond (OrderViewSet_create None user cart_id now) s))).
Proof.
  assert (Hv : OrderViewSet_create None user cart_id now s
               = match CreateOrderSerializer_is_valid cart_id s with
                 | (s1, inr _) =>
                     OrderViewSet_create_save None user cart_id now s1
                 | (s1, inl e) => (s1, inl e)
                 end).
  { unfold OrderViewSet_create, OrderViewSet_create_save, bind.
    now destruct (CreateOrderSerializer_is_valid cart_id s) as [s1 [e|u]]. }
  unfold respond. rewrite Hv. unfold placement_step at 2 3.
  destruct (CreateOrderSerializer_is_valid cart_id s) as [s1 [e|u]];
    cbn [fst snd]; [reflexivity|].
  cbn [placement_step]. unfold respond.
  now destruct (OrderViewSet_create_save None user cart_id now s1)
    as [s2 [e|r]].
Qed.














(* ===================================================================== *)
(** ** Further properties of the views *)
(* ===================================================================== *)

(** X1. A cart line is only reachable through its own cart: PATCH and
    DELETE on a line key under a cart that has no line of that key
    answer 404 and leave the database as it was, whatever other carts
    hold. *)
Theorem cart_item_scoped_to_cart (s : Store) (cart_pk pk quantity : Z) :
  filter (fun i => CartItem.id i =? pk) (items_of_cart cart_pk s) = [] ->
  handle (CartItemUpdate cart_pk pk quantity) s
  = (s, exception_response NotFound)
  /\ handle (CartItemDestroy cart_pk pk) s
     = (s, exception_response NotFound).
Proof.
  intros H.
  unfold handle, view, respond, CartItemViewSet_partial_update,
    CartItemViewSet_destroy, CartItemViewSet_get_object.
  unfold bind, get_store, raise. rewrite H. split; reflexivity.
Qed.

Lemma cart_item_scoped_to_cart_witness :
  In (CartItem.mk 1 77 1 2) (cartitems demo_second_cart)
  /\ handle (CartItemUpdate 78 1 9) demo_second_cart
     = (demo_second_cart, exception_response NotFound)
  /\ handle (CartItemDestroy 78 1) demo_second_cart
     = (demo_second_cart, exception_response NotFound).
Proof.
  split; [vm_compute; now left|].
  apply (cart_item_scoped_to_cart demo_second_cart 78 1 9).
  vm_compute. reflexivity.
Defined.

(** X2. For a key that names an existing product, or an existing
    collection, the guarded delete never ends in a server error and the
    PROTECT rule of the relation is never what stops it: the answer is
    405 with the database as it was when a protecting row refers to the
    key, and 204 otherwise; a deleted collection is gone and the
    products are as they were. *)
Theorem catalog_destroy_outcomes (s : Store) (pk : Z) :
  (product_exists pk s = true ->
   status_code (snd (handle (ProductDestroy pk) s))
   = (if existsb (fun i => OrderItem.product i =? pk) (orderitems s)
      then HTTP_405_METHOD_NOT_ALLOWED
      else HTTP_204_NO_CONTENT)
   /\ (status_code (snd (handle (ProductDestroy pk) s))
       <> HTTP_204_NO_CONTENT ->
       fst (handle (ProductDestroy pk) s) = s))
  /\ (collection_exists pk s = true ->
      status_code (snd (handle (CollectionDestroy pk) s))
      = (if existsb (fun p => Product.collection p =? pk) (products s)
         then HTTP_405_METHOD_NOT_ALLOWED
         else HTTP_204_NO_CONTENT)
      /\ (status_code (snd (handle (CollectionDestroy pk) s))
          <> HTTP_204_NO_CONTENT ->
          fst (handle (CollectionDestroy pk) s) = s)
      /\ (status_code (snd (handle (CollectionDestroy pk) s))
          = HTTP_204_NO_CONTENT ->
          collection_exists pk (fst (handle (CollectionDestroy pk) s))
          = false
          /\ products (fst (handle (CollectionDestroy pk) s)) = products s)).
Proof.
  split; intros He.
  - unfold handle, view, respond, ProductViewSet_destroy,
      ModelViewSet_destroy, Product_delete.
    unfold bind, get_store, ret, raise. rewrite count_pos_existsb.
    destruct (existsb _ (orderitems s)) eqn:Ho; cbn [fst snd status_code];
      [split; [reflexivity|auto]|].
    rewrite He. cbn [negb fst snd]. rewrite Ho. cbn [fst snd status_code].
    split; [reflexivity|]. intros H. now elim H.
  - unfold handle, view, respond, CollectionViewSet_destroy,
      ModelViewSet_destroy, Collection_delete.
    unfold bind, get_store, ret, raise. rewrite exists_rows_existsb.
    destruct (existsb _ (products s)) eqn:Ho; cbn [fst snd status_code].
    + split; [reflexivity|]. split; [auto|]. discriminate.
    + rewrite He. cbn [negb fst snd]. rewrite Ho. cbn [fst snd status_code].
      split; [reflexivity|]. split; [intros H; now elim H|].
      intros _. split; [|reflexivity].
      unfold collection_exists. simpl.
      apply (existsb_filter_neg (fun c => Collection.id c =? pk)).
Qed.

Lemma catalog_destroy_outcomes_witness :
  status_code (snd (handle (ProductDestroy 1) demo_ordered)) = 405
  /\ status_code (snd (handle (ProductDestroy 1) demo_store)) = 204
  /\ fst (handle (CollectionDestroy 1) demo_store) = demo_store.
Proof.
  pose proof (proj1 (proj1 (catalog_destroy_outcomes demo_ordered 1)
                       eq_refl)) as H1.
  pose proof (proj1 (proj1 (catalog_destroy_outcomes demo_store 1)
                       eq_refl)) as H2.
  pose proof (proj1 (proj2 (proj2 (catalog_destroy_outcomes demo_store 1)
                              eq_refl))) as H3.
  vm_compute in H1, H2.
  split; [exact H1|]. split; [exact H2|].
  apply H3. vm_compute. discriminate.
Defined.

Lemma filter_out_key {A} (key : A -> Z) (k : Z) (l : list A) (a : A) :
  In a (filter (fun x => negb (key x =? k)) l) -> key a <> k.
Proof.
  intros H. apply filter_In in H. destruct H as [_ H].
  intros E. apply Z.eqb_eq in E. now rewrite E in H.
Qed.




(** X4. An order that has items cannot be deleted: DELETE by a staff
    caller ends in the uncaught ProtectedError, a server error, and
    changes nothing. An order without items is deleted with 204, and
    the order items of other orders stay as they are. *)
Theorem order_destroy_protected (s : Store) (user : Caller) (pk : Z) :
  caller_is_staff user = true ->
  order_exists pk s = true ->
  (existsb (fun i => OrderItem.order i =? pk) (orderitems s) = true ->
   handle (OrderDestroy user pk) s = (s, exception_response ProtectedError)
   /\ status_code (exception_response ProtectedError)
      = HTTP_500_INTERNAL_SERVER_ERROR)
  /\ (existsb (fun i => OrderItem.order i =? pk) (orderitems s) = false ->
      snd (handle (OrderDestroy user pk) s)
      = mkResponse HTTP_204_NO_CONTENT NoBody
      /\ order_exists pk (fst (handle (OrderDestroy user pk) s)) = false
      /\ orderitems (fst (handle (OrderDestroy user pk) s)) = orderitems s).
Proof.
  intros Hst He.
  assert (Hobj : exists o rest,
             filter (fun o => Order.id o =? pk) (orders s) = o :: rest
             /\ Order.id o = pk).
  { unfold order_exists in He. rewrite <- exists_rows_existsb in He.
    destruct (filter _ (orders s)) as [|o rest] eqn:F; [discriminate|].
    exists o, rest. split; [reflexivity|].
    assert (Hin : In o (filter (fun o => Order.id o =? pk) (orders s)))
      by (rewrite F; now left).
    apply filter_In in Hin. now apply Z.eqb_eq. }
  destruct Hobj as [o [rest [Hf Hid]]].
  assert (Hgo : OrderViewSet_get_object user pk s = (s, inr o)).
  { unfold OrderViewSet_get_object, OrderViewSet_get_queryset, bind,
      get_store, ret. rewrite Hst. now rewrite Hf. }
  assert (Hh : handle (OrderDestroy user pk) s
               = match Order_delete pk s with
                 | (s1, inr _) =>
                     (s1, mkResponse HTTP_204_NO_CONTENT NoBody)
                 | (s1, inl e) => (s1, exception_response e)
                 end).
  { unfold handle, view.
    rewrite dispatch_allowed by (simpl; now rewrite Hst).
    unfold respond, OrderViewSet_destroy, bind, ret.
    rewrite Hgo, Hid. now destruct (Order_delete pk s) as [s1 [e|[]]]. }
  rewrite Hh. unfold Order_delete.
  split; intros Hi; rewrite Hi; cbn [fst snd].
  - split; reflexivity.
  - split; [reflexivity|]. split; [|reflexivity].
    unfold order_exists. simpl.
    apply (existsb_filter_neg (fun o => Order.id o =? pk)).
Qed.

Lemma order_destroy_protected_witness :
  handle (OrderDestroy (Authenticated admin) 1) demo_ordered
  = (demo_ordered, exception_response ProtectedError).
Proof.
  apply (proj1 (order_destroy_protected demo_ordered (Authenticated admin) 1
                  eq_refl eq_refl)).
  vm_compute. reflexivity.
Defined.

(* --------------------------------------------------------------------- *)
(** *** Foreign keys under inserts, updates and deletes *)

Section Refs.
Context {R T : Type} (key : R -> Z) (pk : T -> Z).

Lemma refs_target_app rows ts t :
  refs key pk rows ts -> refs key pk rows (ts ++ [t]).
Proof.
  unfold refs. intros H. eapply Forall_impl; [|exact H].
  intros r Hr. simpl in Hr. now rewrite existsb_app, Hr.
Qed.

Lemma refs_target_update rows ts (g : T -> T) :
  (forall t, pk (g t) = pk t) ->
  refs key pk rows ts -> refs key pk rows (map g ts).
Proof.
  unfold refs. intros Hg H. eapply Forall_impl; [|exact H].
  intros r Hr. simpl in *. rewrite <- Hr. apply existsb_update.
  intros t. now rewrite Hg.
Qed.

Lemma refs_rows_filter rows ts f :
  refs key pk rows ts -> refs key pk (filter f rows) ts.
Proof. apply Forall_filter_keep. Qed.

Lemma refs_rows_app rows ts r :
  existsb (fun t => pk t =? key r) ts = true ->
  refs key pk rows ts -> refs key pk (rows ++ [r]) ts.
Proof.
  unfold refs. intros Hr H. apply Forall_app. split; auto.
Qed.

Lemma refs_rows_update rows ts (g : R -> R) :
  (forall r, key (g r) = key r) ->
  refs key pk rows ts -> refs key pk (map g rows) ts.
Proof.
  unfold refs. intros Hg H. apply Forall_map.
  eapply Forall_impl; [|exact H]. intros r Hr. simpl. now rewrite Hg.
Qed.

Lemma refs_delete_cascade rows ts k :
  refs key pk rows ts ->
  refs key pk (filter (fun r => negb (key r =? k)) rows)
    (filter (fun t => negb (pk t =? k)) ts).
Proof.
  unfold refs. intros H. apply Forall_forall. intros r Hr.
  apply filter_In in Hr. destruct Hr as [Hr Hne].
  rewrite Forall_forall in H. specialize (H r Hr).
  apply existsb_exists in H. destruct H as [t [Ht Hid]].
  apply existsb_exists. exists t. split; [|exact Hid].
  apply filter_In. split; [exact Ht|].
  apply Z.eqb_eq in Hid. now rewrite Hid.
Qed.

Lemma refs_delete_protected rows ts k :
  existsb (fun r => key r =? k) rows = false ->
  refs key pk rows ts ->
  refs key pk rows (filter (fun t => negb (pk t =? k)) ts).
Proof.
  unfold refs. intros Hk H. apply Forall_forall. intros r Hr.
  rewrite Forall_forall in H. specialize (H r Hr).
  apply existsb_exists in H. destruct H as [t [Ht Hid]].
  apply existsb_exists. exists t. split; [|exact Hid].
  apply filter_In. split; [exact Ht|].
  apply Z.eqb_eq in Hid. rewrite Hid.
  destruct (key r =? k) eqn:E; [|reflexivity].
  exfalso. assert (Hex : existsb (fun r => key r =? k) rows = true)
    by (apply existsb_exists; eauto).
  congruence.
Qed.

Lemma refs_rows_replace rows ts (test : R -> bool) (r' : R) :
  existsb (fun t => pk t =? key r') ts = true ->
  refs key pk rows ts ->
  refs key pk (map (fun r => if test r then r' else r) rows) ts.
Proof.
  unfold refs. intros Hr' H. apply Forall_map.
  eapply Forall_impl; [|exact H]. intros r Hr. simpl in *.
  now destruct (test r).
Qed.
End Refs.

Lemma refs_app_both {R T} (key : R -> Z) (pk : T -> Z) rows ts r t :
  pk t = key r ->
  refs key pk rows ts -> refs key pk (rows ++ [r]) (ts ++ [t]).
Proof.
  intros He H. apply refs_rows_app; [|now apply refs_target_app].
  rewrite existsb_app. simpl. rewrite He, Z.eqb_refl.
  now rewrite orb_true_r.
Qed.

Create HintDb integrity.
#[local] Hint Resolve refs_target_app refs_rows_filter refs_delete_cascade
  refs_delete_protected NoDup_map_filter Forall_filter_keep : integrity.

(* --------------------------------------------------------------------- *)
(** *** Every request keeps the foreign keys *)

Ltac open_integrity H :=
  destruct H as [J1 J2 J3 J4 J5 J6 J7 J8 J9 J10 J12 J13 J14 J15].

Ltac close_integrity :=
  constructor; simpl; unfold product_exists in *; simpl;
  eauto with integrity.

Lemma featured_more_products s ps :
  (forall f, product_exists f s = true ->
             existsb (fun p => Product.id p =? f) ps = true) ->
  Forall (fun c => match Collection.featured_product c with
                   | Some f => product_exists f s = true
                   | None => True
                   end) (collections s) ->
  Forall (fun c => match Collection.featured_product c with
                   | Some f => existsb (fun p => Product.id p =? f) ps = true
                   | None => True
                   end) (collections s).
Proof.
  intros Hp H. eapply Forall_impl; [|exact H]. intros c Hc. simpl in *.
  destruct (Collection.featured_product c); auto.
Qed.

Lemma IdentityCreate_ok n f l st s :
  Inv s ->
  fst (handle (IdentityCreate n f l st) s)
  = set_seq_customer (seq_customer s + 1)
      (set_customers
         (customers s
          ++ [Customer.mk (seq_customer s) "" None MEMBERSHIP_BRONZE
                (seq_user s)])
         (set_seq_user (seq_user s + 1)
            (set_users (users s ++ [User.mk (seq_user s) n f l st]) s))).
Proof.
  intros HI. pose proof (no_customer_for_next_user s HI) as Hno.
  assert (Hu : user_exists (seq_user s)
                 (set_seq_user (seq_user s + 1)
                    (set_users (users s ++ [User.mk (seq_user s) n f l st])
                       s)) = true).
  { unfold user_exists. simpl. rewrite existsb_app. simpl.
    rewrite Z.eqb_refl. now rewrite orb_true_r. }
  unfold handle, view, respond, identity_create, User_save,
    post_save_send, create_customer_for_new_user, Customer_objects_create.
  unfold bind, get_store, modify, ret. cbn [User.id].
  cbn [customers set_seq_user set_users]. rewrite Hno, Hu. reflexivity.
Qed.

Lemma Integrity_identity_create n f l st s :
  Inv s -> Integrity s ->
  Integrity (fst (handle (IdentityCreate n f l st) s)).
Proof.
  intros HI HJ. rewrite IdentityCreate_ok by exact HI.
  pose proof (inv_customer_user s HI) as H5.
  open_integrity HJ. constructor; simpl; eauto with integrity.
  - now apply refs_app_both.
  - rewrite map_app. simpl. apply NoDup_snoc; [exact J12|].
    intros Hin. apply in_map_iff in Hin. destruct Hin as [c [Hc Hin]].
    rewrite Forall_forall in H5. specialize (H5 c Hin). simpl in H5. lia.
Qed.

Lemma Integrity_identity_update pk n f l st s :
  Integrity s -> Integrity (fst (handle (IdentityUpdate pk n f l st) s)).
Proof.
  intros HJ.
  unfold handle, view, identity_update, User_save, post_save_send,
    create_customer_for_new_user.
  unfold_m. simpl.
  destruct (user_exists pk s) eqn:E; simpl; rewrite ?E; simpl;
    [|exact HJ].
  open_integrity HJ. constructor; simpl; eauto with integrity.
  apply refs_target_update; [|exact J6].
  intros t. destruct (User.id t =? pk) eqn:Et; [|reflexivity].
  apply Z.eqb_eq in Et. now rewrite Et.
Qed.

Lemma Integrity_collection_create t s :
  Integrity s -> Integrity (fst (handle (CollectionCreate t) s)).
Proof.
  intros HJ. open_integrity HJ. constructor; simpl; eauto with integrity.
  apply Forall_app. split; [exact J10|]. repeat constructor.
Qed.

Lemma Integrity_collection_destroy pk s :
  Integrity s -> Integrity (fst (handle (CollectionDestroy pk) s)).
Proof.
  intros HJ.
  unfold handle, view, CollectionViewSet_destroy, ModelViewSet_destroy,
    Collection_delete.
  unfold_m. simpl.
  repeat split_if; try exact HJ.
  open_integrity HJ. constructor; simpl; eauto with integrity.
Qed.

Lemma featured_keep (ps ps' : list Product.t) (cs : list Collection.t) :
  (forall f, existsb (fun p => Product.id p =? f) ps = true ->
             existsb (fun p => Product.id p =? f) ps' = true) ->
  Forall (fun c => match Collection.featured_product c with
                   | Some f => existsb (fun p => Product.id p =? f) ps = true
                   | None => True
                   end) cs ->
  Forall (fun c => match Collection.featured_product c with
                   | Some f => existsb (fun p => Product.id p =? f) ps' = true
                   | None => True
                   end) cs.
Proof.
  intros Hp H. eapply Forall_impl; [|exact H]. intros c Hc. simpl in *.
  destruct (Collection.featured_product c); auto.
Qed.

Lemma Integrity_product_create d now s :
  Integrity s -> Integrity (fst (handle (ProductCreate d now) s)).
Proof.
  intros HJ.
  unfold handle, view, ProductViewSet_create, ProductSerializer_is_valid.
  unfold_m.
  destruct (run_validators Product_unit_price_validators _
            && run_validators Product_inventory_validators _
            && collection_exists (ProductData.collection d) s) eqn:Hv;
    simpl; [|exact HJ].
  apply andb_true_iff in Hv. destruct Hv as [_ Hc].
  open_integrity HJ. constructor; simpl; eauto with integrity.
  - apply refs_rows_app; [exact Hc|exact J7].
  - apply (featured_keep (products s)); [|exact J10]. intros f Hf.
    simpl. now rewrite existsb_app, Hf.
Qed.

Lemma Integrity_product_update pk d now s :
  Integrity s -> Integrity (fst (handle (ProductUpdate pk d now) s)).
Proof.
  intros HJ.
  unfold handle, view, ProductViewSet_update, ProductSerializer_is_valid.
  unfold_m. cbv beta.
  destruct (product_exists pk s) eqn:Hp; cbn [negb]; [|exact HJ].
  destruct (run_validators Product_unit_price_validators
              (ProductData.unit_price d)
            && run_validators Product_inventory_validators
                 (ProductData.inventory d)
            && collection_exists (ProductData.collection d) s) eqn:Hv;
    [|exact HJ].
  apply andb_true_iff in Hv. destruct Hv as [_ Hc].
  assert (Hid : forall t : Product.t,
             Product.id (if Product.id t =? pk
                         then Product_of_data pk now d else t)
             = Product.id t).
  { intros t. destruct (Product.id t =? pk) eqn:Et; [|reflexivity].
    apply Z.eqb_eq in Et. now rewrite Et. }
  open_integrity HJ. constructor; simpl; eauto with integrity.
  - now apply refs_target_update.
  - now apply refs_target_update.
  - now apply refs_rows_replace.
  - now apply refs_target_update.
  - now apply refs_target_update.
  - apply (featured_keep (products s)); [|exact J10]. intros f Hf.
    simpl. rewrite <- Hf. apply existsb_update. intros t. now rewrite Hid.
  - now apply refs_target_update.
Qed.

Lemma featured_after_delete pk ps cs :
  Forall (fun c => match Collection.featured_product c with
                   | Some f => existsb (fun p => Product.id p =? f) ps = true
                   | None => True
                   end) cs ->
  Forall (fun c => match Collection.featured_product c with
                   | Some f =>
                       existsb (fun p => Product.id p =? f)
                         (filter (fun p => negb (Product.id p =? pk)) ps)
                       = true
                   | None => True
                   end)
    (map (fun c => match Collection.featured_product c with
                   | Some f =>
                       if f =? pk
                       then Collection.mk (Collection.id c)
                              (Collection.title c) None
                       else c
                   | None => c
                   end) cs).
Proof.
  intros H. apply Forall_map. eapply Forall_impl; [|exact H].
  intros c Hc. simpl in *.
  destruct (Collection.featured_product c) as [f|] eqn:E;
    [|now rewrite E].
  destruct (f =? pk) eqn:Ef; simpl; [exact I|]. rewrite E.
  apply existsb_exists in Hc. destruct Hc as [p [Hp Hid]].
  apply existsb_exists. exists p. split; [|exact Hid].
  apply filter_In. split; [exact Hp|].
  apply Z.eqb_eq in Hid. now rewrite Hid, Ef.
Qed.

Lemma Integrity_product_destroy pk s :
  Integrity s -> Integrity (fst (handle (ProductDestroy pk) s)).
Proof.
  intros HJ.
  unfold handle, view, ProductViewSet_destroy, ModelViewSet_destroy,
    Product_delete.
  unfold_m. simpl.
  repeat split_if; try exact HJ.
  open_integrity HJ. constructor; simpl; eauto with integrity.
  - apply refs_rows_filter. apply refs_target_update; [|exact J7].
    intros c. destruct (Collection.featured_product c) as [f|];
      [|reflexivity].
    now destruct (f =? pk).
  - now apply featured_after_delete.
Qed.

Lemma Integrity_cart_create uuid now s :
  Integrity s -> Integrity (fst (handle (CartCreate uuid now) s)).
Proof.
  intros HJ. unfold handle, view, CartViewSet_create, Cart_objects_create.
  unfold_m. simpl. repeat split_if; try exact HJ.
  open_integrity HJ. constructor; simpl; eauto with integrity.
Qed.

Lemma Integrity_cart_destroy pk s :
  Integrity s -> Integrity (fst (handle (CartDestroy pk) s)).
Proof.
  intros HJ.
  unfold handle, view, CartViewSet_destroy, ModelViewSet_destroy,
    Cart_delete.
  unfold_m. simpl. repeat split_if; try exact HJ.
  open_integrity HJ. constructor; simpl; eauto with integrity.
Qed.

Lemma Integrity_save_quantity pk q s :
  Integrity s ->
  Integrity (set_cartitems (map (with_quantity pk q) (cartitems s)) s).
Proof.
  intros HJ. open_integrity HJ. constructor; simpl; eauto with integrity.
  - apply refs_rows_update; [|exact J1].
    intros r. unfold with_quantity. now destruct (CartItem.id r =? pk).
  - apply refs_rows_update; [|exact J2].
    intros r. apply with_quantity_product.
Qed.

Lemma Integrity_cartitem_create c p q s :
  Integrity s -> Integrity (fst (handle (CartItemCreate c p q) s)).
Proof.
  intros HJ.
  unfold handle, view, CartItemViewSet_create, CartItemSerializer_is_valid,
    AddCartItemSerializer_save, CartItem_save_quantity,
    CartItem_objects_create.
  unfold_m.
  destruct (run_validators _ q) eqn:Hv; simpl; [|exact HJ].
  destruct (lines_of c p s) as [|i [|j rest]] eqn:Hl; simpl.
  - destruct (cart_exists c s) eqn:Hc; simpl; [|exact HJ].
    destruct (product_exists p s) eqn:Hp; simpl; [|exact HJ].
    rewrite Hl. simpl.
    destruct (PositiveSmallIntegerField_check q); simpl; [|exact HJ].
    open_integrity HJ. constructor; simpl; eauto with integrity.
    + now apply refs_rows_app.
    + now apply refs_rows_app.
  - destruct (PositiveSmallIntegerField_check _); simpl; [|exact HJ].
    now apply Integrity_save_quantity.
  - exact HJ.
Qed.

Lemma Integrity_cartitem_update c pk q s :
  Integrity s -> Integrity (fst (handle (CartItemUpdate c pk q) s)).
Proof.
  intros HJ.
  unfold handle, view, CartItemViewSet_partial_update,
    CartItemViewSet_get_object, CartItemSerializer_is_valid,
    UpdateCartItemSerializer_save, CartItem_save_quantity.
  unfold_m.
  destruct (run_validators _ q) eqn:Hv;
    destruct (filter _ (items_of_cart c s)) as [|i rest]; simpl;
    try exact HJ.
  destruct (PositiveSmallIntegerField_check _); simpl; [|exact HJ].
  now apply Integrity_save_quantity.
Qed.

Lemma Integrity_cartitem_destroy c pk s :
  Integrity s -> Integrity (fst (handle (CartItemDestroy c pk) s)).
Proof.
  intros HJ.
  unfold handle, view, CartItemViewSet_destroy, CartItemViewSet_get_object,
    CartItem_delete.
  unfold_m. simpl.
  destruct (filter _ (items_of_cart c s)) as [|i rest]; simpl; [exact HJ|].
  open_integrity HJ. constructor; simpl; eauto with integrity.
Qed.

Lemma find_some_existsb {A} (f : A -> bool) (l : list A) (a : A) :
  find f l = Some a -> existsb f l = true.
Proof.
  intros H. apply find_some in H. apply existsb_exists. eauto.
Qed.

Lemma OrderCreate_state fault user cart now s :
  fst (handle (OrderCreate fault user cart now) s) = s
  \/ exists o new,
       fst (handle (OrderCreate fault user cart now) s)
       = placed o new cart s
       /\ Order.id o = seq_order s
       /\ customer_exists (Order.customer o) s = true
       /\ Forall (fun i => OrderItem.order i = seq_order s
                           /\ product_exists (OrderItem.product i) s = true)
            new.
Proof.
  unfold handle, view.
  destruct (dispatch_state "POST" user
              (OrderViewSet_create fault user cart now) s) as [->| ->];
    [now left|].
  unfold respond. rewrite OrderViewSet_create_eq.
  destruct (negb (cart_exists cart s)); [now left|].
  destruct (negb (exists_rows (items_of_cart cart s))); [now left|].
  destruct (CreateOrderSerializer_save fault (caller_id user) cart now s)
    as [s1 [e|o]] eqn:Hs.
  - apply save_err in Hs. subst. now left.
  - apply save_ok in Hs. destruct Hs as [c [new [Hc [Ho [Hnew ->]]]]].
    right. exists o, new. split; [reflexivity|].
    split; [now rewrite Ho|]. split.
    + rewrite Ho. cbn [Order.customer].
      unfold Customer_objects_get in Hc. destruct (caller_id user) as [k|];
        [|discriminate].
      inversion Hc as [Hg]. apply objects_get_inr in Hg.
      assert (Hin : In c (filter (fun c0 => Customer.user c0 =? k)
                            (customers s))) by (rewrite Hg; now left).
      apply filter_In in Hin. destruct Hin as [Hin _].
      apply existsb_exists. exists c. split; [exact Hin|apply Z.eqb_refl].
    + clear Ho. induction Hnew as [|l i ls is_ Hcp _ IH]; constructor;
        [|exact IH].
      destruct Hcp as [Hord [Hprod [_ [p [Hp _]]]]]. split; [exact Hord|].
      rewrite Hprod. unfold product_exists.
      eapply find_some_existsb; eauto.
Qed.

Lemma Integrity_placed o new cart s :
  Integrity s ->
  Order.id o = seq_order s ->
  customer_exists (Order.customer o) s = true ->
  Forall (fun i => OrderItem.order i = seq_order s
                   /\ product_exists (OrderItem.product i) s = true) new ->
  Integrity (placed o new cart s).
Proof.
  intros HJ Hid Hc Hnew. open_integrity HJ.
  constructor; simpl; eauto with integrity.
  - apply Forall_app. split; [now apply refs_target_app|].
    eapply Forall_impl; [|exact Hnew]. intros i [Hi _]. simpl.
    rewrite existsb_app. simpl. rewrite Hi, Hid, Z.eqb_refl.
    now rewrite orb_true_r.
  - apply Forall_app. split; [exact J4|].
    eapply Forall_impl; [|exact Hnew]. now intros i [_ Hi].
  - now apply refs_rows_app.
Qed.

Lemma Integrity_order_create fault user cart now s :
  Integrity s ->
  Integrity (fst (handle (OrderCreate fault user cart now) s)).
Proof.
  intros HJ.
  destruct (OrderCreate_state fault user cart now s)
    as [->|[o [new [-> [Hid [Hc Hnew]]]]]]; [exact HJ|].
  now apply Integrity_placed.
Qed.

Lemma OrderViewSet_get_object_inr user pk s s1 o :
  OrderViewSet_get_object user pk s = (s1, inr o) ->
  s1 = s /\ In o (orders s) /\ Order.id o = pk.
Proof.
  intros H. pose proof (OrderViewSet_get_object_state user pk s) as Hs.
  rewrite H in Hs. cbn [fst] in Hs. subst s1. split; [reflexivity|].
  unfold OrderViewSet_get_object, OrderViewSet_get_queryset,
    Customer_objects_get in H.
  unfold_m.
  assert (Hsub : forall qs,
             (forall x, In x qs -> In x (orders s)) ->
             match filter (fun o0 => Order.id o0 =? pk) qs with
             | [] => fun s0 : Store => (s0, inl NotFound)
             | o0 :: _ => fun s0 : Store => (s0, inr o0)
             end s = (s, @inr exn _ o) ->
             In o (orders s) /\ Order.id o = pk).
  { intros qs Hqs Hm.
    destruct (filter _ qs) as [|o0 rest] eqn:F; [discriminate|].
    inversion Hm; subst.
    assert (Hin : In o (filter (fun o0 => Order.id o0 =? pk) qs))
      by (rewrite F; now left).
    apply filter_In in Hin. destruct Hin as [Hin Hk].
    split; [auto|now apply Z.eqb_eq]. }
  destruct (caller_is_staff user).
  - apply (Hsub (orders s)); [auto|exact H].
  - destruct (caller_id user); [|discriminate].
    destruct (objects_get _) as [e|c]; [discriminate|].
    eapply Hsub; [|exact H]. intros x Hx. apply filter_In in Hx. tauto.
Qed.

Lemma Integrity_order_handlers user pk st s :
  Integrity s ->
  Integrity (fst (respond (OrderViewSet_list user) s))
  /\ Integrity (fst (respond (OrderViewSet_partial_update user pk st) s))
  /\ Integrity (fst (respond (OrderViewSet_destroy user pk) s)).
Proof.
  intros HJ. split; [|split].
  - unfold OrderViewSet_list, OrderViewSet_get_queryset,
      Customer_objects_get.
    unfold_m. simpl.
    destruct (caller_is_staff user); simpl; [exact HJ|].
    destruct (caller_id user); simpl; [|exact HJ].
    destruct (objects_get _); exact HJ.
  - unfold OrderViewSet_partial_update. unfold_m.
    destruct (OrderViewSet_get_object user pk s) as [s1 [e|o]] eqn:Hg.
    + pose proof (OrderViewSet_get_object_state user pk s) as Hs.
      rewrite Hg in Hs. simpl in *. now subst.
    + apply OrderViewSet_get_object_inr in Hg.
      destruct Hg as [-> [Hin Hid]]. simpl.
      open_integrity HJ. constructor; simpl; eauto with integrity.
      * apply refs_target_update; [|exact J3]. intros t.
        destruct (Order.id t =? pk) eqn:Et; [|reflexivity].
        apply Z.eqb_eq in Et. simpl. congruence.
      * apply refs_rows_replace; [|exact J5]. simpl.
        unfold refs in J5. rewrite Forall_forall in J5. now apply J5.
  - unfold OrderViewSet_destroy, Order_delete. unfold_m.
    destruct (OrderViewSet_get_object user pk s) as [s1 [e|o]] eqn:Hg.
    + pose proof (OrderViewSet_get_object_state user pk s) as Hs.
      rewrite Hg in Hs. simpl in *. now subst.
    + apply OrderViewSet_get_object_inr in Hg.
      destruct Hg as [-> [Hin Hid]].
      destruct (existsb _ (orderitems s)) eqn:He; simpl; [exact HJ|].
      open_integrity HJ. constructor; simpl; eauto with integrity.
Qed.

Lemma Integrity_customer_destroy user pk s :
  Integrity s -> Integrity (fst (handle (CustomerDestroy user pk) s)).
Proof.
  intros HJ.
  unfold handle, view, CustomerViewSet_destroy, check_permissions,
    ModelViewSet_destroy, Customer_delete.
  unfold_m. simpl.
  repeat split_if; try exact HJ.
  open_integrity HJ. constructor; simpl; eauto with integrity.
Qed.

Lemma Integrity_review_destroy product_pk pk s :
  Integrity s -> Integrity (fst (handle (ReviewDestroy product_pk pk) s)).
Proof.
  intros HJ.
  unfold handle, view, ReviewViewSet_destroy, ReviewViewSet_get_object,
    Review_delete.
  unfold_m. simpl.
  destruct (filter _ (ReviewViewSet_get_queryset product_pk s));
    simpl; [exact HJ|].
  open_integrity HJ. constructor; simpl; eauto with integrity.
Qed.

Lemma Integrity_image_destroy product_pk pk s :
  Integrity s ->
  Integrity (fst (handle (ProductImageDestroy product_pk pk) s)).
Proof.
  intros HJ.
  unfold handle, view, ProductImageViewSet_destroy,
    ProductImageViewSet_get_object, ProductImage_delete.
  unfold_m. simpl.
  destruct (filter _ (ProductImageViewSet_get_queryset product_pk s));
    simpl; [exact HJ|].
  open_integrity HJ. constructor; simpl; eauto with integrity.
Qed.

Lemma Integrity_handle r s :
  Inv s -> Integrity s -> Integrity (fst (handle r s)).
Proof.
  intros HI HJ.
  destruct r;
    auto using Integrity_identity_create, Integrity_identity_update,
      Integrity_collection_create, Integrity_collection_destroy,
      Integrity_product_create, Integrity_product_update,
      Integrity_product_destroy, Integrity_cart_create,
      Integrity_cart_destroy, Integrity_cartitem_create,
      Integrity_cartitem_update, Integrity_cartitem_destroy,
      Integrity_order_create, Integrity_customer_destroy,
      Integrity_review_destroy, Integrity_image_destroy.
  all: unfold handle, view;
    match goal with
    | |- Integrity (fst (respond (OrderViewSet_dispatch ?m ?u ?h) _)) =>
        destruct (dispatch_state m u h s) as [->| ->]; [exact HJ|]
    end;
    apply (Integrity_order_handlers user pk PAYMENT_STATUS_PENDING s HJ)
    || apply (Integrity_order_handlers user 0 PAYMENT_STATUS_PENDING s HJ)
    || apply (Integrity_order_handlers user pk st s HJ).
Qed.

Lemma Integrity_empty : Integrity empty_store.
Proof. repeat constructor. Qed.

Lemma Integrity_run rs :
  forall s, Inv s -> Integrity s -> Integrity (run rs s).
Proof.
  induction rs as [|r rs IH]; intros s HI HJ; simpl; [exact HJ|].
  apply IH; [apply Inv_handle, HI|apply Integrity_handle; assumption].
Qed.



Lemma unique_by_key {A} (key : A -> Z) (k : Z) (l : list A) :
  NoDup (map key l) ->
  existsb (fun a => key a =? k) l = true ->
  exists a, filter (fun a => key a =? k) l = [a].
Proof.
  induction l as [|a l IH]; simpl; intros Hn He; [discriminate|].
  inversion Hn as [|? ? Hnot Hrest]; subst.
  destruct (key a =? k) eqn:E.
  - exists a. f_equal. apply filter_none. apply not_true_is_false.
    intros Hex. apply existsb_exists in Hex. destruct Hex as [b [Hb Hk]].
    apply Hnot. apply in_map_iff. exists b. split; [|exact Hb].
    apply Z.eqb_eq in E, Hk. congruence.
  - simpl in He. apply IH; assumption.
Qed.

(* --------------------------------------------------------------------- *)
(** *** Identities and their customers *)

(** Requests other than those on identities and the deletion of a
    customer leave the directory and the customers as they are. *)
Lemma directory_frame r s :
  match r with
  | IdentityCreate _ _ _ _ | IdentityUpdate _ _ _ _ _
  | CustomerDestroy _ _ => True
  | _ => users (fst (handle r s)) = users s
         /\ customers (fst (handle r s)) = customers s
  end.
Proof.
  destruct r; try exact I.
  all: try (destruct (OrderCreate_state fault user cart_id now s)
              as [->|[o [new [-> _]]]]; split; reflexivity).
  all: unfold handle; unfold view.
  all: try (match goal with
            | |- context [respond (OrderViewSet_dispatch ?m ?u ?h) _] =>
                destruct (dispatch_state m u h s) as [->| ->];
                [split; reflexivity|]
            end).
  all: unfold CollectionViewSet_create, CollectionViewSet_destroy,
         ProductViewSet_create, ProductViewSet_update,
         ProductViewSet_destroy, CartViewSet_create, CartViewSet_destroy,
         CartItemViewSet_create, CartItemViewSet_partial_update,
         CartItemViewSet_destroy, OrderViewSet_list,
         OrderViewSet_partial_update, OrderViewSet_destroy,
         ReviewViewSet_destroy, ProductImageViewSet_destroy;
    unfold ModelViewSet_destroy, CartItemViewSet_get_object,
      ReviewViewSet_get_object, ProductImageViewSet_get_object,
      OrderViewSet_get_object, OrderViewSet_get_queryset,
      ProductSerializer_is_valid, CartItemSerializer_is_valid,
      AddCartItemSerializer_save, UpdateCartItemSerializer_save;
    unfold Customer_objects_get, Collection_delete, Product_delete,
      Cart_objects_create, Cart_delete, CartItem_save_quantity,
      CartItem_objects_create, CartItem_delete, Order_delete, Review_delete,
      ProductImage_delete;
    unfold_m; simpl;
    repeat split_match; split; reflexivity.
Qed.

Lemma Provisioned_handle r s :
  deletes_customer r = false ->
  Inv s -> Provisioned s -> Provisioned (fst (handle r s)).
Proof.
  intros Hd HI HP. pose proof (directory_frame r s) as Hf.
  destruct r; try discriminate;
    try (unfold Provisioned; rewrite (proj1 Hf), (proj2 Hf); exact HP).
  - rewrite IdentityCreate_ok by exact HI. unfold Provisioned. simpl.
    now apply refs_app_both.
  - unfold handle, view, identity_update, User_save, post_save_send,
      create_customer_for_new_user.
    unfold_m. simpl.
    destruct (user_exists pk s) eqn:E; simpl; rewrite ?E; simpl;
      [|exact HP].
    unfold Provisioned. simpl. apply refs_rows_update; [|exact HP].
    intros t. destruct (User.id t =? pk) eqn:Et; [|reflexivity].
    apply Z.eqb_eq in Et. now rewrite Et.
Qed.

Lemma Provisioned_run rs :
  forall s,
    forallb (fun r => negb (deletes_customer r)) rs = true ->
    Inv s -> Provisioned s -> Provisioned (run rs s).
Proof.
  induction rs as [|r rs IH]; intros s Hrs HI HP; simpl; [exact HP|].
  simpl in Hrs. apply andb_true_iff in Hrs. destruct Hrs as [Hr Hrs].
  apply negb_true_iff in Hr.
  apply IH; [exact Hrs|apply Inv_handle, HI|now apply Provisioned_handle].
Qed.

(** X6. As long as no request to delete a customer was made, every
    identity of the directory has exactly one Customer, so the lookups
    by [user_id] in the views do not fail for it: the "me" action
    answers with the caller's own record and, for a non-staff caller,
    the order list answers 200. (Once a customer is deleted the lookups
    of its identity raise DoesNotExist.) *)
Theorem registered_identity_has_customer (rs : list Request) (u : User.t) :
  forallb (fun r => negb (deletes_customer r)) rs = true ->
  In u (users (run rs empty_store)) ->
  exists c,
    Customer_objects_get (Some (User.id u)) (run rs empty_store)
    = (run rs empty_store, inr c)
    /\ In c (customers (run rs empty_store))
    /\ Customer.user c = User.id u
    /\ CustomerViewSet_me_get (Authenticated u) (run rs empty_store)
       = (run rs empty_store, inr c)
    /\ (User.is_staff u = false ->
        handle (OrderList (Authenticated u)) (run rs empty_store)
        = (run rs empty_store,
           mkResponse HTTP_200_OK
             (OrderListBody
                (filter (fun o => Order.customer o =? Customer.id c)
                   (orders (run rs empty_store)))))).
Proof.
  intros Hrs Hu. set (s := run rs empty_store) in *.
  assert (HJ : Integrity s)
    by (apply Integrity_run; [apply Inv_empty|apply Integrity_empty]).
  assert (HP : Provisioned s).
  { apply Provisioned_run; [exact Hrs|apply Inv_empty|constructor]. }
  unfold Provisioned, refs in HP. rewrite Forall_forall in HP.
  specialize (HP u Hu).
  destruct (unique_by_key Customer.user (User.id u) (customers s)
              (int_one_customer s HJ) HP) as [c Hc].
  assert (Hg : Customer_objects_get (Some (User.id u)) s = (s, inr c))
    by (unfold Customer_objects_get; now rewrite Hc).
  assert (Hin : In c (filter (fun a => Customer.user a =? User.id u)
                        (customers s))) by (rewrite Hc; now left).
  apply filter_In in Hin. destruct Hin as [Hin Hk]. apply Z.eqb_eq in Hk.
  exists c. split; [exact Hg|]. split; [exact Hin|]. split; [exact Hk|].
  split.
  - unfold CustomerViewSet_me_get, check_permissions, bind, ret.
    cbn [forallb has_permission caller_is_authenticated andb caller_id].
    exact Hg.
  - intros Hst. unfold handle, view.
    rewrite dispatch_allowed by reflexivity.
    unfold respond, OrderViewSet_list, OrderViewSet_get_queryset, bind,
      get_store, ret, caller_is_staff, caller_id.
    rewrite Hst, Hg. reflexivity.
Qed.

Lemma registered_identity_has_customer_witness :
  exists c,
    CustomerViewSet_me_get (Authenticated bob)
      (run demo_three_requests empty_store)
    = (run demo_three_requests empty_store, inr c)
    /\ Customer.user c = 3.
Proof.
  destruct (registered_identity_has_customer demo_three_requests bob)
    as [c [_ [_ [Hu [Hme _]]]]].
  - vm_compute. reflexivity.
  - vm_compute. auto.
  - exists c. split; [exact Hme|exact Hu].
Defined.

(** X7. The receiver cannot give an identity a second Customer: once it
    has created one, running it again for the same identity raises
    IntegrityError on the one-to-one column and leaves the database with
    exactly that one Customer for the identity. *)
Theorem receiver_twice_one_customer (s s1 : Store) (instance : User.t) :
  create_customer_for_new_user instance true s = (s1, inr tt) ->
  create_customer_for_new_user instance true s1 = (s1, inl IntegrityError)
  /\ exists c,
       filter (fun c => Customer.user c =? User.id instance) (customers s1)
       = [c]
       /\ Customer.membership c = MEMBERSHIP_BRONZE
       /\ customers s1 = customers s ++ [c].
Proof.
  unfold create_customer_for_new_user, Customer_objects_create, bind, ret.
  destruct (existsb _ (customers s)) eqn:He; [discriminate|].
  destruct (negb (user_exists (User.id instance) s)); [discriminate|].
  intros H. inversion H; subst. clear H. simpl.
  rewrite existsb_app. simpl. rewrite Z.eqb_refl, orb_true_r.
  split; [reflexivity|].
  exists (Customer.mk (seq_customer s) "" None MEMBERSHIP_BRONZE
            (User.id instance)).
  split; [|split; reflexivity].
  rewrite filter_app, filter_none by exact He. simpl.
  now rewrite Z.eqb_refl.
Qed.

Lemma receiver_twice_one_customer_witness :
  let s := set_users (users demo_store ++ [bob]) demo_store in
  let s1 := fst (create_customer_for_new_user bob true s) in
  create_customer_for_new_user bob true s1 = (s1, inl IntegrityError).
Proof.
  intros s s1.
  apply (receiver_twice_one_customer s s1 bob). vm_compute. reflexivity.
Defined.

(** X8. A non-staff caller cannot fetch an order of another customer by
    its key: when no order of that key belongs to the caller's Customer,
    the object lookup of the view set answers NotFound. *)
Theorem foreign_order_not_found (s : Store) (u : User.t) (c : Customer.t)
                                (pk : Z) :
  User.is_staff u = false ->
  Customer_objects_get (Some (User.id u)) s = (s, inr c) ->
  (forall o, In o (orders s) -> Order.id o = pk ->
             Order.customer o <> Customer.id c) ->
  OrderViewSet_get_object (Authenticated u) pk s = (s, inl NotFound).
Proof.
  intros Hst Hg Hno.
  unfold OrderViewSet_get_object, OrderViewSet_get_queryset, bind,
    get_store, ret, raise, caller_is_staff, caller_id.
  rewrite Hst, Hg.
  rewrite filter_none; [reflexivity|].
  apply not_true_is_false. intros He. apply existsb_exists in He.
  destruct He as [o [Ho Hk]]. apply filter_In in Ho.
  destruct Ho as [Ho Hc]. apply Z.eqb_eq in Hk, Hc.
  exact (Hno o Ho Hk Hc).
Qed.

Lemma foreign_order_not_found_witness :
  In (Order.mk 1 30 PAYMENT_STATUS_PENDING 1) (orders demo_three)
  /\ OrderViewSet_get_object (Authenticated bob) 1 demo_three
     = (demo_three, inl NotFound).
Proof.
  split; [vm_compute; now left|].
  apply (foreign_order_not_found demo_three bob
           (Customer.mk 3 "" None MEMBERSHIP_BRONZE 3) 1).
  - reflexivity.
  - vm_compute. reflexivity.
  - vm_compute. intros o [<-|[]] _. simpl. discriminate.
Defined.

Lemma filter_filter_implied {A} (f g : A -> bool) (l : list A) :
  (forall a, f a = true -> g a = true) ->
  filter f (filter g l) = filter f l.
Proof.
  intros H. induction l as [|a l IH]; simpl; [reflexivity|].
  destruct (g a) eqn:G; simpl.
  - now rewrite IH.
  - rewrite IH. destruct (f a) eqn:F; [|reflexivity].
    apply H in F. congruence.
Qed.

Lemma filter_all {A} (f : A -> bool) (l : list A) :
  (forall a, In a l -> f a = true) -> filter f l = l.
Proof.
  intros H. apply forallb_filter_id. apply forallb_forall. exact H.
Qed.

Lemma existsb_filter_other {A} (key : A -> Z) (k other : Z) (l : list A) :
  other <> k ->
  existsb (fun a => key a =? other) (filter (fun a => negb (key a =? k)) l)
  = existsb (fun a => key a =? other) l.
Proof.
  intros Hne. induction l as [|a l IH]; simpl; [reflexivity|].
  destruct (key a =? k) eqn:E; simpl.
  - rewrite IH. apply Z.eqb_eq in E.
    destruct (key a =? other) eqn:Eo; [|reflexivity].
    apply Z.eqb_eq in Eo. congruence.
  - now rewrite IH.
Qed.

(** X9. Deleting a cart deletes its lines and nothing else: the answer
    is 204, the cart and its lines are gone, every other cart keeps its
    existence and its lines, and products, orders and order items are
    untouched; a key that names no cart gets 404 and changes nothing. *)
Theorem cart_destroy_cascades (s : Store) (pk : Z) :
  (cart_exists pk s = true ->
   let s' := fst (handle (CartDestroy pk) s) in
   snd (handle (CartDestroy pk) s) = mkResponse HTTP_204_NO_CONTENT NoBody
   /\ cart_exists pk s' = false
   /\ items_of_cart pk s' = []
   /\ (forall other, other <> pk ->
                     cart_exists other s' = cart_exists other s
                     /\ items_of_cart other s' = items_of_cart other s)
   /\ products s' = products s
   /\ orders s' = orders s
   /\ orderitems s' = orderitems s)
  /\ (cart_exists pk s = false ->
      handle (CartDestroy pk) s = (s, exception_response NotFound)).
Proof.
  unfold handle, view, respond, CartViewSet_destroy, ModelViewSet_destroy,
    Cart_delete, bind, get_store, ret, raise.
  split; intros Hc; rewrite Hc; cbn [negb fst snd]; [|reflexivity].
  split; [reflexivity|].
  split; [apply (existsb_filter_neg (fun c => Cart.id c =? pk))|].
  split; [apply (filter_filter_neg (fun i => CartItem.cart i =? pk))|].
  split; [|repeat split].
  intros other Hne. split.
  - apply (existsb_filter_other Cart.id); exact Hne.
  - unfold items_of_cart. simpl. apply filter_filter_implied.
    intros i Hi. apply Z.eqb_eq in Hi. rewrite Hi.
    destruct (other =? pk) eqn:E; [|reflexivity].
    apply Z.eqb_eq in E. congruence.
Qed.

Lemma cart_destroy_cascades_witness :
  items_of_cart 77 (fst (handle (CartDestroy 77) demo_second_cart)) = []
  /\ cart_exists 78 (fst (handle (CartDestroy 77) demo_second_cart)) = true
  /\ handle (CartDestroy 5) demo_store
     = (demo_store, exception_response NotFound).
Proof.
  destruct (proj1 (cart_destroy_cascades demo_second_cart 77) eq_refl)
    as [_ [_ [H1 [H2 _]]]].
  split; [exact H1|]. split.
  - rewrite (proj1 (H2 78 ltac:(discriminate))). reflexivity.
  - apply (proj2 (cart_destroy_cascades demo_store 5)). reflexivity.
Defined.

(** X10. Creating a cart under a fresh key and deleting it again gives
    back the database that was there before, in every reachable state. *)
Theorem cart_create_destroy_round_trip (s : Store) (uuid now : Z) :
  reachable s ->
  cart_exists uuid s = false ->
  run [CartCreate uuid now; CartDestroy uuid] s = s.
Proof.
  intros Hr Hc.
  assert (HJ : Integrity s).
  { destruct Hr as [rs ->].
    apply Integrity_run; [apply Inv_empty|apply Integrity_empty]. }
  assert (Hlines : filter (fun i => negb (CartItem.cart i =? uuid))
                     (cartitems s) = cartitems s).
  { apply filter_all. intros i Hi.
    pose proof (int_line_cart s HJ) as J1. unfold refs in J1.
    rewrite Forall_forall in J1. specialize (J1 i Hi). simpl in J1.
    destruct (CartItem.cart i =? uuid) eqn:E; [|reflexivity].
    apply Z.eqb_eq in E. rewrite E in J1. unfold cart_exists in Hc.
    congruence. }
  assert (Hcarts : filter (fun c => negb (Cart.id c =? uuid))
                     (carts s ++ [Cart.mk uuid now]) = carts s).
  { rewrite filter_app. simpl. rewrite Z.eqb_refl. simpl.
    rewrite app_nil_r. apply filter_all. intros c Hin.
    destruct (Cart.id c =? uuid) eqn:E; [|reflexivity].
    assert (Hex : cart_exists uuid s = true)
      by (apply existsb_exists; eauto).
    congruence. }
  unfold run, fold_left, handle, view, respond, CartViewSet_create,
    CartViewSet_destroy, ModelViewSet_destroy, Cart_objects_create,
    Cart_delete, bind, get_store, ret, raise.
  rewrite Hc. cbn [fst snd].
  assert (Hnew : cart_exists uuid
                   (set_carts (carts s ++ [Cart.mk uuid now]) s) = true).
  { unfold cart_exists. simpl. rewrite existsb_app. simpl.
    rewrite Z.eqb_refl. now rewrite orb_true_r. }
  rewrite Hnew. cbn [negb fst snd].
  cbn [carts cartitems set_carts]. rewrite Hlines, Hcarts.
  destruct s. reflexivity.
Qed.

Lemma cart_create_destroy_round_trip_witness :
  run [CartCreate 99 40; CartDestroy 99] demo_store = demo_store.
Proof.
  apply cart_create_destroy_round_trip; [|reflexivity].
  exists demo_requests. reflexivity.
Defined.

(** X11. Reviews and images are reachable only under their own product:
    everything [get_queryset] yields belongs to the product of the URL;
    DELETE under a product that has no review (image) of that key
    answers 404 and changes nothing; otherwise it removes the rows of
    that key from that one table and leaves the products alone. *)
Theorem nested_resources_scoped (s : Store) (product_pk pk : Z) :
  (forall r, In r (ReviewViewSet_get_queryset product_pk s) ->
             In r (reviews s) /\ Review.product r = product_pk)
  /\ (forall i, In i (ProductImageViewSet_get_queryset product_pk s) ->
                In i (productimages s)
                /\ ProductImage.product i = product_pk)
  /\ (filter (fun r => Review.id r =? pk)
        (ReviewViewSet_get_queryset product_pk s) = [] ->
      respond (ReviewViewSet_destroy product_pk pk) s
      = (s, exception_response NotFound))
  /\ (filter (fun i => ProductImage.id i =? pk)
        (ProductImageViewSet_get_queryset product_pk s) = [] ->
      respond (ProductImageViewSet_destroy product_pk pk) s
      = (s, exception_response NotFound))
  /\ (filter (fun r => Review.id r =? pk)
        (ReviewViewSet_get_queryset product_pk s) <> [] ->
      respond (ReviewViewSet_destroy product_pk pk) s
      = (set_reviews (filter (fun r => negb (Review.id r =? pk)) (reviews s))
           s,
         mkResponse HTTP_204_NO_CONTENT NoBody))
  /\ (filter (fun i => ProductImage.id i =? pk)
        (ProductImageViewSet_get_queryset product_pk s) <> [] ->
      respond (ProductImageViewSet_destroy product_pk pk) s
      = (set_productimages
           (filter (fun i => negb (ProductImage.id i =? pk))
              (productimages s)) s,
         mkResponse HTTP_204_NO_CONTENT NoBody)).
Proof.
  split; [|split; [|split; [|split; [|split]]]].
  - intros r Hr. apply filter_In in Hr. destruct Hr as [Hr Hk].
    split; [exact Hr|now apply Z.eqb_eq].
  - intros i Hi. apply filter_In in Hi. destruct Hi as [Hi Hk].
    split; [exact Hi|now apply Z.eqb_eq].
  - intros H. unfold respond, ReviewViewSet_destroy,
      ReviewViewSet_get_object, bind, get_store, raise.
    now rewrite H.
  - intros H. unfold respond, ProductImageViewSet_destroy,
      ProductImageViewSet_get_object, bind, get_store, raise.
    now rewrite H.
  - intros H. unfold respond, ReviewViewSet_destroy,
      ReviewViewSet_get_object, Review_delete, bind, get_store, ret.
    destruct (filter _ (ReviewViewSet_get_queryset product_pk s))
      as [|r rest] eqn:F; [congruence|].
    assert (Hin : In r (filter (fun r => Review.id r =? pk)
                          (ReviewViewSet_get_queryset product_pk s)))
      by (rewrite F; now left).
    apply filter_In in Hin. destruct Hin as [_ Hk]. apply Z.eqb_eq in Hk.
    now rewrite Hk.
  - intros H. unfold respond, ProductImageViewSet_destroy,
      ProductImageViewSet_get_object, ProductImage_delete, bind, get_store,
      ret.
    destruct (filter _ (ProductImageViewSet_get_queryset product_pk s))
      as [|i rest] eqn:F; [congruence|].
    assert (Hin : In i (filter (fun i => ProductImage.id i =? pk)
                          (ProductImageViewSet_get_queryset product_pk s)))
      by (rewrite F; now left).
    apply filter_In in Hin. destruct Hin as [_ Hk]. apply Z.eqb_eq in Hk.
    now rewrite Hk.
Qed.

Lemma nested_resources_scoped_witness :
  respond (ReviewViewSet_destroy 2 1) demo_catalog
  = (demo_catalog, exception_response NotFound)
  /\ reviews (fst (respond (ReviewViewSet_destroy 1 1) demo_catalog))
     = [Review.mk 2 2 "Bo" "Ok" 13].
Proof.
  destruct (nested_resources_scoped demo_catalog 2 1)
    as [_ [_ [H404 _]]].
  destruct (nested_resources_scoped demo_catalog 1 1)
    as [_ [_ [_ [_ [Hdel _]]]]].
  split.
  - apply H404. vm_compute. reflexivity.
  - rewrite Hdel by (vm_compute; discriminate). vm_compute. reflexivity.
Defined.

Lemma check_permissions_pass {A} ps user (m : M A) s :
  forallb (fun p => has_permission p user) ps = true ->
  (check_permissions ps user ;;; m) s = m s.
Proof.
  intros H. unfold check_permissions, bind, ret. now rewrite H.
Qed.

Lemma CustomerViewSet_destroy_staff user pk s :
  caller_is_staff user = true ->
  CustomerViewSet_destroy user pk s
  = if customer_exists pk s
    then if existsb (fun o => Order.customer o =? pk) (orders s)
         then (s, inl ProtectedError)
         else (set_customers
                 (filter (fun c => negb (Customer.id c =? pk)) (customers s))
                 (set_addresses
                    (filter (fun a => negb (Address.customer a =? pk))
                       (addresses s)) s),
               inr (mkResponse HTTP_204_NO_CONTENT NoBody))
    else (s, inl NotFound).
Proof.
  intros Hst. unfold CustomerViewSet_destroy.
  rewrite check_permissions_pass
    by (unfold CustomerViewSet_permission_classes; simpl; now rewrite Hst).
  unfold ModelViewSet_destroy, Customer_delete, bind, get_store, ret, raise.
  destruct (customer_exists pk s); cbn [negb]; [|reflexivity].
  now destruct (existsb _ (orders s)).
Qed.

(** X12. Deleting a customer. A caller who is not staff is refused and
    nothing changes. For a staff caller, a customer that has orders
    cannot be deleted: the uncaught ProtectedError is a server error and
    nothing changes. A customer without orders is deleted together with
    its addresses, while its identity stays; from then on that identity
    has no Customer, so its "me" action raises DoesNotExist and its
    order list is a server error. *)
Theorem customer_destroy_outcomes (s : Store) (user : Caller) (pk : Z) :
  (caller_is_staff user = false ->
   fst (respond (CustomerViewSet_destroy user pk) s) = s
   /\ In (status_code (snd (respond (CustomerViewSet_destroy user pk) s)))
        [HTTP_401_UNAUTHORIZED; HTTP_403_FORBIDDEN])
  /\ (caller_is_staff user = true ->
      customer_exists pk s = true ->
      existsb (fun o => Order.customer o =? pk) (orders s) = true ->
      respond (CustomerViewSet_destroy user pk) s
      = (s, exception_response ProtectedError))
  /\ (caller_is_staff user = true ->
      customer_exists pk s = true ->
      existsb (fun o => Order.customer o =? pk) (orders s) = false ->
      let s' := fst (respond (CustomerViewSet_destroy user pk) s) in
      snd (respond (CustomerViewSet_destroy user pk) s)
      = mkResponse HTTP_204_NO_CONTENT NoBody
      /\ customer_exists pk s' = false
      /\ (forall a, In a (addresses s') -> Address.customer a <> pk)
      /\ users s' = users s
      /\ orders s' = orders s
      /\ (forall u,
             (forall c, In c (customers s) ->
                        Customer.user c = User.id u -> Customer.id c = pk) ->
             CustomerViewSet_me_get (Authenticated u) s'
             = (s', inl DoesNotExist)
             /\ (User.is_staff u = false ->
                 handle (OrderList (Authenticated u)) s'
                 = (s', exception_response DoesNotExist)))).
Proof.
  split; [|split].
  - intros Hst.
    unfold respond, CustomerViewSet_destroy, check_permissions,
      CustomerViewSet_permission_classes, bind, ret, raise.
    cbn [forallb has_permission andb]. rewrite Hst. cbn [andb].
    destruct (caller_is_authenticated user); simpl; auto.
  - intros Hst Hc Ho. unfold respond.
    now rewrite CustomerViewSet_destroy_staff, Hc, Ho by exact Hst.
  - intros Hst Hc Ho s'.
    assert (Hs : respond (CustomerViewSet_destroy user pk) s
                 = (set_customers
                      (filter (fun c => negb (Customer.id c =? pk))
                         (customers s))
                      (set_addresses
                         (filter (fun a => negb (Address.customer a =? pk))
                            (addresses s)) s),
                    mkResponse HTTP_204_NO_CONTENT NoBody)).
    { unfold respond.
      now rewrite CustomerViewSet_destroy_staff, Hc, Ho by exact Hst. }
    subst s'. rewrite Hs. cbn [fst snd].
    split; [reflexivity|].
    split; [apply (existsb_filter_neg (fun c => Customer.id c =? pk))|].
    split; [intros a; apply (filter_out_key Address.customer)|].
    split; [reflexivity|]. split; [reflexivity|].
    intros u Honly.
    assert (Hnone : filter (fun c => Customer.user c =? User.id u)
                      (filter (fun c => negb (Customer.id c =? pk))
                         (customers s)) = []).
    { apply filter_none. apply not_true_is_false. intros He.
      apply existsb_exists in He. destruct He as [c [Hin Hk]].
      apply filter_In in Hin. destruct Hin as [Hin Hne].
      apply Z.eqb_eq in Hk. rewrite (Honly c Hin Hk), Z.eqb_refl in Hne.
      discriminate. }
    assert (Hg : Customer_objects_get (Some (User.id u))
                   (set_customers
                      (filter (fun c => negb (Customer.id c =? pk))
                         (customers s))
                      (set_addresses
                         (filter (fun a => negb (Address.customer a =? pk))
                            (addresses s)) s))
                 = (set_customers
                      (filter (fun c => negb (Customer.id c =? pk))
                         (customers s))
                      (set_addresses
                         (filter (fun a => negb (Address.customer a =? pk))
                            (addresses s)) s), inl DoesNotExist)).
    { unfold Customer_objects_get. cbn [customers set_customers].
      now rewrite Hnone. }
    split.
    + unfold CustomerViewSet_me_get, check_permissions, bind, ret.
      cbn [forallb has_permission caller_is_authenticated andb caller_id].
      exact Hg.
    + intros Hns. unfold handle, view.
      rewrite dispatch_allowed by reflexivity.
      unfold respond, OrderViewSet_list, OrderViewSet_get_queryset, bind,
        get_store, ret, caller_is_staff, caller_id.
      rewrite Hns, Hg. reflexivity.
Qed.

Lemma customer_destroy_outcomes_witness :
  respond (CustomerViewSet_destroy (Authenticated admin) 1) demo_ordered
  = (demo_ordered, exception_response ProtectedError)
  /\ CustomerViewSet_me_get (Authenticated bob)
       (fst (respond (CustomerViewSet_destroy (Authenticated admin) 3)
               demo_three))
     = (fst (respond (CustomerViewSet_destroy (Authenticated admin) 3)
               demo_three), inl DoesNotExist).
Proof.
  split.
  - apply (proj1 (proj2 (customer_destroy_outcomes demo_ordered
                           (Authenticated admin) 1))); reflexivity.
  - destruct (proj2 (proj2 (customer_destroy_outcomes demo_three
                              (Authenticated admin) 3))
                eq_refl eq_refl eq_refl) as [_ [_ [_ [_ [_ H]]]]].
    apply (H bob). vm_compute.
    intros c [<-|[<-|[<-|[]]]]; simpl; intros E; congruence.
Defined.

(** X13. No request deletes or rewrites an order item: after any
    sequence of requests the order items that were there are still
    there, in the same order, followed by the new ones. *)
Theorem order_items_append_only (rs : list Request) (s : Store) :
  exists new, orderitems (run rs s) = orderitems s ++ new.
Proof.
  revert s. induction rs as [|r rs IH]; intros s; simpl.
  - exists []. now rewrite app_nil_r.
  - destruct (items_grow_handle r s) as [new1 [H1 _]].
    destruct (IH (fst (handle r s))) as [new2 H2].
    exists (new1 ++ new2). now rewrite H2, H1, app_assoc.
Qed.

Lemma lower_upper_names :
  map lower ["GET"; "POST"; "PATCH"; "DELETE"; "HEAD"; "OPTIONS"; "PUT"]
  = ["get"; "post"; "patch"; "delete"; "head"; "options"; "put"].
Proof. reflexivity. Qed.

(** X14. Which methods reach a handler. The cart item views answer GET,
    POST, PATCH and DELETE and the order views also HEAD and OPTIONS;
    any other method name, PUT included, gets 405 without touching the
    database. On orders the permission check comes first, so an
    anonymous caller is refused as unauthenticated whatever the
    method. *)
Theorem unlisted_method_not_allowed (s : Store) (method : string)
                                    (user : Caller) (handler : M Response) :
  (In method ["GET"; "POST"; "PATCH"; "DELETE"] ->
   CartItemViewSet_route method handler = handler)
  /\ (In method ["GET"; "POST"; "PATCH"; "DELETE"; "HEAD"; "OPTIONS"] ->
      OrderViewSet_route method user handler
      = OrderViewSet_dispatch method user handler)
  /\ (~ In (lower method) CartItemViewSet_http_method_names ->
      respond (CartItemViewSet_route method handler) s
      = (s, method_not_allowed))
  /\ (~ In (lower method) OrderViewSet_http_method_names ->
      respond (OrderViewSet_route method user handler) s
      = (s, if caller_is_authenticated user then method_not_allowed
            else exception_response NotAuthenticated))
  /\ ~ In (lower "PUT") OrderViewSet_http_method_names.
Proof.
  assert (Hnot : forall names,
             ~ In (lower method) names ->
             method_handled names method = false).
  { intros names Hn. unfold method_handled. apply not_true_is_false.
    intros He. apply existsb_exists in He. destruct He as [m [Hm He]].
    apply String.eqb_eq in He. subst. auto. }
  split; [|split; [|split; [|split]]].
  - intros Hm. unfold CartItemViewSet_route.
    simpl in Hm. decompose [or] Hm; subst; try reflexivity. contradiction.
  - intros Hm. unfold OrderViewSet_route.
    simpl in Hm. decompose [or] Hm; subst; try reflexivity. contradiction.
  - intros Hn. unfold CartItemViewSet_route. now rewrite Hnot.
  - intros Hn. unfold OrderViewSet_route. rewrite Hnot by exact Hn.
    assert (Hperm : OrderViewSet_get_permissions method = [IsAuthenticated]).
    { unfold OrderViewSet_get_permissions.
      destruct (existsb (String.eqb method) ["PATCH"; "DELETE"]) eqn:E;
        [|reflexivity].
      exfalso. apply Hn. apply existsb_exists in E.
      destruct E as [m [Hm He]]. apply String.eqb_eq in He. subst m.
      simpl in Hm. destruct Hm as [<-|[<-|[]]]; simpl; auto. }
    unfold OrderViewSet_dispatch, check_permissions, respond, bind, ret,
      raise.
    rewrite Hperm. cbn [forallb has_permission andb].
    destruct (caller_is_authenticated user); reflexivity.
  - simpl. intros H. decompose [or] H; discriminate || contradiction.
Qed.

Lemma unlisted_method_not_allowed_witness :
  respond (CartItemViewSet_route "PUT" (CartItemViewSet_create 77 1 1))
    demo_store
  = (demo_store, method_not_allowed)
  /\ respond
       (OrderViewSet_route "PUT" AnonymousUser
          (OrderViewSet_create None AnonymousUser 77 30)) demo_store
     = (demo_store, exception_response NotAuthenticated).
Proof.
  split.
  - apply (proj1 (proj2 (proj2 (unlisted_method_not_allowed demo_store "PUT"
                                  AnonymousUser
                                  (CartItemViewSet_create 77 1 1))))).
    simpl. intros H. decompose [or] H; discriminate || contradiction.
  - apply (proj1 (proj2 (proj2 (proj2
             (unlisted_method_not_allowed demo_store "PUT" AnonymousUser
                (OrderViewSet_create None AnonymousUser 77 30)))))).
    simpl. intros H. decompose [or] H; discriminate || contradiction.
Defined.

(** X15. In every reachable state the display name of a customer is
    defined: the identity it reads exists, has the key the customer
    refers to, and the name is its first name, a space and its last
    name. *)
Theorem customer_str_defined (s : Store) (c : Customer.t) :
  reachable s ->
  In c (customers s) ->
  exists u,
    Customer_user c s = Some u
    /\ In u (users s)
    /\ User.id u = Customer.user c
    /\ Customer_str c s
       = Some (User.first_name u ++ " " ++ User.last_name u)%string.
Proof.
  intros Hr Hc.
  assert (HJ : Integrity s).
  { destruct Hr as [rs ->].
    apply Integrity_run; [apply Inv_empty|apply Integrity_empty]. }
  pose proof (int_customer_user s HJ) as J6. unfold refs in J6.
  rewrite Forall_forall in J6. specialize (J6 c Hc).
  destruct (find_of_existsb _ _ J6) as [u Hu].
  exists u. unfold Customer_str, Customer_user. rewrite Hu.
  apply find_some in Hu. destruct Hu as [Hin Hk]. apply Z.eqb_eq in Hk.
  repeat split; assumption.
Qed.

Lemma customer_str_defined_witness :
  Customer_str (Customer.mk 1 "" None MEMBERSHIP_BRONZE 1) demo_store
  = Some "Alice Liddell".
Proof.
  destruct (customer_str_defined demo_store
              (Customer.mk 1 "" None MEMBERSHIP_BRONZE 1))
    as [u [Hu [_ [_ Hs]]]].
  - exists demo_requests. reflexivity.
  - vm_compute. now left.
  - vm_compute in Hu. inversion Hu; subst. vm_compute in Hs. exact Hs.
Defined.

(** X16. Deleting a cart line through its cart answers 204 and removes
    the rows of that key from the cart lines, leaving every line of
    another key, the carts and the products as they were; afterwards the
    key is found under no cart, so a second DELETE or a PATCH on it
    answers 404. *)
Theorem cart_item_destroy_then_not_found (s : Store) (cart_pk pk : Z)
                                         (instance : CartItem.t) :
  CartItemViewSet_get_object cart_pk pk s = (s, inr instance) ->
  let s' := fst (handle (CartItemDestroy cart_pk pk) s) in
  snd (handle (CartItemDestroy cart_pk pk) s)
  = mkResponse HTTP_204_NO_CONTENT NoBody
  /\ cartitems s'
     = filter (fun i => negb (CartItem.id i =? pk)) (cartitems s)
  /\ (forall i, In i (cartitems s) -> CartItem.id i <> pk ->
                In i (cartitems s'))
  /\ carts s' = carts s
  /\ products s' = products s
  /\ (forall any_cart quantity,
         handle (CartItemDestroy any_cart pk) s'
         = (s', exception_response NotFound)
         /\ handle (CartItemUpdate any_cart pk quantity) s'
            = (s', exception_response NotFound)).
Proof.
  intros Hg s'.
  assert (Hid : CartItem.id instance = pk).
  { unfold CartItemViewSet_get_object, bind, get_store, ret, raise in Hg.
    destruct (filter _ (items_of_cart cart_pk s)) as [|i rest] eqn:F;
      [discriminate|].
    inversion Hg; subst.
    assert (Hin : In instance
                    (filter (fun i => CartItem.id i =? pk)
                       (items_of_cart cart_pk s)))
      by (rewrite F; now left).
    apply filter_In in Hin. now apply Z.eqb_eq. }
  assert (Hh : handle (CartItemDestroy cart_pk pk) s
               = (set_cartitems
                    (filter (fun i => negb (CartItem.id i =? pk))
                       (cartitems s)) s,
                  mkResponse HTTP_204_NO_CONTENT NoBody)).
  { unfold handle, view, respond, CartItemViewSet_destroy, bind.
    rewrite Hg. unfold CartItem_delete, ret. now rewrite Hid. }
  subst s'. rewrite Hh. cbn [fst snd].
  split; [reflexivity|]. split; [reflexivity|]. split.
  { intros i Hi Hne. apply filter_In. split; [exact Hi|].
    destruct (CartItem.id i =? pk) eqn:E; [|reflexivity].
    apply Z.eqb_eq in E. contradiction. }
  split; [reflexivity|]. split; [reflexivity|].
  intros any_cart quantity.
  assert (Hnone : filter (fun i => CartItem.id i =? pk)
                    (items_of_cart any_cart
                       (set_cartitems
                          (filter (fun i => negb (CartItem.id i =? pk))
                             (cartitems s)) s)) = []).
  { apply filter_none. apply not_true_is_false. intros He.
    apply existsb_exists in He. destruct He as [i [Hi Hk]].
    unfold items_of_cart in Hi. apply filter_In in Hi.
    destruct Hi as [Hi _]. simpl in Hi. apply filter_In in Hi.
    destruct Hi as [_ Hne]. now rewrite Hk in Hne. }
  unfold handle, view, respond, CartItemViewSet_partial_update,
    CartItemViewSet_destroy, CartItemViewSet_get_object.
  unfold bind, get_store, raise. rewrite Hnone. split; reflexivity.
Qed.

Lemma cart_item_destroy_then_not_found_witness :
  cartitems (fst (handle (CartItemDestroy 77 1) demo_store))
  = [CartItem.mk 2 77 2 1]
  /\ snd (handle (CartItemUpdate 77 1 4)
            (fst (handle (CartItemDestroy 77 1) demo_store)))
     = exception_response NotFound.
Proof.
  destruct (cart_item_destroy_then_not_found demo_store 77 1
              (CartItem.mk 1 77 1 2)) as [_ [Hc [_ [_ [_ Hn]]]]].
  - vm_compute. reflexivity.
  - split.
    + rewrite Hc. vm_compute. reflexivity.
    + rewrite (proj2 (Hn 77 4)). reflexivity.
Defined.
